(** * WebODM / Tapis OAuth2 integration: a shallow embedding

    This development embeds, function by function, the Python code of the
    Tapis OAuth2 login flow and of the flight-discovery scanner:

    - [app/models/oauth2.py]            (token and state rows, expiry tests)
    - [app/models/tapis_preferences.py] (discovery preferences, cooldown)
    - [app/auth/tapis_oauth2.py]        (local JWT decoding, user lookup)
    - [app/services/tapis_storage.py]   (directory scan, project creation)
    - [app/api/tapis_oauth2.py]         (authorize, callback, refresh views)

    Modelling conventions.

    - Python values that come out of [json.loads] / [response.json()] are
      dynamically typed; they are values of [pyval], and every attribute
      access, subscript or iteration the code performs on them is written
      with the exception Python raises when the value has the wrong shape.
      A [str] is a [string] whose characters are the code points below
      256, one character each; texts with other characters are outside the
      model.  A [float] is a [spec_float] of the standard library.
    - Exceptions are results: a computation has type [res A], or [eff A]
      when it also reads and writes the database.  A [try]/[except] block
      is [try_except]; database writes made before a [raise] are kept, as
      with Django's autocommit.
    - A [datetime] is an integer number of microseconds since the epoch;
      [timezone.now()] is a parameter of each request handler.
    - Table rows hold the values the code assigns to the model fields;
      the text columns of the token table hold them as Django prepares
      them for the database (a string as it is, [str] of any other
      value).  Tables with a uniqueness constraint are finite maps keyed by
      the constrained columns; a row is deleted at the key it was found
      under.  Queries succeed; a write fails only on a constraint the
      models declare (uniqueness, NOT NULL, the lengths of [token_type],
      of [state] and of [redirect_after_auth]).
    - [HttpResponseRedirect] refuses a target whose scheme is not one of
      http, https and ftp: building the response raises, inside the [try]
      block of the view.
    - Calls that leave the process (the token endpoint, the Tapis files
      API, the Celery broker, [secrets]) are fields of a [world] record,
      and functions of the Python standard library whose code is not part
      of the repository ([base64], [json], [str()], [int()], [urlencode])
      are fields of the class [PyLib]; theorems hold for every world and
      every library (the one on the stored access token assumes of [str]
      that the text of a dictionary is longer than a string among its
      values). *)

From Stdlib Require Import ZArith String Ascii List Lia Bool.
From Stdlib Require Import Floats.SpecFloat.
From Stdlib Require QArith Qpower.
From stdpp Require Import base tactics option list gmap strings pretty.

Open Scope string_scope.
Set Warnings "-register-all".

(** ** Python values *)

(** The values [json.loads] gives.  A JSON number with a fraction or an
    exponent, and the literals [NaN], [Infinity] and [-Infinity] that
    [json.loads] accepts, give a [float]: a binary floating-point number, an
    infinity or a NaN. *)
Inductive pyval : Type :=
| VNone
| VBool (b : bool)
| VInt (n : Z)
| VStr (s : string)
| VList (l : list pyval)
| VDict (d : list (string * pyval))
| VFloat (f : spec_float).

(** Truth value testing, as [if v:] and [not v] do it. *)
Definition truthy (v : pyval) : bool :=
  match v with
  | VNone => false
  | VBool b => b
  | VInt n => negb (n =? 0)%Z
  | VStr s => negb (s =? "")
  | VList l => match l with [] => false | _ => true end
  | VDict d => match d with [] => false | _ => true end
  | VFloat f => match f with S754_zero _ => false | _ => true end
  end.

(** [a or b] and [a and b] return one of their operands. *)
Definition py_or (a b : pyval) : pyval := if truthy a then a else b.
Definition py_and (a b : pyval) : pyval := if truthy a then b else a.

Fixpoint dict_get (d : list (string * pyval)) (k : string) : option pyval :=
  match d with
  | [] => None
  | (k', v) :: d' => if (k' =? k) then Some v else dict_get d' k
  end.

Definition dict_has (d : list (string * pyval)) (k : string) : bool :=
  match dict_get d k with Some _ => true | None => false end.

(** ** Exceptions *)

Inductive exn : Type :=
| AttributeError
| TypeError
| ValueError
| KeyError
| OverflowError
| ImportError
| BinasciiError
| JSONDecodeError
| UnicodeDecodeError
| RequestException
| DoesNotExist
| IntegrityError
| DataError
| Http404
| DisallowedRedirect
| OtherException.

Inductive res (A : Type) : Type :=
| Ret (a : A)
| Raise (e : exn).
Arguments Ret {A} a.
Arguments Raise {A} e.

Global Instance res_ret : MRet res := λ A a, Ret a.
Global Instance res_bind : MBind res := λ A B f m,
  match m with Ret a => f a | Raise e => Raise e end.

(** [try: body except <classes>: handler] *)
Definition try_except {A} (body : res A) (classes : exn → bool)
    (handler : exn → res A) : res A :=
  match body with
  | Ret a => Ret a
  | Raise e => if classes e then handler e else Raise e
  end.

(** Every exception of the model derives from [Exception]. *)
Definition Exception (e : exn) : bool := true.

Global Instance exn_eq_dec : EqDecision exn.
Proof. solve_decision. Defined.

(** [except E:] for a single class [E]. *)
Definition only (e0 : exn) : exn → bool := λ e, bool_decide (e = e0).

(** ** Operations on dynamically typed values *)

(** [v.get(k, default)]: only a dict has [get]. *)
Definition get (v : pyval) (k : string) (default : pyval) : res pyval :=
  match v with
  | VDict d => Ret (match dict_get d k with Some x => x | None => default end)
  | _ => Raise AttributeError
  end.

(** [v.keys()] *)
Definition keys (v : pyval) : res (list string) :=
  match v with
  | VDict d => Ret (d.*1)
  | _ => Raise AttributeError
  end.

(** [v[k]] for a string literal [k]. *)
Definition subscript (v : pyval) (k : string) : res pyval :=
  match v with
  | VDict d => match dict_get d k with Some x => Ret x | None => Raise KeyError end
  | _ => Raise TypeError
  end.

(** [v == 's'] for a string literal. *)
Definition eq_str (v : pyval) (s : string) : bool :=
  match v with VStr s' => (s' =? s) | _ => false end.

Fixpoint chars (s : string) : list pyval :=
  match s with
  | EmptyString => []
  | String c s' => VStr (String c EmptyString) :: chars s'
  end.

(** [k in v] for a string literal [k]. *)
Definition has_key (v : pyval) (k : string) : res bool :=
  match v with
  | VDict d => Ret (dict_has d k)
  | VList l => Ret (existsb (λ x, match x with VStr s => (s =? k) | _ => false end) l)
  | VStr s => Ret ((fix sub (s : string) : bool :=
                      String.prefix k s ||
                      match s with EmptyString => false | String _ s' => sub s' end) s)
  | _ => Raise TypeError
  end.

(** [v[:50]] *)
Definition slice50 (v : pyval) : res unit :=
  match v with
  | VStr _ | VList _ => Ret tt
  | _ => Raise TypeError
  end.

(** [for item in v]: the items a loop visits, or [TypeError]. *)
Definition iter (v : pyval) : res (list pyval) :=
  match v with
  | VList l => Ret l
  | VStr s => Ret (chars s)
  | VDict d => Ret (VStr <$> d.*1)
  | _ => Raise TypeError
  end.

(** [len(v)] *)
Definition len (v : pyval) : res nat :=
  match v with
  | VList l => Ret (length l)
  | VStr s => Ret (String.length s)
  | VDict d => Ret (length d)
  | _ => Raise TypeError
  end.

(** ** Strings *)

(** The lower-case form of a character below 256: the letters A-Z and the
    accented capitals 192 to 222 (U+00C0 to U+00DE, but for the
    multiplication sign 215) move up by 32. *)
Definition lower_char (c : ascii) : ascii :=
  let n := nat_of_ascii c in
  if ((65 <=? n) && (n <=? 90) || (192 <=? n) && (n <=? 222) && negb (n =? 215))%nat
  then ascii_of_nat (n + 32) else c.

(** [s.lower()] *)
Fixpoint lower (s : string) : string :=
  match s with
  | EmptyString => EmptyString
  | String c s' => String (lower_char c) (lower s')
  end.

(** White space, as [str.strip()] and [str.isspace()] see it among the
    characters below 256: the characters 9 to 13, 28 to 31 and the space,
    the next-line character 133 (U+0085) and the no-break space 160
    (U+00A0). *)
Definition is_space (c : ascii) : bool :=
  let n := nat_of_ascii c in
  ((9 <=? n) && (n <=? 13) || (28 <=? n) && (n <=? 32) || (n =? 133) || (n =? 160))%nat.

(** [s.lstrip()], [s.rstrip()] and [s.strip()] *)
Fixpoint lstrip_ws (s : string) : string :=
  match s with
  | EmptyString => EmptyString
  | String c s' => if is_space c then lstrip_ws s' else s
  end.

Fixpoint rstrip_ws (s : string) : string :=
  match s with
  | EmptyString => EmptyString
  | String a s' =>
      match rstrip_ws s' with
      | EmptyString => if is_space a then EmptyString else String a EmptyString
      | r => String a r
      end
  end.

Definition strip (s : string) : string := rstrip_ws (lstrip_ws s).

(** [s.endswith(suffix)] *)
Fixpoint endswith (s suffix : string) : bool :=
  (s =? suffix) ||
  match s with
  | EmptyString => false
  | String _ s' => endswith s' suffix
  end.

(** [needle in s] *)
Fixpoint contains (s needle : string) : bool :=
  String.prefix needle s ||
  match s with
  | EmptyString => false
  | String _ s' => contains s' needle
  end.

(** [s.split(sep)] for a one-character separator. *)
Fixpoint split (sep : ascii) (s : string) : list string :=
  match s with
  | EmptyString => [EmptyString]
  | String c s' =>
      if Ascii.eqb c sep then EmptyString :: split sep s'
      else match split sep s' with
           | hd :: tl => String c hd :: tl
           | [] => [String c EmptyString]
           end
  end.

(** [s.rstrip(c)] for a one-character set. *)
Fixpoint rstrip (c : ascii) (s : string) : string :=
  match s with
  | EmptyString => EmptyString
  | String a s' =>
      match rstrip c s' with
      | EmptyString => if Ascii.eqb a c then EmptyString else String a EmptyString
      | r => String a r
      end
  end.

(** The [icontains] lookup of a queryset: containment up to letter case. *)
Definition icontains (s needle : string) : bool :=
  contains (lower s) (lower needle).

(** ['=' * n] *)
Fixpoint repeat_eq (n : nat) : string :=
  match n with O => EmptyString | S n' => String "="%char (repeat_eq n') end.

(** ** Time *)

Definition datetime := Z.
Definition timedelta_seconds (n : Z) : Z := (n * 1000000)%Z.
Definition timedelta_minutes (n : Z) : Z := (n * 60 * 1000000)%Z.
Definition timedelta_hours (n : Z) : Z := (n * 3600 * 1000000)%Z.

(** [datetime.min] and [datetime.max]; a sum outside raises. *)
Definition datetime_min : Z := (-62135596800000000)%Z.
Definition datetime_max : Z := 253402300799999999%Z.

Definition datetime_add (t : datetime) (delta : Z) : res datetime :=
  let r := (t + delta)%Z in
  if (datetime_min <=? r)%Z && (r <=? datetime_max)%Z then Ret r
  else Raise OverflowError.

(** [int(time.time())] *)
Definition unix_seconds (now : datetime) : Z := (now ÷ 1000000)%Z.

(** ** The Python library *)

Class PyLib : Type := {
  (** [str(v)], as an f-string and a [CharField] apply it *)
  py_str : pyval → string;
  py_str_str : ∀ s, py_str (VStr s) = s;
  (** [int(v)] *)
  py_int : pyval → res Z;
  py_int_int : ∀ n, py_int (VInt n) = Ret n;
  (** [base64.urlsafe_b64decode], [bytes.decode('utf-8')], [json.loads] *)
  urlsafe_b64decode : string → res (list Byte.byte);
  decode_utf8 : list Byte.byte → res string;
  json_loads : string → res pyval;
  (** [urllib.parse.urlencode] and [urllib.parse.urljoin] *)
  urlencode : list (string * string) → string;
  urljoin : string → string → string;
  (** [urllib.parse.urlparse(url).scheme], or the exception [urlparse]
      raises *)
  urlparse_scheme : string → res string;
  (** [str(d)] and [d.isoformat()] for a [datetime] *)
  str_datetime : datetime → string;
  isoformat : datetime → string;
  (** [User.objects.create_user(username=, email=, first_name=, last_name=)]:
      the column values Django derives for the new row (it normalises the
      name and the e-mail address), or the exception it raises *)
  create_user_fields :
    pyval → pyval → pyval → pyval → res (string * string * string * string);
}.


(** ** Data model: [app/models/oauth2.py] *)

Module TapisOAuth2Client.
Record t : Type := {
  client_id : string;
  client_secret : string;
  tenant_id : string;
  base_url : string;
  authorization_url : string;
  token_url : string;
  callback_url : string;
  name : string;
  is_active : bool;
}.
End TapisOAuth2Client.

Module TapisOAuth2Token.
(** [user] is the owner's primary key, [client] the client's
    [client_id]; [(user, client)] is [unique_together]. *)
Record t : Type := {
  user : nat;
  client : string;
  access_token : pyval;
  refresh_token : pyval;
  token_type : pyval;
  scope : pyval;
  expires_at : option datetime;
}.

Definition is_expired (now : datetime) (self : t) : bool :=
  match expires_at self with
  | None => false
  | Some e => bool_decide (now > e)%Z
  end.

(** [return self.access_token and not self.is_expired] *)
Definition is_valid (now : datetime) (self : t) : pyval :=
  py_and (access_token self) (VBool (negb (is_expired now self))).

(** The four text columns are declared without [null=True]. *)
Definition not_null (self : t) : bool :=
  match access_token self, refresh_token self, token_type self, scope self with
  | VNone, _, _, _ | _, VNone, _, _ | _, _, VNone, _ | _, _, _, VNone => false
  | _, _, _, _ => true
  end.

(** What a text column stores of the value assigned to the field:
    [TextField.get_prep_value] (and [CharField]'s) leaves a string and
    [None] as they are and applies [str] to any other value. *)
Definition get_prep_value `{PyLib} (value : pyval) : pyval :=
  match value with
  | VNone => VNone
  | VStr s => VStr s
  | _ => VStr (py_str value)
  end.

(** [token_type] is a [CharField(max_length=50)]: a database that
    enforces the length refuses a longer text. *)
Definition fits `{PyLib} (self : t) : bool :=
  (String.length (py_str (token_type self)) <=? 50)%nat.

(** The row that is written for the instance [self]. *)
Definition prepared `{PyLib} (self : t) : t := {|
  user := user self;
  client := client self;
  access_token := get_prep_value (access_token self);
  refresh_token := get_prep_value (refresh_token self);
  token_type := get_prep_value (token_type self);
  scope := get_prep_value (scope self);
  expires_at := expires_at self;
|}.
End TapisOAuth2Token.

Module TapisOAuth2State.
Record t : Type := {
  state : string;
  user : option nat;
  client : string;
  redirect_after_auth : string;
  additional_data : string;
  expires_at : datetime;
}.

Definition is_expired (now : datetime) (self : t) : bool :=
  bool_decide (now > expires_at self)%Z.

(** [state] is a [CharField(max_length=128)], [redirect_after_auth] a
    [URLField], whose [max_length] is 200: the database refuses a longer
    value. *)
Definition fits (self : t) : bool :=
  (String.length (state self) <=? 128)%nat
  && (String.length (redirect_after_auth self) <=? 200)%nat.
End TapisOAuth2State.

(** ** Data model: [app/models/tapis_preferences.py] *)

Module TapisUserPreferences.
Record t : Type := {
  user : nat;
  auto_discover_on_login : bool;
  max_projects_per_discovery : Z;
  discovery_cooldown_hours : Z;
  notify_on_discovery_complete : bool;
  notify_on_discovery_errors : bool;
  preferred_systems : string;
  last_auto_discovery : option datetime;
}.

(** The [defaults] of [get_or_create_for_user]. *)
Definition defaults (u : nat) : t := {|
  user := u;
  auto_discover_on_login := true;
  max_projects_per_discovery := 50;
  discovery_cooldown_hours := 24;
  notify_on_discovery_complete := true;
  notify_on_discovery_errors := true;
  preferred_systems := "";
  last_auto_discovery := None;
|}.

Definition should_run_auto_discovery (now : datetime) (self : t) : bool :=
  if negb (auto_discover_on_login self) then false
  else match last_auto_discovery self with
       | Some last =>
           let cooldown_delta := timedelta_hours (discovery_cooldown_hours self) in
           if (now - last <? cooldown_delta)%Z then false else true
       | None => true
       end.

Definition set_last_auto_discovery (v : option datetime) (self : t) : t := {|
  user := user self;
  auto_discover_on_login := auto_discover_on_login self;
  max_projects_per_discovery := max_projects_per_discovery self;
  discovery_cooldown_hours := discovery_cooldown_hours self;
  notify_on_discovery_complete := notify_on_discovery_complete self;
  notify_on_discovery_errors := notify_on_discovery_errors self;
  preferred_systems := preferred_systems self;
  last_auto_discovery := v;
|}.
End TapisUserPreferences.

(** ** Rows of the host application *)

Module User.
Record t : Type := {
  id : nat;
  username : string;
  email : string;
  first_name : string;
  last_name : string;
}.
End User.

(** Modelled from the spec: the project record of the host application
    ([app/models/project.py] is not among the sources), with the fields
    [create_project_from_flight] fills: the owner, the name, the
    description and the free-text tag field that the duplicate check
    searches. *)
Module Project.
Record t : Type := {
  id : nat;
  owner : nat;
  name : string;
  description : string;
  tags : string;
}.
End Project.

(** Modelled from the spec: the task record of the host application
    ([app/models/task.py] is not among the sources), with the fields
    [_create_task_for_flight] fills. *)
Module Task.
Record t : Type := {
  id : nat;
  project : nat;
  name : string;
  import_url : string;
}.
End Task.

(** ** The database, the session and the order of effects *)

(** What [_trigger_flight_discovery] does that a later observer can tell
    apart, in program order. *)
Inductive event : Type :=
| TaskDispatched (user_id : nat) (client_id : string)
| ScanReturned (projects_created : nat)
| ScanRaised (e : exn)
| LastDiscoveryUpdated (user_id : nat) (t : datetime).

Record store : Type := {
  clients : gmap string TapisOAuth2Client.t;
  states : gmap string TapisOAuth2State.t;
  tokens : gmap (nat * string) TapisOAuth2Token.t;
  users : gmap string User.t;
  preferences : gmap nat TapisUserPreferences.t;
  projects : list Project.t;
  tasks : list Task.t;
  session : option nat;
  events : list event;
}.

Definition set_states (f : gmap string TapisOAuth2State.t → gmap string TapisOAuth2State.t)
    (s : store) : store :=
  {| clients := clients s; states := f (states s); tokens := tokens s;
     users := users s; preferences := preferences s; projects := projects s;
     tasks := tasks s; session := session s; events := events s |}.

Definition set_tokens
    (f : gmap (nat * string) TapisOAuth2Token.t → gmap (nat * string) TapisOAuth2Token.t)
    (s : store) : store :=
  {| clients := clients s; states := states s; tokens := f (tokens s);
     users := users s; preferences := preferences s; projects := projects s;
     tasks := tasks s; session := session s; events := events s |}.

Definition set_users (f : gmap string User.t → gmap string User.t) (s : store) : store :=
  {| clients := clients s; states := states s; tokens := tokens s;
     users := f (users s); preferences := preferences s; projects := projects s;
     tasks := tasks s; session := session s; events := events s |}.

Definition set_preferences
    (f : gmap nat TapisUserPreferences.t → gmap nat TapisUserPreferences.t)
    (s : store) : store :=
  {| clients := clients s; states := states s; tokens := tokens s;
     users := users s; preferences := f (preferences s); projects := projects s;
     tasks := tasks s; session := session s; events := events s |}.

Definition set_projects (f : list Project.t → list Project.t) (s : store) : store :=
  {| clients := clients s; states := states s; tokens := tokens s;
     users := users s; preferences := preferences s; projects := f (projects s);
     tasks := tasks s; session := session s; events := events s |}.

Definition set_tasks (f : list Task.t → list Task.t) (s : store) : store :=
  {| clients := clients s; states := states s; tokens := tokens s;
     users := users s; preferences := preferences s; projects := projects s;
     tasks := f (tasks s); session := session s; events := events s |}.

Definition set_session (v : option nat) (s : store) : store :=
  {| clients := clients s; states := states s; tokens := tokens s;
     users := users s; preferences := preferences s; projects := projects s;
     tasks := tasks s; session := v; events := events s |}.

Definition add_event (e : event) (s : store) : store :=
  {| clients := clients s; states := states s; tokens := tokens s;
     users := users s; preferences := preferences s; projects := projects s;
     tasks := tasks s; session := session s; events := (events s ++ [e])%list |}.

(** Computations over the store.  The store a computation leaves behind is
    kept when it raises. *)
Definition eff (A : Type) : Type := store → res A * store.

Global Instance eff_ret : MRet eff := λ A a s, (Ret a, s).
Global Instance eff_bind : MBind eff := λ A B f m s,
  match m s with
  | (Ret a, s') => f a s'
  | (Raise e, s') => (Raise e, s')
  end.

Definition raise {A} (e : exn) : eff A := λ s, (Raise e, s).
Definition lift {A} (r : res A) : eff A := λ s, (r, s).
Definition gets {A} (f : store → A) : eff A := λ s, (Ret (f s), s).
Definition modify (f : store → store) : eff unit := λ s, (Ret tt, f s).
Definition emit (e : event) : eff unit := modify (add_event e).

(** Writing the token instance [token] as the row of [key]: what
    [token_obj.save()] and [update_or_create] do with the field values. *)
Definition save_token `{PyLib} (key : nat * string) (token : TapisOAuth2Token.t)
    : eff unit :=
  if negb (TapisOAuth2Token.not_null token) then raise IntegrityError
  else if negb (TapisOAuth2Token.fits token) then raise DataError
  else modify (set_tokens (insert key (TapisOAuth2Token.prepared token))).

Definition try_eff {A} (body : eff A) (classes : exn → bool)
    (handler : exn → eff A) : eff A := λ s,
  match body s with
  | (Ret a, s') => (Ret a, s')
  | (Raise e, s') => if classes e then handler e s' else (Raise e, s')
  end.

(** ** The world outside the process *)

Record world : Type := {
  (** the clock, read by [timezone.now()], [time.time()], [datetime.now()] *)
  now : datetime;
  (** [requests.request(method, url, headers=, params=)] followed by
      [raise_for_status()] and [json()] *)
  http_request :
    string → string → list (string * string) → list (string * string) → res pyval;
  (** [requests.post(url, data=, headers=)]: the status code and what
      [response.json()] gives, or the exception [post] raises *)
  http_post :
    string → list (string * pyval) → list (string * string) → res (nat * res pyval);
  (** importing [app.tasks.tapis_storage] and calling [.delay(user_id=,
      client_id=)]: the id of the queued task, or the exception *)
  celery_delay : nat → string → res string;
  (** [secrets.token_urlsafe(64)] *)
  token_urlsafe : string;
}.

(** ** [app/auth/tapis_oauth2.py] *)

(** The two attributes of [webodm.settings] the backend reads; [None] when
    the attribute does not exist. *)
Record settings : Type := {
  TAPIS_BASE_URL : option string;
  TAPIS_TENANT_ID : option string;
}.

(** [hasattr(settings, X) and settings.X] *)
Definition configured (v : option string) : bool :=
  match v with Some s => negb (s =? "") | None => false end.

(** [n > f] for an [int] and a [float]: Python compares the two exact
    values, so the integer is not rounded to a float.  The value of a
    finite float is [m * 2 ^ e], negated when the sign is set. *)
Definition int_gt_float (n : Z) (f : spec_float) : bool :=
  match f with
  | S754_zero _ => bool_decide (n > 0)%Z
  | S754_infinity negative => negative
  | S754_nan => false
  | S754_finite negative m e =>
      let m := if negative then Z.neg m else Z.pos m in
      if (0 <=? e)%Z then bool_decide (n > m * 2 ^ e)%Z
      else bool_decide (n * 2 ^ (- e) > m)%Z
  end.

(** [n > v] for an [int] on the left. *)
Definition int_gt (n : Z) (v : pyval) : res bool :=
  match v with
  | VInt m => Ret (bool_decide (n > m)%Z)
  | VBool b => Ret (bool_decide (n > (if b then 1 else 0))%Z)
  | VFloat f => Ret (int_gt_float n f)
  | _ => Raise TypeError
  end.

(** [max(ids) + 1], the primary key the database hands out. *)
Definition next_user_id (us : gmap string User.t) : nat :=
  S (map_fold (λ _ u acc, Nat.max (User.id u) acc) 0%nat us).

Module TapisOAuth2Backend.
Section Backend.
Context `{PyLib}.
Variable (cfg : settings).

(** The dict [user_info], whose nine keys are always present. *)
Record user_info : Type := {
username : pyval;
tenant_id : pyval;
sub : pyval;
exp : pyval;
iat : pyval;
email : pyval;
given_name : pyval;
family_name : pyval;
display_name : pyval;
}.

(** [access_token.split('.')] *)
Definition token_split (access_token : pyval) : res (list string) :=
match access_token with
| VStr s => Ret (split "."%char s)
| _ => Raise AttributeError
end.

(** The dict literal of lines 78-88. [settings.TAPIS_TENANT_ID] is read
  only when both tenant claims are falsy. *)
Definition claims (payload : pyval) : res user_info :=
u1 ← get payload "tapis/username" VNone;
u2 ← get payload "username" VNone;
u3 ← get payload "sub" VNone;
t1 ← get payload "tapis/tenant_id" VNone;
t2 ← get payload "tenant_id" VNone;
t ← (if truthy t1 then Ret t1
     else if truthy t2 then Ret t2
     else match TAPIS_TENANT_ID cfg with
          | Some s => Ret (VStr s)
          | None => Raise AttributeError
          end);
e ← get payload "exp" VNone;
i ← get payload "iat" VNone;
m1 ← get payload "email" VNone;
m2 ← get payload "tapis/email" VNone;
g1 ← get payload "given_name" VNone;
g2 ← get payload "tapis/given_name" VNone;
f1 ← get payload "family_name" VNone;
f2 ← get payload "tapis/family_name" VNone;
d1 ← get payload "display_name" VNone;
d2 ← get payload "tapis/display_name" VNone;
Ret {| username := py_or u1 (py_or u2 u3);
       tenant_id := t;
       sub := u3;
       exp := e;
       iat := i;
       email := py_or m1 m2;
       given_name := py_or g1 g2;
       family_name := py_or f1 f2;
       display_name := py_or d1 d2 |}.

(** Lines 66-69: padding restored to a multiple of four characters. *)
Definition pad (payload_b64 : string) : string :=
  let missing_padding := (String.length payload_b64 mod 4)%nat in
  if negb (missing_padding =? 0)%nat
  then payload_b64 ++ repeat_eq (4 - missing_padding)
  else payload_b64.

Definition decode_errors (e : exn) : bool :=
only BinasciiError e || only JSONDecodeError e || only UnicodeDecodeError e.

Definition _validate_token_with_tapis (now : datetime) (access_token : pyval)
  : res (option user_info) :=
try_except
  (token_parts ← token_split access_token;
   if negb (length token_parts =? 3)%nat then Ret None
   else
     let payload_b64 := pad (nth 1 token_parts "") in
     try_except
       (payload_bytes ← urlsafe_b64decode payload_b64;
        text ← decode_utf8 payload_bytes;
        payload ← json_loads text;
        _ ← keys payload;
        info ← claims payload;
        let current_time := unix_seconds now in
        exp ← get payload "exp" VNone;
        (if truthy exp then int_gt current_time exp else Ret false) ≫=
        λ expired : bool,
          if expired then Ret None
          else if negb (truthy (username info)) then Ret None
          else Ret (Some info))
       decode_errors (λ _, Ret None))
  Exception (λ _, Ret None).

Definition _update_user_info (user : User.t) (info : user_info) : eff User.t :=
let email := email info in
let set_email := truthy email && negb (eq_str email (User.email user)) in
let first_name := given_name info in
let set_first := truthy first_name && negb (eq_str first_name (User.first_name user)) in
let last_name := family_name info in
let set_last := truthy last_name && negb (eq_str last_name (User.last_name user)) in
let user' :=
  {| User.id := User.id user;
     User.username := User.username user;
     User.email := if set_email then py_str email else User.email user;
     User.first_name := if set_first then py_str first_name else User.first_name user;
     User.last_name := if set_last then py_str last_name else User.last_name user |} in
let updated := set_email || set_first || set_last in
if updated
then modify (set_users (insert (User.username user') user')) ≫= λ _, mret user'
else mret user'.

Definition _create_user_from_tapis_info (info : user_info) : eff User.t :=
let first_name := py_or (given_name info) (VStr "") in
let last_name := py_or (family_name info) (VStr "") in
'(uname, mail, first, last) ←
   lift (create_user_fields (username info) (email info) first_name last_name);
us ← gets users;
match us !! uname with
| Some _ => raise IntegrityError
| None =>
    let user := {| User.id := next_user_id us; User.username := uname;
                   User.email := mail; User.first_name := first;
                   User.last_name := last |} in
    modify (set_users (insert uname user)) ≫= λ _, mret user
end.

(** [user.profile.tapis_tenant_id] is not a column of this model; the
  two [hasattr] tests of lines 135-139 raise nothing. *)
Definition _get_or_create_user (info : user_info) (access_token : pyval)
  : eff (option User.t) :=
let username := username info in
if negb (truthy username) then mret None
else
  user ← try_eff
    (us ← gets users;
     match us !! py_str username with
     | Some user => _update_user_info user info
     | None => raise DoesNotExist
     end)
    (only DoesNotExist) (λ _, _create_user_from_tapis_info info);
  mret (Some user).

Definition authenticate (now : datetime) (access_token : pyval)
  : eff (option User.t) :=
if negb (truthy access_token) then mret None
else if negb (configured (TAPIS_BASE_URL cfg)) then mret None
else if negb (configured (TAPIS_TENANT_ID cfg)) then mret None
else
  try_eff
    (info ← lift (_validate_token_with_tapis now access_token);
     match info with
     | None => mret None
     | Some info => _get_or_create_user info access_token
     end)
    Exception (λ _, mret None).
End Backend.
End TapisOAuth2Backend.

(** ** [app/services/tapis_storage.py] *)

(** The dict a scan reports for a flight. *)
Record flight_info : Type := {
  flight_name : pyval;
  system_id : pyval;
  images_path : string;
  image_count : nat;
  discovered_at : datetime;
}.

Definition next_project_id (ps : list Project.t) : nat :=
  S (foldr (λ p acc, Nat.max (Project.id p) acc) 0%nat ps).

Definition next_task_id (ts : list Task.t) : nat :=
  S (foldr (λ t acc, Nat.max (Task.id t) acc) 0%nat ts).

Module TapisStorageService.
Section Service.
Context `{PyLib}.
Variable (w : world).

Record t : Type := {
user : User.t;
client : TapisOAuth2Client.t;
token : TapisOAuth2Token.t;
base_url : string;
}.

Definition _get_valid_token (user : User.t) (client : TapisOAuth2Client.t)
  : eff TapisOAuth2Token.t :=
try_eff
  (gets tokens ≫= λ ts : gmap (nat * string) TapisOAuth2Token.t,
   match ts !! (User.id user, TapisOAuth2Client.client_id client) with
   | None => raise DoesNotExist
   | Some token =>
       if negb (truthy (TapisOAuth2Token.is_valid (now w) token))
       then raise ValueError
       else mret token
   end)
  (only DoesNotExist) (λ _, raise ValueError).

(** [__init__] *)
Definition init (user : User.t) (client : TapisOAuth2Client.t) : eff t :=
_get_valid_token user client ≫= λ token,
mret {| user := user; client := client; token := token;
        base_url := rstrip "/"%char (TapisOAuth2Client.base_url client) |}.

(** The [except requests.RequestException] clause logs and re-raises. *)
Definition _make_request (self : t) (endpoint : string) (method : string)
  (params : list (string * string)) : res pyval :=
let url := urljoin (base_url self ++ "/") endpoint in
let headers :=
  [("Authorization", "Bearer " ++ py_str (TapisOAuth2Token.access_token (token self)));
   ("Content-Type", "application/json");
   ("X-Tapis-Tenant", TapisOAuth2Client.tenant_id (client self))] in
try_except (http_request w method url headers params)
  (only RequestException) (λ e, Raise e).

Definition discover_project_systems (self : t) : res pyval :=
try_except
  (let search_params :=
     [("search", "id.like.ptdatax.project.*");
      ("limit", "1000");
      ("select", "id,host,systemType,description,created,updated")] in
   result ← _make_request self "v3/systems" "GET" search_params;
   systems ← get result "result" (VList []);
   len systems ≫= λ _ : nat, Ret systems)
  Exception (λ _, Ret (VList [])).

(** The loop of lines 123-126, with its [break]; the second [get] is on
  the item whose first [get] succeeded. *)
Fixpoint has_images_dir (items : list pyval) : res bool :=
match items with
| [] => Ret false
| item :: rest =>
    ty ← get item "type" VNone;
    name ← get item "name" VNone;
    if eq_str ty "dir" && eq_str name "images" then Ret true
    else has_images_dir rest
end.

(** The condition of the generator of lines 135-137. *)
Definition is_jpg (item : pyval) : res bool :=
ty ← get item "type" VNone;
if eq_str ty "file" then
  name ← get item "name" (VStr "");
  match name with
  | VStr s => Ret (endswith (lower s) ".jpg" || endswith (lower s) ".jpeg")
  | _ => Raise AttributeError
  end
else Ret false.

(** [sum(1 for item in items if ...)] *)
Fixpoint count_jpg (items : list pyval) : res nat :=
match items with
| [] => Ret 0%nat
| item :: rest =>
    is_jpg item ≫= λ b : bool,
    count_jpg rest ≫= λ n : nat,
    Ret (if b then S n else n)
end.

Definition _check_flight_directory (self : t) (system_id flight_name : pyval)
  : res (option flight_info) :=
try_except
  (let code_path := py_str flight_name ++ "/code" in
   let endpoint := "v3/files/ops/" ++ py_str system_id ++ "/" ++ code_path ++ "/" in
   match _make_request self endpoint "GET" [] with
   | Raise e => if only RequestException e then Ret None else Raise e
   | Ret code_listing =>
       r ← get code_listing "result" (VList []);
       items ← iter r;
       has_images_dir items ≫= λ has_images : bool,
       if negb has_images then Ret None
       else
         let images_path := py_str flight_name ++ "/code/images" in
         let endpoint := "v3/files/ops/" ++ py_str system_id ++ "/" ++ images_path ++ "/" in
         try_except
           (images_listing ← _make_request self endpoint "GET" [];
            r ← get images_listing "result" (VList []);
            items ← iter r;
            count_jpg items ≫= λ jpg_count : nat,
            if (0 <? jpg_count)%nat
            then Ret (Some {| flight_name := flight_name;
                              system_id := system_id;
                              images_path := images_path;
                              image_count := jpg_count;
                              discovered_at := now w |})
            else Ret None)
           (only RequestException) (λ _, Ret None)
   end)
  Exception (λ _, Ret None).

(** The body of the loop of lines 95-101 for one item. *)
Definition scan_item (self : t) (system_id : pyval) (item : pyval)
  : res (option flight_info) :=
ty ← get item "type" VNone;
if eq_str ty "dir" then
  flight_name ← get item "name" VNone;
  if truthy flight_name
  then _check_flight_directory self system_id flight_name
  else Ret None
else Ret None.

(** The loop: an exception ends it, and [flights] keeps what was
  appended before. *)
Fixpoint scan_items (self : t) (system_id : pyval) (items : list pyval)
  : list flight_info :=
match items with
| [] => []
| item :: rest =>
    match scan_item self system_id item with
    | Raise _ => []
    | Ret (Some info) => info :: scan_items self system_id rest
    | Ret None => scan_items self system_id rest
    end
end.

Definition scan_system_for_flights (self : t) (system_id : pyval)
  : list flight_info :=
match (root_listing ← _make_request self ("v3/files/ops/" ++ py_str system_id ++ "/") "GET" [];
       r ← get root_listing "result" (VList []);
       iter r) with
| Raise _ => []
| Ret items => scan_items self system_id items
end.

(** [_schedule_image_download] only logs. *)
Definition _create_task_for_flight (self : t) (project : Project.t)
  (info : flight_info) : eff (option Task.t) :=
try_eff
  (gets tasks ≫= λ ts : list Task.t,
   let task :=
     {| Task.id := next_task_id ts;
        Task.project := Project.id project;
        Task.name := "Flight " ++ py_str (flight_name info);
        Task.import_url :=
          "tapis://" ++ py_str (system_id info) ++ "/" ++ images_path info |} in
   modify (set_tasks (λ ts, (ts ++ [task])%list)) ≫= λ _, mret (Some task))
  Exception (λ _, mret None).

Definition flight_tags (info : flight_info) : string :=
"tapis,flight," ++ py_str (system_id info) ++ "," ++ py_str (flight_name info).

Definition create_project_from_flight (self : t) (info : flight_info)
  : eff (option Project.t) :=
try_eff
  (let project_name :=
     py_str (flight_name info) ++ " (" ++ py_str (system_id info) ++ ")" in
   let nl := String (ascii_of_nat 10) EmptyString in
   let project_description :=
     "Auto-created from Tapis system " ++ py_str (system_id info) ++ nl ++
     "Flight: " ++ py_str (flight_name info) ++ nl ++
     "Images path: " ++ images_path info ++ nl ++
     "Image count: " ++ py_str (VInt (Z.of_nat (image_count info))) ++ nl ++
     "Discovered: " ++ str_datetime (discovered_at info) in
   gets projects ≫= λ ps : list Project.t,
   let project :=
     {| Project.id := next_project_id ps;
        Project.owner := User.id (user self);
        Project.name := project_name;
        Project.description := project_description;
        Project.tags := flight_tags info |} in
   modify (set_projects (λ ps, (ps ++ [project])%list)) ≫= λ _,
   _create_task_for_flight self project info ≫= λ _,
   mret (Some project))
  Exception (λ _, mret None).
End Service.
End TapisStorageService.

(** An entry of [results['created_projects']]. *)
Record created_project : Type := {
  cp_project_id : nat;
  cp_project_name : string;
  cp_flight_name : pyval;
  cp_system_id : pyval;
  cp_image_count : nat;
}.

(** An entry of [results['errors']]: which message, and the exception
    formatted into it. *)
Inductive discovery_error : Type :=
| FailedToScanSystem (system_id : pyval) (e : exn)
| FailedToCreateProject (flight_name : pyval) (e : exn)
| DiscoveryProcessFailed (e : exn).

(** The dict [results]. *)
Record results : Type := {
  systems_scanned : nat;
  flights_discovered : nat;
  projects_created : nat;
  errors : list discovery_error;
  created_projects : list created_project;
}.

Module TapisFlightDiscoveryService.
Section Discovery.
Context `{PyLib}.
Variable (w : world).

Definition flight_tag (info : flight_info) : string :=
py_str (system_id info) ++ "," ++ py_str (flight_name info).

(** [Project.objects.filter(owner=user, tags__icontains=flight_tag).first()] *)
Definition _find_existing_project (user : User.t) (info : flight_info)
  : eff (option Project.t) :=
gets projects ≫= λ ps : list Project.t,
mret (head (filter (λ p, Project.owner p = User.id user
                         ∧ icontains (Project.tags p) (flight_tag info) = true) ps)).

(** The loop of lines 310-320; [scan_system_for_flights] raises nothing,
  so its [except] clause is never entered. *)
Fixpoint scan_systems (svc : TapisStorageService.t) (systems : list pyval)
  : res (list flight_info) :=
match systems with
| [] => Ret []
| system :: rest =>
    system_id ← get system "id" VNone;
    let flights :=
      if truthy system_id
      then TapisStorageService.scan_system_for_flights w svc system_id
      else [] in
    scan_systems svc rest ≫= λ more : list flight_info,
    Ret (flights ++ more)%list
end.

Definition add_created (project : Project.t) (info : flight_info) (rs : results)
  : results :=
{| systems_scanned := systems_scanned rs;
   flights_discovered := flights_discovered rs;
   projects_created := projects_created rs + 1;
   errors := errors rs;
   created_projects :=
     (created_projects rs ++
      [{| cp_project_id := Project.id project;
          cp_project_name := Project.name project;
          cp_flight_name := flight_name info;
          cp_system_id := system_id info;
          cp_image_count := image_count info |}])%list |}.

Definition add_error (err : discovery_error) (rs : results) : results :=
{| systems_scanned := systems_scanned rs;
   flights_discovered := flights_discovered rs;
   projects_created := projects_created rs;
   errors := (errors rs ++ [err])%list;
   created_projects := created_projects rs |}.

(** The body of the loop of lines 325-347 for one flight. *)
Definition create_one (svc : TapisStorageService.t) (user : User.t)
  (info : flight_info) (rs : results) : eff results :=
try_eff
  (_find_existing_project user info ≫= λ existing_project : option Project.t,
   match existing_project with
   | Some _ => mret rs
   | None =>
       TapisStorageService.create_project_from_flight svc info ≫=
       λ project : option Project.t,
       match project with
       | Some p => mret (add_created p info rs)
       | None => mret rs
       end
   end)
  Exception (λ e, mret (add_error (FailedToCreateProject (flight_name info) e) rs)).

Fixpoint create_all (svc : TapisStorageService.t) (user : User.t)
  (flights : list flight_info) (rs : results) : eff results :=
match flights with
| [] => mret rs
| info :: rest =>
    create_one svc user info rs ≫= λ rs' : results,
    create_all svc user rest rs'
end.

Definition discover_and_create_projects (user : User.t)
  (client : TapisOAuth2Client.t) : eff results :=
TapisStorageService.init w user client ≫= λ storage_service,
let systems := TapisStorageService.discover_project_systems w storage_service in
match (systems ← systems;
       n ← len systems;
       items ← iter systems;
       Ret (n, items)) with
| Raise e =>
    mret {| systems_scanned := 0; flights_discovered := 0; projects_created := 0;
            errors := [DiscoveryProcessFailed e]; created_projects := [] |}
| Ret (n, items) =>
    match scan_systems storage_service items with
    | Raise e =>
        mret {| systems_scanned := n; flights_discovered := 0; projects_created := 0;
                errors := [DiscoveryProcessFailed e]; created_projects := [] |}
    | Ret all_flights =>
        create_all storage_service user all_flights
          {| systems_scanned := n; flights_discovered := length all_flights;
             projects_created := 0; errors := []; created_projects := [] |}
    end
end.
End Discovery.
End TapisFlightDiscoveryService.

(** ** [app/api/tapis_oauth2.py] *)

Inductive response : Type :=
| JsonResponse (body : list (string * pyval)) (status : nat)
| HttpResponseRedirect (url : string)
| Response (body : list (string * pyval)) (status : nat).

(** [HttpResponseRedirect(redirect_to)]: Django parses the target and
    refuses, with [DisallowedRedirect], a scheme that is not one of
    [allowed_schemes]. *)
Definition allowed_schemes : list string := ["http"; "https"; "ftp"].

Definition http_response_redirect `{PyLib} (redirect_to : string) : res response :=
  scheme ← urlparse_scheme redirect_to;
  if negb (scheme =? "") && negb (bool_decide (scheme ∈ allowed_schemes))
  then Raise DisallowedRedirect
  else Ret (HttpResponseRedirect redirect_to).

(** [get_object_or_404(TapisOAuth2Client, client_id=client_id, is_active=True)] *)
Definition get_object_or_404 (client_id : string) : eff TapisOAuth2Client.t :=
  gets clients ≫= λ cs : gmap string TapisOAuth2Client.t,
  match cs !! client_id with
  | Some c => if TapisOAuth2Client.is_active c then mret c else raise Http404
  | None => raise Http404
  end.

(** [if v:] for a query parameter. *)
Definition given (v : option string) : bool :=
  match v with Some s => negb (s =? "") | None => false end.

(** [TapisUserPreferences.get_or_create_for_user] *)
Definition get_or_create_for_user (user : User.t) : eff TapisUserPreferences.t :=
  gets preferences ≫= λ ps : gmap nat TapisUserPreferences.t,
  match ps !! User.id user with
  | Some p => mret p
  | None =>
      let p := TapisUserPreferences.defaults (User.id user) in
      modify (set_preferences (insert (User.id user) p)) ≫= λ _, mret p
  end.

(** [preferences.update_last_discovery()], for the row [preferences] that
    [get_or_create_for_user user] gave: one column of that row is written. *)
Definition update_last_discovery (now : datetime) (user : User.t) : eff unit :=
  modify (set_preferences
            (alter (TapisUserPreferences.set_last_auto_discovery (Some now)) (User.id user))) ≫= λ _,
  emit (LastDiscoveryUpdated (User.id user) now).

Module TapisOAuth2AuthorizeView.
Section View.
Context `{PyLib}.
Variable (w : world).

Record request : Type := {
(** [request.user] when authenticated *)
user : option nat;
(** [request.GET.get('redirect_after')] *)
redirect_after : option string;
}.

Definition get (request : request) (client_id : string) : eff response :=
try_eff
  (get_object_or_404 client_id ≫= λ client,
   let state := token_urlsafe w in
   let redirect_after := default "/dashboard/" (redirect_after request) in
   lift (datetime_add (now w) (timedelta_minutes 10)) ≫= λ expires_at,
   let state_obj :=
     {| TapisOAuth2State.state := state;
        TapisOAuth2State.user := user request;
        TapisOAuth2State.client := TapisOAuth2Client.client_id client;
        TapisOAuth2State.redirect_after_auth := redirect_after;
        TapisOAuth2State.additional_data := "{}";
        TapisOAuth2State.expires_at := expires_at |} in
   gets states ≫= λ ss : gmap string TapisOAuth2State.t,
   match ss !! state with
   | Some _ => raise IntegrityError
   | None =>
       (if negb (TapisOAuth2State.fits state_obj) then raise DataError
        else modify (set_states (insert state state_obj))) ≫= λ _,
       let auth_params :=
         [("client_id", TapisOAuth2Client.client_id client);
          ("response_type", "code");
          ("redirect_uri", TapisOAuth2Client.callback_url client);
          ("state", state);
          ("scope", "openid profile")] in
       let auth_url :=
         TapisOAuth2Client.authorization_url client ++ "?" ++ urlencode auth_params in
       lift (http_response_redirect auth_url)
   end)
  Exception
  (λ _, mret (JsonResponse [("error", VStr "Failed to initiate OAuth2 flow")] 500)).
End View.
End TapisOAuth2AuthorizeView.

Module TapisOAuth2CallbackView.
Section View.
Context `{PyLib}.
Variable (cfg : settings).
Variable (w : world).

(** The four query parameters of [request.GET]. *)
Record request : Type := {
code : option string;
state : option string;
error : option string;
error_description : option string;
}.

Definition opt_str (v : option string) : pyval :=
match v with Some s => VStr s | None => VNone end.

Definition _exchange_code_for_tokens (client : TapisOAuth2Client.t) (code : string)
  : res pyval :=
try_except
  (let token_data :=
     [("grant_type", VStr "authorization_code");
      ("client_id", VStr (TapisOAuth2Client.client_id client));
      ("client_secret", VStr (TapisOAuth2Client.client_secret client));
      ("code", VStr code);
      ("redirect_uri", VStr (TapisOAuth2Client.callback_url client))] in
   let headers :=
     [("Content-Type", "application/x-www-form-urlencoded");
      ("X-Tapis-Tenant", TapisOAuth2Client.tenant_id client);
      ("Accept", "application/json")] in
   http_post w (TapisOAuth2Client.token_url client) token_data headers ≫=
   λ response : nat * res pyval,
   if (response.1 =? 200)%nat then
     token_response ← response.2;
     status ← get token_response "status" VNone;
     has_key token_response "result" ≫= λ has_result : bool,
     if eq_str status "success" && has_result
     then subscript token_response "result"
     else Ret VNone
   else Ret VNone)
  Exception (λ _, Ret VNone).

Definition _store_user_tokens (user : User.t) (client : TapisOAuth2Client.t)
  (token_data : pyval) : eff unit :=
try_eff
  (lift (expires_in ← get token_data "expires_in" VNone;
         expires_at ← (if truthy expires_in
                       then n ← py_int expires_in;
                            t ← datetime_add (now w) (timedelta_seconds n);
                            Ret (Some t)
                       else Ret None);
         access_token ← get token_data "access_token" VNone;
         refresh_token ← get token_data "refresh_token" (VStr "");
         token_type ← get token_data "token_type" (VStr "Bearer");
         scope ← get token_data "scope" (VStr "");
         Ret {| TapisOAuth2Token.user := User.id user;
                TapisOAuth2Token.client := TapisOAuth2Client.client_id client;
                TapisOAuth2Token.access_token := access_token;
                TapisOAuth2Token.refresh_token := refresh_token;
                TapisOAuth2Token.token_type := token_type;
                TapisOAuth2Token.scope := scope;
                TapisOAuth2Token.expires_at := expires_at |}) ≫=
   λ token : TapisOAuth2Token.t,
   save_token (User.id user, TapisOAuth2Client.client_id client) token)
  Exception (λ _, mret tt).

Definition _trigger_flight_discovery (user : User.t) (client : TapisOAuth2Client.t)
  : eff unit :=
try_eff
  (get_or_create_for_user user ≫= λ preferences,
   if negb (TapisUserPreferences.should_run_auto_discovery (now w) preferences)
   then mret tt
   else
     try_eff
       (lift (celery_delay w (User.id user) (TapisOAuth2Client.client_id client)) ≫=
        λ _ : string,
        emit (TaskDispatched (User.id user) (TapisOAuth2Client.client_id client)) ≫= λ _,
        update_last_discovery (now w) user)
       (only ImportError)
       (λ _,
          try_eff
            (TapisFlightDiscoveryService.discover_and_create_projects w user client ≫=
             λ results : results,
             emit (ScanReturned (projects_created results)) ≫= λ _,
             update_last_discovery (now w) user)
            Exception (λ e, emit (ScanRaised e))))
  Exception (λ _, mret tt).

(** Lines 118-126: the token string inside [token_data['access_token']],
    or [None] when it has neither of the two shapes. *)
Definition jwt_of (access_token_data : pyval) : option pyval :=
  match access_token_data with
  | VDict d => dict_get d "access_token"
  | VStr s => Some (VStr s)
  | _ => None
  end.

(** Lines 105-152: what a callback does once the row [state_obj] is found
  under [state] and is not expired. *)
Definition complete (state : string) (state_obj : TapisOAuth2State.t)
  (client : TapisOAuth2Client.t) (code : string) : eff response :=
let token_data := _exchange_code_for_tokens client code in
lift token_data ≫= λ token_data : pyval,
if negb (truthy token_data)
then mret (JsonResponse [("error", VStr "Failed to exchange code for tokens")] 500)
else
  lift (keys token_data) ≫= λ _ : list string,
  lift (has_key token_data "access_token") ≫= λ has_access_token : bool,
  if negb has_access_token
  then mret (JsonResponse [("error", VStr "No access token in Tapis response")] 500)
  else
    lift (subscript token_data "access_token") ≫= λ access_token_data : pyval,
    match jwt_of access_token_data with
    | None =>
        mret (JsonResponse
                [("error", VStr "Invalid access token structure in Tapis response")] 500)
    | Some jwt_token =>
        lift (slice50 jwt_token) ≫= λ _ : unit,
        TapisOAuth2Backend.authenticate cfg (now w) jwt_token ≫= λ user : option User.t,
        match user with
        | None =>
            mret (JsonResponse
                    [("error", VStr "Failed to authenticate user with Tapis")] 401)
        | Some user =>
            modify (set_session (Some (User.id user))) ≫= λ _,
            _store_user_tokens user client token_data ≫= λ _,
            _trigger_flight_discovery user client ≫= λ _,
            let redirect_url :=
              if negb (TapisOAuth2State.redirect_after_auth state_obj =? "")
              then TapisOAuth2State.redirect_after_auth state_obj
              else "/dashboard/" in
            modify (set_states (delete state)) ≫= λ _,
            lift (http_response_redirect redirect_url)
        end
    end.

(** [state_obj.client]: the row the foreign key points to. *)
Definition client_of (state_obj : TapisOAuth2State.t) : eff TapisOAuth2Client.t :=
gets clients ≫= λ cs : gmap string TapisOAuth2Client.t,
match cs !! TapisOAuth2State.client state_obj with
| Some c => mret c
| None => raise OtherException
end.

(** The two [except] clauses of lines 154-161.  An exception carries no
    value here, so the message of the first clause lacks the [str(e)] that
    names the missing key. *)
Definition guarded (body : eff response) : eff response :=
try_eff
  (try_eff body (only KeyError)
     (λ _, mret (JsonResponse [("error", VStr "Missing key in OAuth2 response: ")] 500)))
  Exception
  (λ _, mret (JsonResponse [("error", VStr "OAuth2 callback failed")] 500)).

Definition get (request : request) : eff response :=
guarded
  (if given (error request)
   then mret (JsonResponse
                [("error", VStr ("OAuth2 error: " ++ default "" (error request)));
                 ("description", opt_str (error_description request))] 400)
   else if negb (given (code request)) || negb (given (state request))
   then mret (JsonResponse [("error", VStr "Missing code or state parameter")] 400)
   else
     let code := default "" (code request) in
     let state := default "" (state request) in
     gets states ≫= λ ss : gmap string TapisOAuth2State.t,
     match ss !! state with
     | None => mret (JsonResponse [("error", VStr "Invalid OAuth2 state")] 400)
     | Some state_obj =>
         if TapisOAuth2State.is_expired (now w) state_obj
         then modify (set_states (delete state)) ≫= λ _,
              mret (JsonResponse [("error", VStr "OAuth2 state expired")] 400)
         else client_of state_obj ≫= λ client, complete state state_obj client code
     end).
End View.
End TapisOAuth2CallbackView.

Module TapisOAuth2TokenRefreshView.
Section View.
Context `{PyLib}.
Variable (w : world).

Definition _refresh_access_token (client : TapisOAuth2Client.t) (refresh_token : pyval)
  : res pyval :=
try_except
  (let token_data :=
     [("grant_type", VStr "refresh_token");
      ("client_id", VStr (TapisOAuth2Client.client_id client));
      ("client_secret", VStr (TapisOAuth2Client.client_secret client));
      ("refresh_token", refresh_token)] in
   let headers :=
     [("Content-Type", "application/x-www-form-urlencoded");
      ("X-Tapis-Tenant", TapisOAuth2Client.tenant_id client);
      ("Accept", "application/json")] in
   http_post w (TapisOAuth2Client.token_url client) token_data headers ≫=
   λ response : nat * res pyval,
   if (response.1 =? 200)%nat then response.2 else Ret VNone)
  Exception (λ _, Ret VNone).

(** The assignments of lines 305-316 to [token_obj]. *)
Definition refreshed (token_obj : TapisOAuth2Token.t) (new_token_data : pyval)
  : res TapisOAuth2Token.t :=
expires_in ← get new_token_data "expires_in" VNone;
expires_at ← (if truthy expires_in
              then n ← py_int expires_in;
                   t ← datetime_add (now w) (timedelta_seconds n);
                   Ret (Some t)
              else Ret None);
access_token ← get new_token_data "access_token" VNone;
token_type ← get new_token_data "token_type" (VStr "Bearer");
has_key new_token_data "refresh_token" ≫= λ rotated : bool,
refresh_token ← (if rotated then subscript new_token_data "refresh_token"
                 else Ret (TapisOAuth2Token.refresh_token token_obj));
Ret {| TapisOAuth2Token.user := TapisOAuth2Token.user token_obj;
       TapisOAuth2Token.client := TapisOAuth2Token.client token_obj;
       TapisOAuth2Token.access_token := access_token;
       TapisOAuth2Token.refresh_token := refresh_token;
       TapisOAuth2Token.token_type := token_type;
       TapisOAuth2Token.scope := TapisOAuth2Token.scope token_obj;
       TapisOAuth2Token.expires_at := expires_at |}.

(** [request.user] is the authenticated caller. *)
Definition post (user : User.t) (client_id : string) : eff response :=
try_eff
  (get_object_or_404 client_id ≫= λ client,
   let key := (User.id user, TapisOAuth2Client.client_id client) in
   gets tokens ≫= λ ts : gmap (nat * string) TapisOAuth2Token.t,
   match ts !! key with
   | None => mret (Response [("error", VStr "No token found for this client")] 404)
   | Some token_obj =>
       if negb (truthy (TapisOAuth2Token.refresh_token token_obj))
       then mret (Response [("error", VStr "No refresh token available")] 400)
       else
         let new_token_data :=
           _refresh_access_token client (TapisOAuth2Token.refresh_token token_obj) in
         lift new_token_data ≫= λ new_token_data : pyval,
         if negb (truthy new_token_data)
         then mret (Response [("error", VStr "Failed to refresh token")] 500)
         else
           lift (refreshed token_obj new_token_data) ≫= λ token_obj' : TapisOAuth2Token.t,
           save_token key token_obj' ≫= λ _,
           mret (Response
                   [("message", VStr "Token refreshed successfully");
                    ("expires_at",
                     match TapisOAuth2Token.expires_at token_obj' with
                     | Some t => VStr (isoformat t)
                     | None => VNone
                     end)] 200)
   end)
  Exception (λ _, mret (Response [("error", VStr "Failed to refresh token")] 500)).
End View.
End TapisOAuth2TokenRefreshView.

(** ** An executable instance of the library

    Theorems below are stated for every [PyLib].  To run the model on
    concrete tokens and responses, this module implements one: base64 after
    CPython's [binascii.a2b_base64] in its default (non-strict) mode, UTF-8
    for the code points below 256, and a JSON reader for the grammar
    [json.loads] accepts (RFC 8259 and the literals [NaN], [Infinity] and
    [-Infinity]) without [\u] escapes; a number with a fraction or an
    exponent is read as the nearest binary64 float, and [str] prints a
    float as its shortest numeral.  Dates are printed as their number of
    microseconds. *)

Module Ref.

Definition dquote : ascii := ascii_of_nat 34.

(** *** base64 *)

Definition b64_value (c : ascii) : option N :=
  let n := N_of_ascii c in
  if (65 <=? n)%N && (n <=? 90)%N then Some (n - 65)%N
  else if (97 <=? n)%N && (n <=? 122)%N then Some (n - 71)%N
  else if (48 <=? n)%N && (n <=? 57)%N then Some (n + 4)%N
  else if (n =? 45)%N || (n =? 43)%N then Some 62%N
  else if (n =? 95)%N || (n =? 47)%N then Some 63%N
  else None.

Definition byte_of_N (n : N) : Byte.byte :=
  match Byte.of_N (n mod 256) with Some b => b | None => Byte.x00 end.

(** The bytes a group of two, three or four sextets stands for. *)
Definition group_bytes (quad : list N) : list Byte.byte :=
  match quad with
  | [a; b] => [byte_of_N (a * 4 + b / 16)]
  | [a; b; c] => [byte_of_N (a * 4 + b / 16); byte_of_N ((b mod 16) * 16 + c / 4)]
  | [a; b; c; d] =>
      [byte_of_N (a * 4 + b / 16); byte_of_N ((b mod 16) * 16 + c / 4);
       byte_of_N ((c mod 4) * 64 + d)]
  | _ => []
  end.

Fixpoint a2b (s : string) (quad : list N) (pads : nat) (out : list Byte.byte)
    : res (list Byte.byte) :=
  match s with
  | EmptyString =>
      match quad with [] => Ret out | _ => Raise BinasciiError end
  | String c s' =>
      if (128 <=? N_of_ascii c)%N then Raise ValueError
      else if Ascii.eqb c "="%char then
        if (2 <=? length quad)%nat then
          if (4 <=? length quad + S pads)%nat
          then Ret (out ++ group_bytes quad)%list
          else a2b s' quad (S pads) out
        else a2b s' quad pads out
      else match b64_value c with
           | None => a2b s' quad pads out
           | Some v =>
               let quad' := (quad ++ [v])%list in
               if (length quad' =? 4)%nat
               then a2b s' [] 0%nat (out ++ group_bytes quad')%list
               else a2b s' quad' 0%nat out
           end
  end.

Definition urlsafe_b64decode (s : string) : res (list Byte.byte) := a2b s [] 0%nat [].

(** A byte below 128 is its character; the lead bytes 194 and 195 with a
    continuation byte give the characters 128 to 255. *)
Fixpoint decode_utf8 (bs : list Byte.byte) : res string :=
  match bs with
  | [] => Ret EmptyString
  | b :: bs' =>
      if (Byte.to_N b <? 128)%N
      then s ← decode_utf8 bs'; Ret (String (ascii_of_byte b) s)
      else
        match bs' with
        | b2 :: bs'' =>
            let lead := Byte.to_N b in
            let continuation := Byte.to_N b2 in
            if ((lead =? 194) || (lead =? 195))%N
               && (128 <=? continuation)%N && (continuation <? 192)%N
            then s ← decode_utf8 bs'';
                 Ret (String (ascii_of_N (continuation + (lead - 194) * 64)) s)
            else Raise UnicodeDecodeError
        | [] => Raise UnicodeDecodeError
        end
  end.

(** *** JSON *)

Definition is_ws (c : ascii) : bool :=
  let n := nat_of_ascii c in
  (n =? 32)%nat || (n =? 9)%nat || (n =? 10)%nat || (n =? 13)%nat.

Fixpoint skip_ws (s : string) : string :=
  match s with
  | String c s' => if is_ws c then skip_ws s' else s
  | EmptyString => EmptyString
  end.

Definition digit (c : ascii) : option Z :=
  let n := nat_of_ascii c in
  if (48 <=? n)%nat && (n <=? 57)%nat then Some (Z.of_nat (n - 48)) else None.

Fixpoint digits (s : string) (acc : Z) : Z * string :=
  match s with
  | String c s' =>
      match digit c with
      | Some d => digits s' (acc * 10 + d)%Z
      | None => (acc, s)
      end
  | EmptyString => (acc, EmptyString)
  end.

Definition parse_nat (s : string) : option (Z * string) :=
  match s with
  | String c s' =>
      match digit c with
      | Some 0%Z =>
          match s' with
          | String c' _ => match digit c' with Some _ => None | None => Some (0%Z, s') end
          | EmptyString => Some (0%Z, s')
          end
      | Some d => Some (digits s' d)
      | None => None
      end
  | EmptyString => None
  end.

(** The float nearest to [m * 10 ^ e], for [m] not negative, with ties to
    the even mantissa: what [float] makes of a decimal numeral. *)
Definition float_of_decimal (negative : bool) (m e : Z) : spec_float :=
  match m with
  | Zpos p =>
      if (0 <=? e)%Z then binary_round 53 1024 negative (Z.to_pos (Zpos p * 10 ^ e)) 0
      else
        let '(q, e', l) := SFdiv_core_binary 53 1024 (Zpos p) 0 (10 ^ (- e)) 0 in
        binary_round_aux 53 1024 negative q e' l
  | _ => S754_zero negative
  end.

(** The digits at the head of [s], read on from [acc], and their number. *)
Fixpoint digits_counted (s : string) (acc n : Z) : Z * Z * string :=
  match s with
  | String c s' =>
      match digit c with
      | Some d => digits_counted s' (acc * 10 + d)%Z (n + 1)%Z
      | None => (acc, n, s)
      end
  | EmptyString => (acc, n, EmptyString)
  end.

Definition starts_with_digit (s : string) : bool :=
  match s with
  | String c _ => match digit c with Some _ => true | None => false end
  | EmptyString => false
  end.

(** A fraction: a point and at least one digit. *)
Definition parse_fraction (s : string) : option (Z * Z * string) :=
  match s with
  | String "."%char s' => if starts_with_digit s' then Some (digits_counted s' 0 0) else None
  | _ => None
  end.

(** An exponent: [e] or [E], an optional sign and at least one digit. *)
Definition parse_exponent (s : string) : option (Z * string) :=
  match s with
  | String c s' =>
      if Ascii.eqb c "e"%char || Ascii.eqb c "E"%char then
        let signed :=
          match s' with
          | String "-"%char t => (true, t)
          | String "+"%char t => (false, t)
          | _ => (false, s')
          end in
        if starts_with_digit signed.2
        then let '(n, rest) := digits signed.2 0 in
             Some (if signed.1 then (- n)%Z else n, rest)
        else None
      else None
  | EmptyString => None
  end.

(** A JSON number: an [int] when it has neither fraction nor exponent, a
    [float] otherwise. *)
Definition parse_number (s : string) : option (pyval * string) :=
  let signed := match s with String "-"%char t => (true, t) | _ => (false, s) end in
  match parse_nat signed.2 with
  | None => None
  | Some (n, rest) =>
      let fraction := parse_fraction rest in
      let rest1 := match fraction with Some (_, _, r) => r | None => rest end in
      let exponent := parse_exponent rest1 in
      let rest2 := match exponent with Some (_, r) => r | None => rest1 end in
      match fraction, exponent with
      | None, None => Some (VInt (if signed.1 then - n else n)%Z, rest)
      | _, _ =>
          let '(f, k) := match fraction with Some (f, k, _) => (f, k) | None => (0, 0)%Z end in
          let e := match exponent with Some (e, _) => e | None => 0%Z end in
          Some (VFloat (float_of_decimal signed.1 (n * 10 ^ k + f) (e - k)), rest2)
      end
  end.

(** The characters after an opening quote, up to the closing one. *)
Fixpoint parse_chars (s : string) : option (string * string) :=
  match s with
  | EmptyString => None
  | String c s' =>
      if Ascii.eqb c dquote then Some (EmptyString, s')
      else if Ascii.eqb c "\"%char then
        match s' with
        | String e s'' =>
            let unescaped :=
              if Ascii.eqb e dquote then Some dquote
              else if Ascii.eqb e "\"%char then Some "\"%char
              else if Ascii.eqb e "/"%char then Some "/"%char
              else if Ascii.eqb e "n"%char then Some (ascii_of_nat 10)
              else if Ascii.eqb e "t"%char then Some (ascii_of_nat 9)
              else if Ascii.eqb e "r"%char then Some (ascii_of_nat 13)
              else if Ascii.eqb e "b"%char then Some (ascii_of_nat 8)
              else if Ascii.eqb e "f"%char then Some (ascii_of_nat 12)
              else None in
            match unescaped with
            | Some u =>
                match parse_chars s'' with
                | Some (str, rest) => Some (String u str, rest)
                | None => None
                end
            | None => None
            end
        | EmptyString => None
        end
      else if (nat_of_ascii c <? 32)%nat then None
      else match parse_chars s' with
           | Some (str, rest) => Some (String c str, rest)
           | None => None
           end
  end.

(** [d[k] = v] *)
Fixpoint dict_set (d : list (string * pyval)) (k : string) (v : pyval)
    : list (string * pyval) :=
  match d with
  | [] => [(k, v)]
  | (k', v') :: d' => if (k' =? k) then (k, v) :: d' else (k', v') :: dict_set d' k v
  end.

Definition literal (lit : string) (v : pyval) (s : string) : option (pyval * string) :=
  if String.prefix lit s
  then Some (v, String.substring (String.length lit) (String.length s - String.length lit) s)
  else None.

Fixpoint parse_value (fuel : nat) (s : string) : option (pyval * string) :=
  match fuel with
  | O => None
  | S fuel' =>
      match skip_ws s with
      | String "{"%char s' =>
          match skip_ws s' with
          | String "}"%char rest => Some (VDict [], rest)
          | _ =>
              (fix members (n : nat) (s : string) (acc : list (string * pyval))
                 : option (pyval * string) :=
                 match n with
                 | O => None
                 | S n' =>
                     match skip_ws s with
                     | String q s1 =>
                         if Ascii.eqb q dquote then
                           match parse_chars s1 with
                           | Some (k, s2) =>
                               match skip_ws s2 with
                               | String ":"%char s3 =>
                                   match parse_value fuel' s3 with
                                   | Some (v, s4) =>
                                       match skip_ws s4 with
                                       | String ","%char s5 => members n' s5 (dict_set acc k v)
                                       | String "}"%char rest => Some (VDict (dict_set acc k v), rest)
                                       | _ => None
                                       end
                                   | None => None
                                   end
                               | _ => None
                               end
                           | None => None
                           end
                         else None
                     | EmptyString => None
                     end
                 end) fuel' s' []
          end
      | String "["%char s' =>
          match skip_ws s' with
          | String "]"%char rest => Some (VList [], rest)
          | _ =>
              (fix elements (n : nat) (s : string) (acc : list pyval)
                 : option (pyval * string) :=
                 match n with
                 | O => None
                 | S n' =>
                     match parse_value fuel' s with
                     | Some (v, s1) =>
                         match skip_ws s1 with
                         | String ","%char s2 => elements n' s2 (acc ++ [v])%list
                         | String "]"%char rest => Some (VList (acc ++ [v])%list, rest)
                         | _ => None
                         end
                     | None => None
                     end
                 end) fuel' s' []
          end
      | String c s' as s0 =>
          if Ascii.eqb c dquote then
            match parse_chars s' with
            | Some (str, rest) => Some (VStr str, rest)
            | None => None
            end
          else if Ascii.eqb c "t"%char then literal "true" (VBool true) s0
          else if Ascii.eqb c "f"%char then literal "false" (VBool false) s0
          else if Ascii.eqb c "n"%char then literal "null" VNone s0
          else match parse_number s0 with
               | Some number => Some number
               | None =>
                   if Ascii.eqb c "N"%char then literal "NaN" (VFloat S754_nan) s0
                   else if Ascii.eqb c "I"%char
                   then literal "Infinity" (VFloat (S754_infinity false)) s0
                   else literal "-Infinity" (VFloat (S754_infinity true)) s0
               end
      | EmptyString => None
      end
  end.

Definition json_loads (s : string) : res pyval :=
  match parse_value (S (String.length s)) s with
  | Some (v, rest) =>
      match skip_ws rest with
      | EmptyString => Ret v
      | _ => Raise JSONDecodeError
      end
  | None => Raise JSONDecodeError
  end.

(** *** [str], [int] *)

(** [value >= 10 ^ d] for the value [num / den]. *)
Definition at_least_pow10 (num den d : Z) : bool :=
  if (0 <=? d)%Z then (den * 10 ^ d <=? num)%Z else (den <=? num * 10 ^ (- d))%Z.

Fixpoint raise_exponent (fuel : nat) (num den d : Z) : Z :=
  match fuel with
  | O => d
  | S fuel' =>
      if at_least_pow10 num den (d + 1) then raise_exponent fuel' num den (d + 1) else d
  end.

(** The [d] with [10 ^ d <= num / den < 10 ^ (d + 1)], reached from an
    estimate that is below it by less than eight. *)
Definition decimal_exponent (num den : Z) : Z :=
  raise_exponent 8 num den ((Z.log2 num - Z.log2 den - 1) * 30103 / 100000 - 1).

(** The numerals of [p] digits next to [num / den], the nearer one first:
    each a whole number [n] that stands for [n * 10 ^ (d - p + 1)]. *)
Definition numerals (num den d p : Z) : list Z :=
  let k := (p - 1 - d)%Z in
  let num' := if (0 <=? k)%Z then (num * 10 ^ k)%Z else num in
  let den' := if (0 <=? k)%Z then den else (den * 10 ^ (- k))%Z in
  let q := (num' / den')%Z in
  let r := (num' mod den')%Z in
  if (r =? 0)%Z then [q]
  else if (2 * r <? den')%Z || ((2 * r =? den')%Z && Z.even q) then [q; q + 1]%Z
  else [q + 1; q]%Z.

(** The shortest numeral that [float] reads back as [f], searched among
    those of [p] digits and more: a whole number and its decimal
    exponent. *)
Fixpoint shortest (fuel : nat) (f : spec_float) (num den d p : Z) : Z * Z :=
  let candidates := numerals num den d p in
  match filter (λ n, SFeqb (float_of_decimal false n (d - p + 1)) f) candidates with
  | n :: _ => (n, d - p + 1)%Z
  | [] =>
      match fuel with
      | O => (hd 0%Z candidates, d - p + 1)%Z
      | S fuel' => shortest fuel' f num den d (p + 1)
      end
  end.

Fixpoint strip_zeros (fuel : nat) (n : Z) : Z :=
  match fuel with
  | O => n
  | S fuel' =>
      if (n mod 10 =? 0)%Z && negb (n =? 0)%Z then strip_zeros fuel' (n / 10)%Z else n
  end.

Definition zeros (k : Z) : string := String.concat "" (repeat "0" (Z.to_nat k)).

(** The text of a positive float from the digits [ds] of its shortest
    numeral, which stands for [0.ds * 10 ^ decpt]: positional notation
    when [-4 < decpt <= 16], with an exponent otherwise. *)
Definition format_digits (ds : string) (decpt : Z) : string :=
  let n := Z.of_nat (String.length ds) in
  if (-4 <? decpt)%Z && (decpt <=? 16)%Z then
    if (decpt <=? 0)%Z then "0." ++ zeros (- decpt) ++ ds
    else if (n <=? decpt)%Z then ds ++ zeros (decpt - n) ++ ".0"
    else String.substring 0 (Z.to_nat decpt) ds ++ "." ++
         String.substring (Z.to_nat decpt) (Z.to_nat (n - decpt)) ds
  else
    let e := (decpt - 1)%Z in
    String.substring 0 1 ds ++
    (if (1 <? n)%Z then "." ++ String.substring 1 (Z.to_nat (n - 1)) ds else "") ++
    "e" ++ (if (e <? 0)%Z then "-" else "+") ++
    (if (Z.abs e <? 10)%Z then "0" else "") ++ pretty (Z.abs e).

(** [repr] of a float: the shortest numeral that reads back as the float,
    of at most 17 digits. *)
Definition float_repr (f : spec_float) : string :=
  match f with
  | S754_zero negative => if negative then "-0.0" else "0.0"
  | S754_infinity negative => if negative then "-inf" else "inf"
  | S754_nan => "nan"
  | S754_finite negative m e =>
      let num := if (0 <=? e)%Z then (Z.pos m * 2 ^ e)%Z else Z.pos m in
      let den := if (0 <=? e)%Z then 1%Z else (2 ^ (- e))%Z in
      let d := decimal_exponent num den in
      let '(n, x) := shortest 16 (S754_finite false m e) num den d 1 in
      let digits := pretty (strip_zeros 20 n) in
      let decpt := (x + Z.of_nat (String.length (pretty n)))%Z in
      (if negative then "-" else "") ++ format_digits digits decpt
  end.

(** [int] of a float: the value without its fraction. *)
Definition float_int (f : spec_float) : res Z :=
  match f with
  | S754_zero _ => Ret 0%Z
  | S754_infinity _ => Raise OverflowError
  | S754_nan => Raise ValueError
  | S754_finite negative m e =>
      let magnitude :=
        if (0 <=? e)%Z then (Z.pos m * 2 ^ e)%Z else (Z.pos m / 2 ^ (- e))%Z in
      Ret (if negative then - magnitude else magnitude)%Z
  end.

Fixpoint py_repr (v : pyval) : string :=
  match v with
  | VNone => "None"
  | VBool b => if b then "True" else "False"
  | VInt n => pretty n
  | VStr s => "'" ++ s ++ "'"
  | VList l =>
      "[" ++ (fix items (l : list pyval) : string :=
                match l with
                | [] => ""
                | x :: l' =>
                    py_repr x ++ match l' with [] => "" | _ => ", " ++ items l' end
                end) l ++ "]"
  | VDict d =>
      "{" ++ (fix items (d : list (string * pyval)) : string :=
                match d with
                | [] => ""
                | (k, x) :: d' =>
                    "'" ++ k ++ "': " ++ py_repr x ++
                    match d' with [] => "" | _ => ", " ++ items d' end
                end) d ++ "}"
  | VFloat f => float_repr f
  end.

Definition py_str (v : pyval) : string :=
  match v with VStr s => s | _ => py_repr v end.

(** The digits of a decimal literal, which may have single underscores
    between them. *)
Fixpoint literal_digits (s : string) (acc : Z) (after_digit : bool) : option Z :=
  match s with
  | EmptyString => if after_digit then Some acc else None
  | String c s' =>
      match digit c with
      | Some d => literal_digits s' (acc * 10 + d)%Z true
      | None =>
          if Ascii.eqb c "_"%char && after_digit then literal_digits s' acc false
          else None
      end
  end.

(** [int(s)] for a string: white space around, an optional sign, and the
    digits. *)
Definition int_of_string (s : string) : res Z :=
  let signed :=
    match strip s with
    | String "-"%char t => (true, t)
    | String "+"%char t => (false, t)
    | t => (false, t)
    end in
  match literal_digits signed.2 0 false with
  | Some n => Ret (if signed.1 then - n else n)%Z
  | None => Raise ValueError
  end.

Definition py_int (v : pyval) : res Z :=
  match v with
  | VInt n => Ret n
  | VBool b => Ret (if b then 1 else 0)%Z
  | VStr s => int_of_string s
  | VFloat f => float_int f
  | _ => Raise TypeError
  end.

(** *** URLs *)

Definition hex_digit (n : nat) : ascii :=
  if (n <? 10)%nat then ascii_of_nat (48 + n) else ascii_of_nat (55 + n).

Definition unreserved (c : ascii) : bool :=
  let n := nat_of_ascii c in
  ((48 <=? n) && (n <=? 57) || (65 <=? n) && (n <=? 90) || (97 <=? n) && (n <=? 122)
   || (n =? 45) || (n =? 46) || (n =? 95) || (n =? 126))%nat.

Fixpoint quote_plus (s : string) : string :=
  match s with
  | EmptyString => EmptyString
  | String c s' =>
      if unreserved c then String c (quote_plus s')
      else if Ascii.eqb c " "%char then String "+"%char (quote_plus s')
      else String "%"%char
             (String (hex_digit (nat_of_ascii c / 16))
                (String (hex_digit (nat_of_ascii c mod 16)) (quote_plus s')))
  end.

Fixpoint urlencode (query : list (string * string)) : string :=
  match query with
  | [] => ""
  | (k, v) :: rest =>
      quote_plus k ++ "=" ++ quote_plus v ++
      match rest with [] => "" | _ => "&" ++ urlencode rest end
  end.

(** A relative path without dot segments, joined to a base that ends
    in a slash. *)
Definition urljoin (base url : string) : string := base ++ url.

(** [urlsplit] first drops the control characters and spaces in front of
    the URL, and the tabs, carriage returns and line feeds inside it. *)
Fixpoint lstrip_c0 (s : string) : string :=
  match s with
  | String c s' => if (nat_of_ascii c <=? 32)%nat then lstrip_c0 s' else s
  | EmptyString => EmptyString
  end.

Fixpoint without_breaks (s : string) : string :=
  match s with
  | String c s' =>
      let n := nat_of_ascii c in
      if ((n =? 9) || (n =? 10) || (n =? 13))%nat then without_breaks s'
      else String c (without_breaks s')
  | EmptyString => EmptyString
  end.

Definition scheme_char (c : ascii) : bool :=
  let n := nat_of_ascii c in
  (65 <=? n)%nat && (n <=? 90)%nat || (97 <=? n)%nat && (n <=? 122)%nat
  || (48 <=? n)%nat && (n <=? 57)%nat
  || (n =? 43)%nat || (n =? 45)%nat || (n =? 46)%nat.

Definition is_letter (c : ascii) : bool :=
  let n := nat_of_ascii c in
  (65 <=? n)%nat && (n <=? 90)%nat || (97 <=? n)%nat && (n <=? 122)%nat.

(** The characters of [s] before the first of [/], [?] and [#]. *)
Fixpoint netloc_of (s : string) : string :=
  match s with
  | String c s' =>
      if Ascii.eqb c "/"%char || Ascii.eqb c "?"%char || Ascii.eqb c "#"%char
      then EmptyString
      else String c (netloc_of s')
  | EmptyString => EmptyString
  end.

(** [urlparse(url).scheme], after CPython 3.11's [urlsplit]: the scheme is
    the text before the first colon, in lower case, when that text starts
    with a letter and is made of letters, digits, [+], [-] and [.]; there
    is no scheme otherwise.  A network location with one square bracket
    and not the other raises [ValueError]; the address between two
    brackets is not examined here. *)
Definition urlparse_scheme (url : string) : res string :=
  let url := without_breaks (lstrip_c0 url) in
  let parts :=
    match split ":"%char url with
    | String c rest :: _ :: _ =>
        if is_letter c && forallb scheme_char (list_ascii_of_string rest)
        then (lower (String c rest),
              String.substring (S (String.length (String c rest)))
                (String.length url) url)
        else ("", url)
    | _ => ("", url)
    end in
  if String.prefix "//" parts.2 then
    let netloc := netloc_of (String.substring 2 (String.length parts.2) parts.2) in
    if xorb (contains netloc "[") (contains netloc "]") then Raise ValueError
    else Ret parts.1
  else Ret parts.1.

(** *** [create_user] *)

(** [s.rsplit('@', 1)] when it gives two parts. *)
Fixpoint rsplit_at (s : string) : option (string * string) :=
  match s with
  | EmptyString => None
  | String c s' =>
      match rsplit_at s' with
      | Some (name, domain) => Some (String c name, domain)
      | None => if Ascii.eqb c "@"%char then Some (EmptyString, s') else None
      end
  end.

Definition normalize_email (email : pyval) : res string :=
  match py_or email (VStr "") with
  | VStr s =>
      match rsplit_at s with
      | Some (name, domain) => Ret (name ++ "@" ++ lower domain)
      | None => Ret s
      end
  | _ => Raise AttributeError
  end.

Definition create_user_fields (username email first_name last_name : pyval)
    : res (string * string * string * string) :=
  if negb (truthy username) then Raise ValueError
  else
    mail ← normalize_email email;
    Ret (py_str username, mail, py_str first_name, py_str last_name).
End Ref.

Definition ref_lib : PyLib := {|
  py_str := Ref.py_str;
  py_str_str := λ s, eq_refl;
  py_int := Ref.py_int;
  py_int_int := λ n, eq_refl;
  urlsafe_b64decode := Ref.urlsafe_b64decode;
  decode_utf8 := Ref.decode_utf8;
  json_loads := Ref.json_loads;
  urlencode := Ref.urlencode;
  urljoin := Ref.urljoin;
  urlparse_scheme := Ref.urlparse_scheme;
  str_datetime := λ t, pretty t;
  isoformat := λ t, pretty t;
  create_user_fields := Ref.create_user_fields;
|}.



(** * Specification vocabulary *)

(** ** Frames *)

(** [frames P m]: whatever [m] returns or raises, the store it leaves is
    related by [P] to the store it started from. *)
Definition frames (P : store → store → Prop) {A} (m : eff A) : Prop :=
  ∀ s, P s (m s).2.

(** The relations used as frames are preorders. *)
Class Frame (P : store → store → Prop) : Prop := {
  frame_refl : ∀ s, P s s;
  frame_trans : ∀ a b c, P a b → P b c → P a c;
}.

(** The state table only loses rows. *)
Definition states_shrink (s s' : store) : Prop :=
  ∀ k, states s !! k = None → states s' !! k = None.

(** A table, or any other projection of the store, is left as it was. *)
Definition same {T} (proj : store → T) (s s' : store) : Prop := proj s' = proj s.

(** ** Sequences of callbacks *)

(** The callback requests a server handles one after the other, each in
    the world it arrives in, with the response each one gets. *)
Fixpoint serve `{PyLib} (cfg : settings)
    (calls : list (world * TapisOAuth2CallbackView.request)) (db : store)
    : list (TapisOAuth2CallbackView.request * res response) :=
  match calls with
  | [] => []
  | (w, request) :: rest =>
      let r := TapisOAuth2CallbackView.get cfg w request db in
      (request, r.1) :: serve cfg rest r.2
  end.

(** A callback succeeds when it ends in the redirect of line 152. *)
Definition succeeded (r : res response) : bool :=
  match r with Ret (HttpResponseRedirect _) => true | _ => false end.

Definition carries (s : string) (request : TapisOAuth2CallbackView.request) : bool :=
  match TapisOAuth2CallbackView.state request with
  | Some s' => (s' =? s)
  | None => false
  end.

Definition successes (s : string)
    (log : list (TapisOAuth2CallbackView.request * res response)) : nat :=
  length (filter (λ c, carries s c.1 && succeeded c.2 = true) log).

Definition invalid_state : response :=
  JsonResponse [("error", VStr "Invalid OAuth2 state")] 400.

(** The refusal of a callback whose state value has no row: always with
    status 400, and with the message of line 103 once the request has passed
    the tests of lines 84 and 91. *)
Definition refused (c : TapisOAuth2CallbackView.request * res response) : Prop :=
  ∃ body,
    c.2 = Ret (JsonResponse body 400)
    ∧ (given (TapisOAuth2CallbackView.code c.1) = true →
       given (TapisOAuth2CallbackView.error c.1) = false →
       JsonResponse body 400 = invalid_state).

Definition state_expired : response :=
  JsonResponse [("error", VStr "OAuth2 state expired")] 400.

(** ** Tokens *)

(** A character of the URL-safe base64 alphabet: a letter, a digit, [-]
    or [_]. *)
Definition base64url_char (c : ascii) : bool :=
  let n := nat_of_ascii c in
  ((65 <=? n) && (n <=? 90) || (97 <=? n) && (n <=? 122) || (48 <=? n) && (n <=? 57)
   || (n =? 45) || (n =? 95))%nat.

(** Valid base64url text: characters of the alphabet, and padding only at
    the end. *)
Fixpoint valid_base64url (s : string) : bool :=
  match s with
  | EmptyString => true
  | String c s' =>
      if Ascii.eqb c "="%char then forallb (Ascii.eqb "="%char) (list_ascii_of_string s')
      else base64url_char c && valid_base64url s'
  end.

(** The second segment of a token cannot be decoded: it is not base64, or
    the bytes are not UTF-8, or the text is not JSON. *)
Inductive undecodable `{PyLib} (segment : string) : Prop :=
| not_base64 e :
    urlsafe_b64decode (TapisOAuth2Backend.pad segment) = Raise e →
    undecodable segment
| not_utf8 bytes e :
    urlsafe_b64decode (TapisOAuth2Backend.pad segment) = Ret bytes →
    decode_utf8 bytes = Raise e →
    undecodable segment
| not_json bytes text e :
    urlsafe_b64decode (TapisOAuth2Backend.pad segment) = Ret bytes →
    decode_utf8 bytes = Ret text →
    json_loads text = Raise e →
    undecodable segment.

(** The token has three segments, and the second one decodes to the JSON
    value [payload]. *)
Definition decodes_to `{PyLib} (token : string) (payload : pyval) : Prop :=
  ∃ header segment signature,
    split "."%char token = [header; segment; signature]
    ∧ (urlsafe_b64decode (TapisOAuth2Backend.pad segment) ≫= λ bytes,
       decode_utf8 bytes ≫= λ text,
       json_loads text) = Ret payload.

(** [payload.get(k)] *)
Definition claim (d : list (string * pyval)) (k : string) : pyval :=
  default VNone (dict_get d k).

(** The value of the first key of [ks] that [d] has. *)
Fixpoint first_present (d : list (string * pyval)) (ks : list string) : option pyval :=
  match ks with
  | [] => None
  | k :: rest =>
      match dict_get d k with
      | Some v => Some v
      | None => first_present d rest
      end
  end.

(** The first value that counts as true, or else the last one. *)
Fixpoint first_truthy (vs : list pyval) : pyval :=
  match vs with
  | [] => VNone
  | [v] => v
  | v :: rest => if truthy v then v else first_truthy rest
  end.

(** The three claims a user name is taken from, in order. *)
Definition username_claims : list string := ["tapis/username"; "username"; "sub"].

(** ** The expiry claim *)

(** The exact value of a float, a rational number; an infinity and a NaN
    have none. *)
Definition float_value (f : spec_float) : option QArith_base.Q :=
  match f with
  | S754_zero _ => Some (QArith_base.inject_Z 0)
  | S754_finite negative m e =>
      Some (QArith_base.Qmult
              (QArith_base.inject_Z (if negative then Z.neg m else Z.pos m))
              (QArith_base.Qpower (QArith_base.inject_Z 2) e))
  | S754_infinity _ | S754_nan => None
  end.

(** The value is a number: an [int], a [bool] or a [float]. *)
Definition is_number (v : pyval) : bool :=
  match v with
  | VInt _ | VBool _ | VFloat _ => true
  | _ => false
  end.

(** The value is a number other than zero that is below the whole number
    [t]: an integer, [True] (which counts as 1), a float with a value below
    [t], or minus infinity. *)
Definition nonzero_below (t : Z) (v : pyval) : Prop :=
  match v with
  | VInt n => n ≠ 0%Z ∧ (n < t)%Z
  | VBool b => b = true ∧ (1 < t)%Z
  | VFloat (S754_infinity negative) => negative = true
  | VFloat f =>
      ∃ q, float_value f = Some q
           ∧ ¬ QArith_base.Qeq q (QArith_base.inject_Z 0)
           ∧ QArith_base.Qlt q (QArith_base.inject_Z t)
  | _ => False
  end.

(** ** Storing the tokens *)

(** The conditions under which [_store_user_tokens] writes its row: the
    optional 'expires_in' converts to a time, none of the four text
    columns would be null, and the token type has at most 50 characters. *)
Definition storable `{PyLib} (w : world) (d : list (string * pyval)) : Prop :=
  (truthy (claim d "expires_in") = true →
     ∃ n t, py_int (claim d "expires_in") = Ret n
            ∧ datetime_add (now w) (timedelta_seconds n) = Ret t)
  ∧ claim d "access_token" ≠ VNone
  ∧ dict_get d "refresh_token" ≠ Some VNone
  ∧ (∀ v, dict_get d "token_type" = Some v →
          v ≠ VNone ∧ (String.length (py_str v) ≤ 50)%nat)
  ∧ dict_get d "scope" ≠ Some VNone.

(** [str] of a dictionary is longer than any string among its values (it
    has the [repr] of each value between its braces). *)
Definition str_of_dict_longer `{PyLib} : Prop :=
  ∀ d k s, dict_get d k = Some (VStr s) →
           (String.length s < String.length (py_str (VDict d)))%nat.

(** ** The order of effects of the discovery trigger *)

(** The preferences [get_or_create_for_user] gives for a user. *)
Definition preferences_of (db : store) (user : User.t) : TapisUserPreferences.t :=
  default (TapisUserPreferences.defaults (User.id user)) (preferences db !! User.id user).

(** The database once [get_or_create_for_user user] has run. *)
Definition with_preferences (db : store) (user : User.t) : store :=
  match preferences db !! User.id user with
  | Some _ => db
  | None =>
      set_preferences (insert (User.id user) (TapisUserPreferences.defaults (User.id user))) db
  end.

(** The scan was started: queued, or run in the request. *)
Definition scan_started (e : event) : bool :=
  match e with
  | TaskDispatched _ _ | ScanReturned _ | ScanRaised _ => true
  | LastDiscoveryUpdated _ _ => false
  end.

(** The outcome of the scan is known to the request. *)
Definition outcome_known (e : event) : bool :=
  match e with
  | ScanReturned _ | ScanRaised _ => true
  | TaskDispatched _ _ | LastDiscoveryUpdated _ _ => false
  end.

(** The timestamp is written, and before any outcome of the scan. *)
Fixpoint updated_before_outcome (evs : list event) : bool :=
  match evs with
  | [] => false
  | LastDiscoveryUpdated _ _ :: _ => true
  | e :: rest => if outcome_known e then false else updated_before_outcome rest
  end.

(** ** Listings of the files API *)

(** An entry of a listing is an object. *)
Definition entry (item : pyval) : Prop := ∃ d, item = VDict d.

(** The name of a file entry, if it has one, is a string. *)
Definition file_name_is_text (item : pyval) : Prop :=
  ∀ d v, item = VDict d → dict_get d "type" = Some (VStr "file") →
         dict_get d "name" = Some v → ∃ s, v = VStr s.

(** The entry is a directory called [name]. *)
Definition is_dir (name : string) (item : pyval) : Prop :=
  ∃ d, item = VDict d
       ∧ dict_get d "type" = Some (VStr "dir")
       ∧ dict_get d "name" = Some (VStr name).

(** The entry is a file whose name ends in .jpg or .jpeg, in any letter
    case. *)
Definition jpeg_file (item : pyval) : Prop :=
  ∃ d stem ext,
    item = VDict d
    ∧ dict_get d "type" = Some (VStr "file")
    ∧ dict_get d "name" = Some (VStr (stem ++ ext))
    ∧ (lower ext = ".jpg" ∨ lower ext = ".jpeg").

(** Exactly one element of [items] satisfies [P]. *)
Definition exactly_one {A} (P : A → Prop) (items : list A) : Prop :=
  ∃ before x after,
    items = (before ++ x :: after)%list
    ∧ P x ∧ Forall (λ y, ¬ P y) before ∧ Forall (λ y, ¬ P y) after.

(** The files API lists the root of [system] as [items]. *)
Definition root_lists `{PyLib} (w : world) (svc : TapisStorageService.t)
    (system : pyval) (items : list pyval) : Prop :=
  ∃ response,
    TapisStorageService._make_request w svc
      ("v3/files/ops/" ++ py_str system ++ "/") "GET" [] = Ret response
    ∧ get response "result" (VList []) = Ret (VList items)
    ∧ Forall entry items.

(** The files API lists the directory [path] of [system] as [items]. *)
Definition lists `{PyLib} (w : world) (svc : TapisStorageService.t)
    (system : pyval) (path : string) (items : list pyval) : Prop :=
  ∃ response,
    TapisStorageService._make_request w svc
      ("v3/files/ops/" ++ py_str system ++ "/" ++ path ++ "/") "GET" [] = Ret response
    ∧ get response "result" (VList []) = Ret (VList items)
    ∧ Forall entry items.

(** The files API lists the directory [path] of [system] as [items], and
    the files among them have strings for names. *)
Definition lists_files `{PyLib} (w : world) (svc : TapisStorageService.t)
    (system : pyval) (path : string) (items : list pyval) : Prop :=
  lists w svc system path items ∧ Forall file_name_is_text items.

(** The matches a scan reports for the flight directory [flight]. *)
Definition matches_of (flight : string) (flights : list flight_info) : list flight_info :=
  filter (λ info, eq_str (flight_name info) flight = true) flights.

(** ** Projects and flights *)

(** A project of [user] already has the pair [system_id,flight_name] in
    its tag string. *)
Definition materialised `{PyLib} (db : store) (user : User.t)
    (system flight : pyval) : Prop :=
  ∃ p, p ∈ projects db
       ∧ Project.owner p = User.id user
       ∧ contains (Project.tags p) (py_str system ++ "," ++ py_str flight) = true.

(** The entry of [created_projects] is for that flight. *)
Definition for_flight (system flight : pyval) (cp : created_project) : Prop :=
  cp_system_id cp = system ∧ cp_flight_name cp = flight.

(** The invariant of the creation loop, for a flight whose project exists
    in the database [db0] the run started from. *)
Definition rerun_inv `{PyLib} (db0 : store) (user : User.t) (system flight : pyval)
    (rs : results) (db : store) : Prop :=
  materialised db user system flight
  ∧ (∀ cp, cp ∈ created_projects rs → ¬ for_flight system flight cp)
  ∧ (∀ p, p ∈ projects db →
          p ∈ projects db0 ∨ ∃ cp, cp ∈ created_projects rs ∧ cp_project_id cp = Project.id p).

(** No store is written. *)
Definition untouched (s s' : store) : Prop := s' = s.

(** ** A scenario: client [demo] of tenant [tacc] *)

Module Demo.
Definition client : TapisOAuth2Client.t := {|
  TapisOAuth2Client.client_id := "demo";
  TapisOAuth2Client.client_secret := "s3cret";
  TapisOAuth2Client.tenant_id := "tacc";
  TapisOAuth2Client.base_url := "https://x.tapis.io";
  TapisOAuth2Client.authorization_url := "https://x.tapis.io/v3/oauth2/authorize";
  TapisOAuth2Client.token_url := "https://x.tapis.io/v3/oauth2/tokens";
  TapisOAuth2Client.callback_url := "https://webodm.example/api/oauth2/tapis/callback/";
  TapisOAuth2Client.name := "Demo";
  TapisOAuth2Client.is_active := true;
|}.

Definition cfg : settings :=
  {| TAPIS_BASE_URL := Some "https://x.tapis.io"; TAPIS_TENANT_ID := Some "tacc" |}.

(** A database with the client and nothing else. *)
Definition db0 : store := {|
  clients := {[ "demo" := client ]};
  states := ∅; tokens := ∅; users := ∅; preferences := ∅;
  projects := []; tasks := []; session := None; events := [];
|}.

(** A token whose payload is [{"username":"alice","exp":9999999999}]. *)
Definition jwt : string :=
  "eyJhbGciOiJSUzI1NiJ9.eyJ1c2VybmFtZSI6ImFsaWNlIiwiZXhwIjo5OTk5OTk5OTk5fQ.c2ln".

(** The token endpoint's answer, in the nested shape. *)
Definition token_response : pyval :=
  VDict [("status", VStr "success");
         ("result",
          VDict [("access_token",
                  VDict [("access_token", VStr jwt); ("expires_in", VInt 14400)]);
                 ("refresh_token", VDict [("refresh_token", VStr "r1")])])].

(** 14 November 2023, 22:13:20 UTC. *)
Definition T0 : datetime := 1700000000000000%Z.

(** At time [t]: the token endpoint answers [token_response], the files
    API is unreachable and the Celery broker accepts the task. *)
Definition w (t : datetime) : world := {|
  now := t;
  http_request := λ _ _ _ _, Raise RequestException;
  http_post := λ _ _ _, Ret (200%nat, Ret token_response);
  celery_delay := λ _ _, Ret "task-1";
  token_urlsafe := "st4te";
|}.

Definition authorize_request : TapisOAuth2AuthorizeView.request := {|
  TapisOAuth2AuthorizeView.user := None;
  TapisOAuth2AuthorizeView.redirect_after := Some "/plugins/";
|}.

(** The database after [GET /authorize/demo?redirect_after=/plugins/]. *)
Definition db1 : store :=
  (TapisOAuth2AuthorizeView.get (H := ref_lib) (w T0) authorize_request "demo" db0).2.

Definition callback_request : TapisOAuth2CallbackView.request := {|
  TapisOAuth2CallbackView.code := Some "c0de";
  TapisOAuth2CallbackView.state := Some "st4te";
  TapisOAuth2CallbackView.error := None;
  TapisOAuth2CallbackView.error_description := None;
|}.

(** The provider's error redirect, which carries the state as well. *)
Definition error_request : TapisOAuth2CallbackView.request := {|
  TapisOAuth2CallbackView.code := None;
  TapisOAuth2CallbackView.state := Some "st4te";
  TapisOAuth2CallbackView.error := Some "access_denied";
  TapisOAuth2CallbackView.error_description := None;
|}.

Definition ten_minutes : Z := 600000000%Z.

(** The database after the callback, made one minute after [T0]. *)
Definition db2 : store :=
  (TapisOAuth2CallbackView.get (H := ref_lib) cfg (w (T0 + 60000000)%Z) callback_request db1).2.

(** The user the callback has created. *)
Definition alice : User.t := {|
  User.id := 1; User.username := "alice"; User.email := "";
  User.first_name := ""; User.last_name := "";
|}.

(** The row the callback has stored for her: the text of the nested
    object is in [access_token]. *)
Definition alice_token : TapisOAuth2Token.t := {|
  TapisOAuth2Token.user := 1;
  TapisOAuth2Token.client := "demo";
  TapisOAuth2Token.access_token :=
    VStr ("{'access_token': '" ++ jwt ++ "', 'expires_in': 14400}");
  TapisOAuth2Token.refresh_token := VStr "{'refresh_token': 'r1'}";
  TapisOAuth2Token.token_type := VStr "Bearer";
  TapisOAuth2Token.scope := VStr "";
  TapisOAuth2Token.expires_at := None;
|}.

Definition system : string := "ptdatax.project.PT2050-DataX".

Definition item (type name : string) : pyval :=
  VDict [("name", VStr name); ("type", VStr type)].

Definition listing (items : list pyval) : pyval := VDict [("result", VList items)].

Definition root_items : list pyval :=
  [item "dir" "Flight1"; item "dir" "Flight2"; item "file" "README.txt"].
Definition flight1_code : list pyval := [item "dir" "images"; item "file" "run.py"].
Definition flight1_images : list pyval := [item "file" "a.JPG"; item "file" "notes.txt"].
Definition flight2_code : list pyval := [item "dir" "src"].

(** A files API with one system and two flight directories, of which the
    first has [code/images/a.JPG] and the second has no [images]. *)
Definition files (method url : string) (headers params : list (string * string))
    : res pyval :=
  if url =? "https://x.tapis.io/v3/systems"
  then Ret (listing [VDict [("id", VStr system)]])
  else if url =? "https://x.tapis.io/v3/files/ops/ptdatax.project.PT2050-DataX/"
  then Ret (listing root_items)
  else if url =? "https://x.tapis.io/v3/files/ops/ptdatax.project.PT2050-DataX/Flight1/code/"
  then Ret (listing flight1_code)
  else if url =? "https://x.tapis.io/v3/files/ops/ptdatax.project.PT2050-DataX/Flight1/code/images/"
  then Ret (listing flight1_images)
  else if url =? "https://x.tapis.io/v3/files/ops/ptdatax.project.PT2050-DataX/Flight2/code/"
  then Ret (listing flight2_code)
  else Raise RequestException.

(** At time [t], on a server without Celery: importing the task module
    raises [ImportError], and the files API answers. *)
Definition w_sync (t : datetime) : world := {|
  now := t;
  http_request := files;
  http_post := λ _ _ _, Ret (200%nat, Ret token_response);
  celery_delay := λ _ _, Raise ImportError;
  token_urlsafe := "st4te";
|}.

(** At time [t], a token endpoint that answers a refresh with a new access
    token and [expires_in: 0]. *)
Definition refresh_response : list (string * pyval) :=
  [("access_token", VStr "n3w"); ("expires_in", VInt 0)].

Definition w_refresh (t : datetime) : world := {|
  now := t;
  http_request := λ _ _ _ _, Raise RequestException;
  http_post := λ _ _ _, Ret (200%nat, Ret (VDict refresh_response));
  celery_delay := λ _ _, Ret "task-2";
  token_urlsafe := "st4te";
|}.

Definition service : TapisStorageService.t := {|
  TapisStorageService.user := alice;
  TapisStorageService.client := client;
  TapisStorageService.token := alice_token;
  TapisStorageService.base_url := "https://x.tapis.io";
|}.

Definition two_days : Z := 172800000000%Z.

(** The database after alice's next login, two days later, on the server
    without Celery: the scan has run in the request. *)
Definition db3 : store :=
  (TapisOAuth2CallbackView._trigger_flight_discovery (H := ref_lib)
     (w_sync (T0 + two_days)%Z) alice client db2).2.

(** The project that scan has created, for the first flight. *)
Definition flight1_project : Project.t :=
  Eval vm_compute in
    default {| Project.id := 0; Project.owner := 0; Project.name := "";
               Project.description := ""; Project.tags := "" |}
      (head (projects db3)).

(** What a second scan reports, an hour later. *)
Definition rerun : results := {|
  systems_scanned := 1; flights_discovered := 1; projects_created := 0;
  errors := []; created_projects := [];
|}.

(** Tokens whose payloads are [{"tapis/username":"","username":"bob"}] and
    [{"username":"alice","exp":0}]. *)
Definition jwt_empty_claim : string :=
  "eyJhbGciOiJSUzI1NiJ9.eyJ0YXBpcy91c2VybmFtZSI6IiIsInVzZXJuYW1lIjoiYm9iIn0.c2ln".
Definition jwt_exp_zero : string :=
  "eyJhbGciOiJSUzI1NiJ9.eyJ1c2VybmFtZSI6ImFsaWNlIiwiZXhwIjowfQ.c2ln".

(** Tokens whose payloads are [{"username":"alice","exp":1700000000}],
    which expires at [T0], [{"username":"alice","exp":1699999999.5}], half
    a second before, and [{"username":"alice","exp":"never"}]. *)
Definition jwt_exp_T0 : string :=
  "eyJhbGciOiJSUzI1NiJ9.eyJ1c2VybmFtZSI6ImFsaWNlIiwiZXhwIjoxNzAwMDAwMDAwfQ.c2ln".
Definition jwt_exp_fraction : string :=
  "eyJhbGciOiJSUzI1NiJ9.eyJ1c2VybmFtZSI6ImFsaWNlIiwiZXhwIjoxNjk5OTk5OTk5LjV9.c2ln".
Definition jwt_exp_text : string :=
  "eyJhbGciOiJSUzI1NiJ9.eyJ1c2VybmFtZSI6ImFsaWNlIiwiZXhwIjoibmV2ZXIifQ.c2ln".

(** The float 1699999999.5. *)
Definition half_a_second_before_T0 : spec_float :=
  S754_finite false 7130316797902848 (-22).

(** A token whose second segment is the base64url text of
    [{"username":"alice"}] with an exclamation mark and a padding character
    after it. *)
Definition jwt_stray_character : string := "x.eyJ1c2VybmFtZSI6ImFsaWNlIn0!=.y".

(** A file entry whose name is null. *)
Definition unnamed_file : pyval := VDict [("name", VNone); ("type", VStr "file")].

(** A files API with one system, whose root lists [root], whose
    [Flight1/code] lists [code] and whose [Flight1/code/images] lists
    [images]. *)
Definition files_of (root code images : list pyval) (method url : string)
    (headers params : list (string * string)) : res pyval :=
  if url =? "https://x.tapis.io/v3/systems"
  then Ret (listing [VDict [("id", VStr system)]])
  else if url =? "https://x.tapis.io/v3/files/ops/ptdatax.project.PT2050-DataX/"
  then Ret (listing root)
  else if url =? "https://x.tapis.io/v3/files/ops/ptdatax.project.PT2050-DataX/Flight1/code/"
  then Ret (listing code)
  else if url =? "https://x.tapis.io/v3/files/ops/ptdatax.project.PT2050-DataX/Flight1/code/images/"
  then Ret (listing images)
  else Raise RequestException.

Definition w_files (root code images : list pyval) (t : datetime) : world := {|
  now := t;
  http_request := files_of root code images;
  http_post := λ _ _ _, Ret (200%nat, Ret token_response);
  celery_delay := λ _ _, Raise ImportError;
  token_urlsafe := "st4te";
|}.

(** The images of the first flight: a.JPG and a file without a name. *)
Definition images_with_unnamed_file : list pyval := [item "file" "a.JPG"; unnamed_file].

(** A root listing with an entry that is not an object before the
    flight, and a listing of [code] with one before the directory
    [images]. *)
Definition root_with_stray_entry : list pyval := [VStr "lost+found"; item "dir" "Flight1"].
Definition code_with_stray_entry : list pyval := [VStr "lost+found"; item "dir" "images"].

(** The token endpoint's answer in the plain shape, and in the nested
    shape with a null refresh token. *)
Definition plain_response : pyval :=
  VDict [("status", VStr "success");
         ("result", VDict [("access_token", VStr jwt); ("refresh_token", VStr "r1")])].

Definition nested_without_refresh : list (string * pyval) :=
  [("access_token", VDict [("access_token", VStr jwt); ("expires_in", VInt 14400)]);
   ("refresh_token", VNone)].

Definition nested_without_refresh_response : pyval :=
  VDict [("status", VStr "success"); ("result", VDict nested_without_refresh)].

(** At time [t], a token endpoint that answers [answer]. *)
Definition w_answer (answer : pyval) (t : datetime) : world := {|
  now := t;
  http_request := λ _ _ _ _, Raise RequestException;
  http_post := λ _ _ _, Ret (200%nat, Ret answer);
  celery_delay := λ _ _, Ret "task-1";
  token_urlsafe := "st4te";
|}.

(** The database after a login whose token endpoint answered in the plain
    shape, and after the authorize request of the next login. *)
Definition db_plain : store :=
  (TapisOAuth2CallbackView.get (H := ref_lib) cfg (w_answer plain_response (T0 + 60000000)%Z)
     callback_request db1).2.

Definition db_plain_again : store :=
  (TapisOAuth2AuthorizeView.get (H := ref_lib) (w (T0 + 120000000)%Z) authorize_request
     "demo" db_plain).2.

(** An authorize request whose target after the login is a script. *)
Definition script_request : TapisOAuth2AuthorizeView.request := {|
  TapisOAuth2AuthorizeView.user := None;
  TapisOAuth2AuthorizeView.redirect_after := Some "javascript:alert(1)";
|}.

Definition db_script : store :=
  (TapisOAuth2AuthorizeView.get (H := ref_lib) (w T0) script_request "demo" db0).2.

(** An authorize request whose target after the login has 201
    characters. *)
Definition long_request : TapisOAuth2AuthorizeView.request := {|
  TapisOAuth2AuthorizeView.user := None;
  TapisOAuth2AuthorizeView.redirect_after := Some ("/" ++ String.concat "" (repeat "a" 200));
|}.
End Demo.

(** * Further code and vocabulary *)

(** ** Vocabulary *)

(** Every table but the users': what [same users_apart] compares. *)
Definition users_apart (s : store) :=
  (clients s, states s, tokens s, preferences s, projects s, tasks s, session s, events s).

(** No row of the users' table is lost. *)
Definition users_grow (s s' : store) : Prop :=
  ∀ k, is_Some (users s !! k) → is_Some (users s' !! k).

(** The target of the redirect of line 152: [state_obj.redirect_after_auth
    or '/dashboard/']. *)
Definition redirect_url_of (state_obj : TapisOAuth2State.t) : string :=
  if negb (TapisOAuth2State.redirect_after_auth state_obj =? "")
  then TapisOAuth2State.redirect_after_auth state_obj
  else "/dashboard/".

(** The callback went through all its writes and was stopped by the
    response of line 152: the row found under the state value of the
    request names a target for which [HttpResponseRedirect] raises; in
    [db'] a user is logged in and the state row is deleted. *)
Definition stopped_at_redirect `{PyLib} (request : TapisOAuth2CallbackView.request)
    (db db' : store) : Prop :=
  ∃ s state_obj e,
    TapisOAuth2CallbackView.state request = Some s
    ∧ states db !! s = Some state_obj
    ∧ http_response_redirect (redirect_url_of state_obj) = Raise e
    ∧ states db' !! s = None
    ∧ is_Some (session db').

(** The callback redirects to the target the state row names, which
    [HttpResponseRedirect] accepts. *)
Definition redirected `{PyLib} (request : TapisOAuth2CallbackView.request)
    (db : store) (r : response) : Prop :=
  ∃ s state_obj,
    TapisOAuth2CallbackView.state request = Some s
    ∧ states db !! s = Some state_obj
    ∧ http_response_redirect (redirect_url_of state_obj) = Ret r
    ∧ r = HttpResponseRedirect (redirect_url_of state_obj).

(** What the body of the [try] block of the callback does. *)
Definition callback_body_outcome `{PyLib} (request : TapisOAuth2CallbackView.request)
    (db : store) (x : res response * store) : Prop :=
  (∃ r db', x = (Ret r, db') ∧ redirected request db r)
  ∨ (∃ s, x = (Ret state_expired, set_states (delete s) db)
          ∧ TapisOAuth2CallbackView.state request = Some s)
  ∨ (∃ body status, x = (Ret (JsonResponse body status), db)
                    ∧ (status = 400 ∨ status = 401 ∨ status = 500)%nat)
  ∨ (∃ e, x = (Raise e, db))
  ∨ (∃ e db', x = (Raise e, db') ∧ stopped_at_redirect request db db').

(** The URL the authorize view redirects to. *)
Definition auth_url_of `{PyLib} (w : world) (client : TapisOAuth2Client.t) : string :=
  TapisOAuth2Client.authorization_url client ++ "?" ++
  urlencode [("client_id", TapisOAuth2Client.client_id client);
             ("response_type", "code");
             ("redirect_uri", TapisOAuth2Client.callback_url client);
             ("state", token_urlsafe w);
             ("scope", "openid profile")].

(** The state row the authorize view writes for [client], under a state
    value that has no row yet. *)
Definition state_row_added (w : world) (request : TapisOAuth2AuthorizeView.request)
    (client : TapisOAuth2Client.t) (row : TapisOAuth2State.t) (db db' : store) : Prop :=
  states db !! token_urlsafe w = None
  ∧ db' = set_states (insert (token_urlsafe w) row) db
  ∧ TapisOAuth2State.state row = token_urlsafe w
  ∧ TapisOAuth2State.user row = TapisOAuth2AuthorizeView.user request
  ∧ TapisOAuth2State.client row = TapisOAuth2Client.client_id client
  ∧ TapisOAuth2State.redirect_after_auth row
    = default "/dashboard/" (TapisOAuth2AuthorizeView.redirect_after request)
  ∧ (String.length (token_urlsafe w) ≤ 128)%nat
  ∧ (String.length (default "/dashboard/" (TapisOAuth2AuthorizeView.redirect_after request))
     ≤ 200)%nat.

(** Why the authorize view writes no row: the client is unknown or not
    active, the state value is in use, the expiry is past [datetime.max],
    or a column is too short for its value. *)
Definition no_state_row (w : world) (request : TapisOAuth2AuthorizeView.request)
    (client_id : string) (db : store) : Prop :=
  clients db !! client_id = None
  ∨ (∃ client, clients db !! client_id = Some client
               ∧ TapisOAuth2Client.is_active client = false)
  ∨ is_Some (states db !! token_urlsafe w)
  ∨ (∃ e, datetime_add (now w) (timedelta_minutes 10) = Raise e)
  ∨ (128 < String.length (token_urlsafe w))%nat
  ∨ (200 < String.length
             (default "/dashboard/" (TapisOAuth2AuthorizeView.redirect_after request)))%nat.

(** A match as the scan of [system] at the time of [w] reports them. *)
Definition scanned_flight `{PyLib} (w : world) (system : pyval) (info : flight_info)
    : Prop :=
  system_id info = system
  ∧ truthy (flight_name info) = true
  ∧ images_path info = py_str (flight_name info) ++ "/code/images"
  ∧ (1 ≤ image_count info)%nat
  ∧ discovered_at info = now w.

(** The entry [cp] of [created_projects] describes the project [p], which
    belongs to the user [uid] and carries the tags of the flight. *)
Definition entry_of_project `{PyLib} (uid : nat) (cp : created_project) (p : Project.t)
    : Prop :=
  cp_project_id cp = Project.id p
  ∧ cp_project_name cp = Project.name p
  ∧ Project.owner p = uid
  ∧ Project.name p = py_str (cp_flight_name cp) ++ " (" ++ py_str (cp_system_id cp) ++ ")"
  ∧ Project.tags p
    = "tapis,flight," ++ py_str (cp_system_id cp) ++ "," ++ py_str (cp_flight_name cp).

(** The task [t] was created for the project [p]. *)
Definition task_of_project (p : Project.t) (t : Task.t) : Prop :=
  Task.project t = Project.id p.

(** Every table but the projects' and the tasks'. *)
Definition projects_apart (s : store) :=
  (clients s, states s, tokens s, users s, preferences s, session s, events s).

(** The existing-project check has a project to find for the flight: one
    of the user's, whose tags contain the flight's tag pair up to letter
    case. *)
Definition has_project `{PyLib} (db : store) (user : User.t) (info : flight_info) : Prop :=
  ∃ p, p ∈ projects db
       ∧ Project.owner p = User.id user
       ∧ icontains (Project.tags p) (TapisFlightDiscoveryService.flight_tag info) = true.

(** ** More of [app/models/oauth2.py] *)

(** [s.startswith(prefix)] *)
Definition startswith (s prefix : string) : bool := String.prefix prefix s.

Module TapisOAuth2ClientSave.
(** Lines 41-45 of [TapisOAuth2Client.save]: the instance as
    [super().save()] receives it, with the two endpoint URLs derived from
    [base_url] where they were empty. *)
Definition save (self : TapisOAuth2Client.t) : TapisOAuth2Client.t := {|
  TapisOAuth2Client.client_id := TapisOAuth2Client.client_id self;
  TapisOAuth2Client.client_secret := TapisOAuth2Client.client_secret self;
  TapisOAuth2Client.tenant_id := TapisOAuth2Client.tenant_id self;
  TapisOAuth2Client.base_url := TapisOAuth2Client.base_url self;
  TapisOAuth2Client.authorization_url :=
    if negb (negb (TapisOAuth2Client.authorization_url self =? ""))
    then rstrip "/"%char (TapisOAuth2Client.base_url self) ++ "/v3/oauth2/authorize"
    else TapisOAuth2Client.authorization_url self;
  TapisOAuth2Client.token_url :=
    if negb (negb (TapisOAuth2Client.token_url self =? ""))
    then rstrip "/"%char (TapisOAuth2Client.base_url self) ++ "/v3/oauth2/tokens"
    else TapisOAuth2Client.token_url self;
  TapisOAuth2Client.callback_url := TapisOAuth2Client.callback_url self;
  TapisOAuth2Client.name := TapisOAuth2Client.name self;
  TapisOAuth2Client.is_active := TapisOAuth2Client.is_active self;
|}.
End TapisOAuth2ClientSave.

Module TapisOAuth2StateCleanup.
(** [TapisOAuth2State.cleanup_expired]:
    [cls.objects.filter(expires_at__lt=timezone.now()).delete()] *)
Definition cleanup_expired (now : datetime) : eff unit :=
  modify (set_states
            (filter (λ kv : string * TapisOAuth2State.t,
                       ¬ (TapisOAuth2State.expires_at kv.2 < now)%Z))).

(** The task [cleanup_expired_oauth_states] of [app/tasks/tapis_storage.py]:
    its [except] clause logs and raises again. *)
Definition cleanup_expired_oauth_states (now : datetime) : eff unit :=
  try_eff (cleanup_expired now) Exception (λ e, raise e).
End TapisOAuth2StateCleanup.

(** ** More of [app/api/tapis_oauth2.py] *)

Module TapisOAuth2RevokeView.
(** [request.user] is the authenticated caller. *)
Definition post (user : User.t) (client_id : string) : eff response :=
  try_eff
    (get_object_or_404 client_id ≫= λ client,
     let key := (User.id user, TapisOAuth2Client.client_id client) in
     gets tokens ≫= λ ts : gmap (nat * string) TapisOAuth2Token.t,
     match ts !! key with
     | None => mret (Response [("error", VStr "No token found for this client")] 404)
     | Some token_obj =>
         modify (set_tokens (delete key)) ≫= λ _,
         mret (Response [("message", VStr "Token revoked successfully")] 200)
     end)
    Exception (λ _, mret (Response [("error", VStr "Failed to revoke token")] 500)).
End TapisOAuth2RevokeView.

(** ** More vocabulary *)

(** [c * n] *)
Fixpoint char_times (c : ascii) (n : nat) : string :=
  match n with O => EmptyString | S n' => String c (char_times c n') end.

(** Every table but the states'. *)
Definition states_apart (s : store) :=
  (clients s, tokens s, users s, preferences s, projects s, tasks s, session s, events s).

(** Every table but the tokens'. *)
Definition tokens_apart (s : store) :=
  (clients s, states s, users s, preferences s, projects s, tasks s, session s, events s).

(** ** More operations on strings *)

(** [sep.join(items)] for a list of values: only strings can be joined. *)
Fixpoint join (sep : string) (items : list pyval) : res string :=
  match items with
  | [] => Ret ""
  | VStr s :: rest =>
      match rest with
      | [] => Ret s
      | _ => tail ← join sep rest; Ret (s ++ sep ++ tail)
      end
  | _ :: _ => Raise TypeError
  end.

(** ** The flight of a project, read back from its tags *)

(** The loop of lines 104-113 of [app/tasks/tapis_storage.py], which is
    also that of lines 283-292 of [app/api/tapis_storage.py]: the pair
    [(system_id, flight_name)] it leaves. *)
Definition tag_step (found : option string * option string) (tag : string)
    : option string * option string :=
  let tag := strip tag in
  if startswith tag "ptdatax.project" then (Some tag, found.2)
  else if negb ((tag =? "tapis") || (tag =? "flight")) then (found.1, Some tag)
  else found.

Definition flight_of_tags (project_tags : string) : option string * option string :=
  let tags := if negb (project_tags =? "") then split ","%char project_tags else [] in
  fold_left tag_step tags (None, None).

(** [if system_id and flight_name:] with the dict of lines 118-122. *)
Definition flight_info_of_tags (project_tags : string)
    : option (string * string * string) :=
  match flight_of_tags project_tags with
  | (Some system_id, Some flight_name) =>
      if negb (system_id =? "") && negb (flight_name =? "")
      then Some (system_id, flight_name, flight_name ++ "/code/images")
      else None
  | _ => None
  end.

(** ** More of [app/models/tapis_preferences.py] *)

Module TapisUserPreferencesList.
(** [get_preferred_systems_list] *)
Definition get_preferred_systems_list (self : TapisUserPreferences.t) : list string :=
  if negb (negb (strip (TapisUserPreferences.preferred_systems self) =? ""))
  then []
  else strip <$>
         filter (λ s, negb (strip s =? "") = true)
           (split ","%char (TapisUserPreferences.preferred_systems self)).
End TapisUserPreferencesList.

(** ** [app/api/tapis_preferences.py] *)

(** The range of an [IntegerField] column; a database that enforces it
    refuses a value outside. *)
Definition in_integer_range (n : Z) : bool :=
  ((-2147483648 <=? n) && (n <=? 2147483647))%Z.

Module TapisUserPreferencesView.
Section View.
Context `{PyLib}.
(** [timezone.now()], the translation [gettext] of the active language,
    and [str(e)] for an exception, whose message is not represented. *)
Variable (now : datetime) (gettext : string → string) (detail : exn → string).

(** The dict under 'preferences' of lines 31-40 and 121-130. *)
Definition preferences_body (preferences : TapisUserPreferences.t) : pyval :=
  VDict
    [("auto_discover_on_login",
      VBool (TapisUserPreferences.auto_discover_on_login preferences));
     ("max_projects_per_discovery",
      VInt (TapisUserPreferences.max_projects_per_discovery preferences));
     ("discovery_cooldown_hours",
      VInt (TapisUserPreferences.discovery_cooldown_hours preferences));
     ("notify_on_discovery_complete",
      VBool (TapisUserPreferences.notify_on_discovery_complete preferences));
     ("notify_on_discovery_errors",
      VBool (TapisUserPreferences.notify_on_discovery_errors preferences));
     ("preferred_systems",
      VList (VStr <$> TapisUserPreferencesList.get_preferred_systems_list preferences));
     ("last_auto_discovery",
      match TapisUserPreferences.last_auto_discovery preferences with
      | Some t => VStr (isoformat t)
      | None => VNone
      end);
     ("can_run_discovery",
      VBool (TapisUserPreferences.should_run_auto_discovery now preferences))].

Definition get (user : User.t) : eff response :=
  try_eff
    (get_or_create_for_user user ≫= λ preferences,
     mret (Response [("success", VBool true);
                     ("preferences", preferences_body preferences)] 200))
    Exception
    (λ e, mret (Response [("success", VBool false);
                          ("error", VStr (gettext "Failed to retrieve preferences"));
                          ("detail", VStr (detail e))] 500)).

(** A step of the updates of lines 69-112: the response that ends the
    request, or the instance with the assignment made. *)
Definition step : Type :=
  TapisUserPreferences.t → res (response + TapisUserPreferences.t).

Definition bad_request (message : string) : response :=
  Response [("success", VBool false); ("error", VStr (gettext message))] 400.

(** [if key in request.data: ... request.data[key] ...] *)
Definition when_given (data : pyval) (key : string)
    (update : pyval → step) : step := λ preferences,
  has_key data key ≫= λ given : bool,
  if given then value ← subscript data key; update value preferences
  else Ret (inr preferences).

Definition set_auto_discover_on_login (value : pyval) : step := λ p,
  Ret (inr {| TapisUserPreferences.user := TapisUserPreferences.user p;
              TapisUserPreferences.auto_discover_on_login := truthy value;
              TapisUserPreferences.max_projects_per_discovery :=
                TapisUserPreferences.max_projects_per_discovery p;
              TapisUserPreferences.discovery_cooldown_hours :=
                TapisUserPreferences.discovery_cooldown_hours p;
              TapisUserPreferences.notify_on_discovery_complete :=
                TapisUserPreferences.notify_on_discovery_complete p;
              TapisUserPreferences.notify_on_discovery_errors :=
                TapisUserPreferences.notify_on_discovery_errors p;
              TapisUserPreferences.preferred_systems :=
                TapisUserPreferences.preferred_systems p;
              TapisUserPreferences.last_auto_discovery :=
                TapisUserPreferences.last_auto_discovery p |}).

Definition set_max_projects_per_discovery (value : pyval) : step := λ p,
  max_projects ← py_int value;
  if (max_projects <? 1)%Z
  then Ret (inl (bad_request "max_projects_per_discovery must be at least 1"))
  else
    Ret (inr {| TapisUserPreferences.user := TapisUserPreferences.user p;
                TapisUserPreferences.auto_discover_on_login :=
                  TapisUserPreferences.auto_discover_on_login p;
                TapisUserPreferences.max_projects_per_discovery := max_projects;
                TapisUserPreferences.discovery_cooldown_hours :=
                  TapisUserPreferences.discovery_cooldown_hours p;
                TapisUserPreferences.notify_on_discovery_complete :=
                  TapisUserPreferences.notify_on_discovery_complete p;
                TapisUserPreferences.notify_on_discovery_errors :=
                  TapisUserPreferences.notify_on_discovery_errors p;
                TapisUserPreferences.preferred_systems :=
                  TapisUserPreferences.preferred_systems p;
                TapisUserPreferences.last_auto_discovery :=
                  TapisUserPreferences.last_auto_discovery p |}).

Definition set_discovery_cooldown_hours (value : pyval) : step := λ p,
  cooldown_hours ← py_int value;
  if (cooldown_hours <? 0)%Z
  then Ret (inl (bad_request "discovery_cooldown_hours must be non-negative"))
  else
    Ret (inr {| TapisUserPreferences.user := TapisUserPreferences.user p;
                TapisUserPreferences.auto_discover_on_login :=
                  TapisUserPreferences.auto_discover_on_login p;
                TapisUserPreferences.max_projects_per_discovery :=
                  TapisUserPreferences.max_projects_per_discovery p;
                TapisUserPreferences.discovery_cooldown_hours := cooldown_hours;
                TapisUserPreferences.notify_on_discovery_complete :=
                  TapisUserPreferences.notify_on_discovery_complete p;
                TapisUserPreferences.notify_on_discovery_errors :=
                  TapisUserPreferences.notify_on_discovery_errors p;
                TapisUserPreferences.preferred_systems :=
                  TapisUserPreferences.preferred_systems p;
                TapisUserPreferences.last_auto_discovery :=
                  TapisUserPreferences.last_auto_discovery p |}).

Definition set_notify_on_discovery_complete (value : pyval) : step := λ p,
  Ret (inr {| TapisUserPreferences.user := TapisUserPreferences.user p;
              TapisUserPreferences.auto_discover_on_login :=
                TapisUserPreferences.auto_discover_on_login p;
              TapisUserPreferences.max_projects_per_discovery :=
                TapisUserPreferences.max_projects_per_discovery p;
              TapisUserPreferences.discovery_cooldown_hours :=
                TapisUserPreferences.discovery_cooldown_hours p;
              TapisUserPreferences.notify_on_discovery_complete := truthy value;
              TapisUserPreferences.notify_on_discovery_errors :=
                TapisUserPreferences.notify_on_discovery_errors p;
              TapisUserPreferences.preferred_systems :=
                TapisUserPreferences.preferred_systems p;
              TapisUserPreferences.last_auto_discovery :=
                TapisUserPreferences.last_auto_discovery p |}).

Definition set_notify_on_discovery_errors (value : pyval) : step := λ p,
  Ret (inr {| TapisUserPreferences.user := TapisUserPreferences.user p;
              TapisUserPreferences.auto_discover_on_login :=
                TapisUserPreferences.auto_discover_on_login p;
              TapisUserPreferences.max_projects_per_discovery :=
                TapisUserPreferences.max_projects_per_discovery p;
              TapisUserPreferences.discovery_cooldown_hours :=
                TapisUserPreferences.discovery_cooldown_hours p;
              TapisUserPreferences.notify_on_discovery_complete :=
                TapisUserPreferences.notify_on_discovery_complete p;
              TapisUserPreferences.notify_on_discovery_errors := truthy value;
              TapisUserPreferences.preferred_systems :=
                TapisUserPreferences.preferred_systems p;
              TapisUserPreferences.last_auto_discovery :=
                TapisUserPreferences.last_auto_discovery p |}).

(** The test of line 101 on one element of the list. *)
Definition is_project_system (system_id : pyval) : bool :=
  match system_id with
  | VStr s => startswith s "ptdatax.project."
  | _ => false
  end.

Definition set_preferred_systems (systems : pyval) : step := λ p,
  match systems with
  | VList items =>
      if negb (forallb is_project_system items)
      then Ret (inl (bad_request
                       "All preferred systems must be ptdatax.project.* system IDs"))
      else
        joined ← join "," items;
        Ret (inr {| TapisUserPreferences.user := TapisUserPreferences.user p;
                    TapisUserPreferences.auto_discover_on_login :=
                      TapisUserPreferences.auto_discover_on_login p;
                    TapisUserPreferences.max_projects_per_discovery :=
                      TapisUserPreferences.max_projects_per_discovery p;
                    TapisUserPreferences.discovery_cooldown_hours :=
                      TapisUserPreferences.discovery_cooldown_hours p;
                    TapisUserPreferences.notify_on_discovery_complete :=
                      TapisUserPreferences.notify_on_discovery_complete p;
                    TapisUserPreferences.notify_on_discovery_errors :=
                      TapisUserPreferences.notify_on_discovery_errors p;
                    TapisUserPreferences.preferred_systems := joined;
                    TapisUserPreferences.last_auto_discovery :=
                      TapisUserPreferences.last_auto_discovery p |})
  | _ => Ret (inl (bad_request "preferred_systems must be an array of system IDs"))
  end.

(** One step after the other, until a step ends the request. *)
Definition and_then (first second : step) : step := λ p,
  first p ≫= λ r : response + TapisUserPreferences.t,
  match r with
  | inl answer => Ret (inl answer)
  | inr p' => second p'
  end.

(** Lines 69-112. *)
Definition updates (data : pyval) : step :=
  and_then (when_given data "auto_discover_on_login" set_auto_discover_on_login)
    (and_then (when_given data "max_projects_per_discovery" set_max_projects_per_discovery)
       (and_then (when_given data "discovery_cooldown_hours" set_discovery_cooldown_hours)
          (and_then
             (when_given data "notify_on_discovery_complete" set_notify_on_discovery_complete)
             (and_then
                (when_given data "notify_on_discovery_errors" set_notify_on_discovery_errors)
                (when_given data "preferred_systems" set_preferred_systems))))).

(** [preferences.save()]: the row of the user is written. *)
Definition save (user : User.t) (preferences : TapisUserPreferences.t) : eff unit :=
  if negb (in_integer_range (TapisUserPreferences.max_projects_per_discovery preferences)
           && in_integer_range (TapisUserPreferences.discovery_cooldown_hours preferences))
  then raise DataError
  else modify (set_preferences (insert (User.id user) preferences)).

(** [request.data] is the parsed body of the request. *)
Definition post (user : User.t) (data : pyval) : eff response :=
  try_eff
    (try_eff
       (get_or_create_for_user user ≫= λ preferences,
        lift (updates data preferences) ≫= λ r : response + TapisUserPreferences.t,
        match r with
        | inl answer => mret answer
        | inr preferences =>
            save user preferences ≫= λ _,
            mret (Response [("success", VBool true);
                            ("message", VStr (gettext "Preferences updated successfully"));
                            ("preferences", preferences_body preferences)] 200)
        end)
       (only ValueError)
       (λ e, mret (Response [("success", VBool false);
                             ("error", VStr (gettext "Invalid data type in request"));
                             ("detail", VStr (detail e))] 400)))
    Exception
    (λ e, mret (Response [("success", VBool false);
                          ("error", VStr (gettext "Failed to update preferences"));
                          ("detail", VStr (detail e))] 500)).
End View.
End TapisUserPreferencesView.

(** The bounds the preferences view checks before it stores a row. *)
Definition within_bounds (p : TapisUserPreferences.t) : Prop :=
  (1 ≤ TapisUserPreferences.max_projects_per_discovery p)%Z
  ∧ (0 ≤ TapisUserPreferences.discovery_cooldown_hours p)%Z.

(** What a step of the preferences view keeps: it ends the request with a
    400 answer, or gives an instance with the same owner and the same time
    of the last discovery, within the bounds if the instance was. *)
Definition step_keeps (gettext : string → string) (s : TapisUserPreferencesView.step)
    : Prop :=
  ∀ p r, s p = Ret r →
    match r with
    | inl answer => ∃ message, answer = TapisUserPreferencesView.bad_request gettext message
    | inr p' =>
        TapisUserPreferences.user p' = TapisUserPreferences.user p
        ∧ TapisUserPreferences.last_auto_discovery p'
          = TapisUserPreferences.last_auto_discovery p
        ∧ (within_bounds p → within_bounds p')
    end.

(** ** The results of a discovery, as a view answers them *)

(** The text of an entry of [results['errors']], lines 318, 345 and 350 of
    [app/services/tapis_storage.py], with [detail e] for [str(e)]. *)
Definition error_message `{PyLib} (detail : exn → string) (e : discovery_error)
    : string :=
  match e with
  | FailedToScanSystem system_id e =>
      "Failed to scan system " ++ py_str system_id ++ ": " ++ detail e
  | FailedToCreateProject flight_name e =>
      "Failed to create project for flight " ++ py_str flight_name ++ ": " ++ detail e
  | DiscoveryProcessFailed e => "Discovery process failed: " ++ detail e
  end.

(** The dict of lines 336-342 and the dict [results], as values. *)
Definition created_project_value (cp : created_project) : pyval :=
  VDict [("project_id", VInt (Z.of_nat (cp_project_id cp)));
         ("project_name", VStr (cp_project_name cp));
         ("flight_name", cp_flight_name cp);
         ("system_id", cp_system_id cp);
         ("image_count", VInt (Z.of_nat (cp_image_count cp)))].

Definition results_value `{PyLib} (detail : exn → string) (r : results) : pyval :=
  VDict [("systems_scanned", VInt (Z.of_nat (systems_scanned r)));
         ("flights_discovered", VInt (Z.of_nat (flights_discovered r)));
         ("projects_created", VInt (Z.of_nat (projects_created r)));
         ("errors", VList ((λ e, VStr (error_message detail e)) <$> errors r));
         ("created_projects", VList (created_project_value <$> created_projects r))].


(** ** [app/api/tapis_oauth2.py], [TapisOAuth2StatusView] *)

Module TapisOAuth2StatusView.
Section View.
Context `{PyLib}.
Variable (now : datetime).

(** The dict of lines 377-384 for the row [token], whose client is the
    row [client]. *)
Definition token_info (token : TapisOAuth2Token.t) (client : TapisOAuth2Client.t)
    : pyval :=
  VDict [("client_id", VStr (TapisOAuth2Client.client_id client));
         ("client_name", VStr (TapisOAuth2Client.name client));
         ("tenant_id", VStr (TapisOAuth2Client.tenant_id client));
         ("is_valid", TapisOAuth2Token.is_valid now token);
         ("expires_at",
          match TapisOAuth2Token.expires_at token with
          | Some t => VStr (isoformat t)
          | None => VNone
          end);
         ("scope", TapisOAuth2Token.scope token)].

(** The loop of lines 376-384 over the rows [rows]. *)
Fixpoint token_infos (cs : gmap string TapisOAuth2Client.t)
    (rows : list TapisOAuth2Token.t) : res (list pyval) :=
  match rows with
  | [] => Ret []
  | token :: rest =>
      match cs !! TapisOAuth2Token.client token with
      | None => Raise DoesNotExist
      | Some client =>
          token_infos cs rest ≫= λ infos : list pyval,
          Ret (token_info token client :: infos)
      end
  end.

(** [TapisOAuth2Token.objects.filter(user=request.user)]: the rows come in
    the order of the table, for which the order of the map stands. *)
Definition rows_of (user : User.t) (ts : gmap (nat * string) TapisOAuth2Token.t)
    : list TapisOAuth2Token.t :=
  filter (λ token, TapisOAuth2Token.user token = User.id user) (map_to_list ts).*2.

Definition get (user : User.t) : eff response :=
  try_eff
    (gets tokens ≫= λ ts : gmap (nat * string) TapisOAuth2Token.t,
     gets clients ≫= λ cs : gmap string TapisOAuth2Client.t,
     lift (token_infos cs (rows_of user ts)) ≫= λ token_info : list pyval,
     mret (Response [("user", VStr (User.username user));
                     ("tokens", VList token_info)] 200))
    Exception
    (λ _, mret (Response [("error", VStr "Failed to get OAuth2 status")] 500)).
End View.
End TapisOAuth2StatusView.

(** Two token rows that differ at most in their secrets: the refresh
    token, the token type, and the access token as long as it is not
    empty. *)
Definition same_but_secrets (t t' : TapisOAuth2Token.t) : Prop :=
  TapisOAuth2Token.user t' = TapisOAuth2Token.user t
  ∧ TapisOAuth2Token.client t' = TapisOAuth2Token.client t
  ∧ TapisOAuth2Token.scope t' = TapisOAuth2Token.scope t
  ∧ TapisOAuth2Token.expires_at t' = TapisOAuth2Token.expires_at t
  ∧ (TapisOAuth2Token.access_token t' = TapisOAuth2Token.access_token t
     ∨ (truthy (TapisOAuth2Token.access_token t) = true
        ∧ truthy (TapisOAuth2Token.access_token t') = true)).

(** No entry of [results] but the count of the systems. *)
Definition nothing_found (n : nat) : results :=
  {| systems_scanned := n; flights_discovered := 0; projects_created := 0;
     errors := []; created_projects := [] |}.

(** ** [app/api/tapis_storage.py] *)

(** The dict [results] of lines 162-168, whose entries are made of what the
    request carries. *)
Record given_results : Type := {
  given_flights : nat;
  given_created : nat;
  given_errors : list string;
  given_projects : list pyval;
}.

Definition given_value (r : given_results) : pyval :=
  VDict [("systems_scanned", VInt 0);
         ("flights_discovered", VInt (Z.of_nat (given_flights r)));
         ("projects_created", VInt (Z.of_nat (given_created r)));
         ("errors", VList (VStr <$> given_errors r));
         ("created_projects", VList (given_projects r))].

Module TapisStorageViewSet.
Section ViewSet.
Context `{PyLib}.
(** The translation [gettext] of the active language, and [str(e)] for an
    exception, whose message is not represented. *)
Variable (w : world) (gettext : string → string) (detail : exn → string).

(** [self._get_tapis_client()], called without a client id.
    [first_active] is the row that
    [TapisOAuth2Client.objects.filter(is_active=True).first()] gives, [None]
    when no client is active: the order of the rows of a table is not
    represented. *)
Definition _get_tapis_client (first_active : option TapisOAuth2Client.t)
    : eff TapisOAuth2Client.t :=
  match first_active with
  | Some client => mret client
  | None => raise Http404
  end.

(** [user] is [self.request.user]. *)
Definition _check_user_token (user : User.t) (client : TapisOAuth2Client.t)
    : eff TapisOAuth2Token.t :=
  try_eff
    (gets tokens ≫= λ ts : gmap (nat * string) TapisOAuth2Token.t,
     match ts !! (User.id user, TapisOAuth2Client.client_id client) with
     | None => raise DoesNotExist
     | Some token =>
         if negb (truthy (TapisOAuth2Token.is_valid (now w) token))
         then raise ValueError
         else mret token
     end)
    (only DoesNotExist) (λ _, raise ValueError).

(** [TapisStorageService._create_task_for_flight] of
    [app/services/tapis_storage.py], lines 191-213, for a dict
    [flight_info] of the request, whose members are any values. *)
Definition _create_task_for_flight (self : TapisStorageService.t) (project : Project.t)
    (flight_info : pyval) : eff (option Task.t) :=
  try_eff
    (lift (subscript flight_info "flight_name") ≫= λ flight_name : pyval,
     lift (subscript flight_info "system_id") ≫= λ system_id : pyval,
     lift (subscript flight_info "images_path") ≫= λ images_path : pyval,
     gets tasks ≫= λ ts : list Task.t,
     let task :=
       {| Task.id := next_task_id ts;
          Task.project := Project.id project;
          Task.name := "Flight " ++ py_str flight_name;
          Task.import_url :=
            "tapis://" ++ py_str system_id ++ "/" ++ py_str images_path |} in
     modify (set_tasks (λ ts, (ts ++ [task])%list)) ≫= λ _,
     lift (subscript flight_info "system_id") ≫= λ _ : pyval,
     lift (subscript flight_info "images_path") ≫= λ _ : pyval,
     mret (Some task))
    Exception (λ _, mret None).

(** [TapisStorageService.create_project_from_flight], lines 156-189 of the
    same file, for such a dict: the members are read in the order of the
    f-strings. *)
Definition create_project_from_flight (self : TapisStorageService.t)
    (flight_info : pyval) : eff (option Project.t) :=
  try_eff
    (lift (subscript flight_info "flight_name") ≫= λ name_flight : pyval,
     lift (subscript flight_info "system_id") ≫= λ name_system : pyval,
     let project_name := py_str name_flight ++ " (" ++ py_str name_system ++ ")" in
     lift (subscript flight_info "system_id") ≫= λ system_id : pyval,
     lift (subscript flight_info "flight_name") ≫= λ flight_name : pyval,
     lift (subscript flight_info "images_path") ≫= λ images_path : pyval,
     lift (subscript flight_info "image_count") ≫= λ image_count : pyval,
     lift (subscript flight_info "discovered_at") ≫= λ discovered_at : pyval,
     let nl := String (ascii_of_nat 10) EmptyString in
     let project_description :=
       "Auto-created from Tapis system " ++ py_str system_id ++ nl ++
       "Flight: " ++ py_str flight_name ++ nl ++
       "Images path: " ++ py_str images_path ++ nl ++
       "Image count: " ++ py_str image_count ++ nl ++
       "Discovered: " ++ py_str discovered_at in
     lift (subscript flight_info "system_id") ≫= λ tag_system : pyval,
     lift (subscript flight_info "flight_name") ≫= λ tag_flight : pyval,
     gets projects ≫= λ ps : list Project.t,
     let project :=
       {| Project.id := next_project_id ps;
          Project.owner := User.id (TapisStorageService.user self);
          Project.name := project_name;
          Project.description := project_description;
          Project.tags := "tapis,flight," ++ py_str tag_system ++ "," ++ py_str tag_flight |} in
     modify (set_projects (λ ps, (ps ++ [project])%list)) ≫= λ _,
     lift (subscript flight_info "flight_name") ≫= λ _ : pyval,
     _create_task_for_flight self project flight_info ≫= λ _,
     mret (Some project))
    Exception (λ _, mret None).

(** The body of the loop of lines 170-185 for one entry of 'flights'. *)
Definition create_given (svc : TapisStorageService.t) (flight_info : pyval)
    (rs : given_results) : eff given_results :=
  try_eff
    (create_project_from_flight svc flight_info ≫= λ project : option Project.t,
     match project with
     | Some p =>
         lift (subscript flight_info "flight_name") ≫= λ flight_name : pyval,
         lift (subscript flight_info "system_id") ≫= λ system_id : pyval,
         lift (get flight_info "image_count" (VInt 0)) ≫= λ image_count : pyval,
         mret {| given_flights := given_flights rs;
                 given_created := given_created rs + 1;
                 given_errors := given_errors rs;
                 given_projects :=
                   (given_projects rs ++
                    [VDict [("project_id", VInt (Z.of_nat (Project.id p)));
                            ("project_name", VStr (Project.name p));
                            ("flight_name", flight_name);
                            ("system_id", system_id);
                            ("image_count", image_count)]])%list |}
     | None => mret rs
     end)
    Exception
    (λ e,
       lift (get flight_info "flight_name" (VStr "unknown")) ≫= λ flight_name : pyval,
       let error_msg :=
         "Failed to create project for " ++ py_str flight_name ++ ": " ++ detail e in
       mret {| given_flights := given_flights rs;
               given_created := given_created rs;
               given_errors := (given_errors rs ++ [error_msg])%list;
               given_projects := given_projects rs |}).

Fixpoint create_given_all (svc : TapisStorageService.t) (flights : list pyval)
    (rs : given_results) : eff given_results :=
  match flights with
  | [] => mret rs
  | flight_info :: rest =>
      create_given svc flight_info rs ≫= λ rs' : given_results,
      create_given_all svc rest rs'
  end.

(** [user] is [request.user], [data] the parsed body of the request. *)
Definition create_projects (first_active : option TapisOAuth2Client.t)
    (user : User.t) (data : pyval) : eff response :=
  try_eff
    (try_eff
       (_get_tapis_client first_active ≫= λ client,
        _check_user_token user client ≫= λ _,
        lift (get data "auto_discover" VNone) ≫= λ auto_discover : pyval,
        if truthy auto_discover
        then
          TapisFlightDiscoveryService.discover_and_create_projects w user client ≫=
          λ results : results,
          mret (Response [("success", VBool true);
                          ("results", results_value detail results)] 200)
        else
          lift (get data "flights" (VList [])) ≫= λ flights : pyval,
          if negb (truthy flights)
          then mret (Response [("success", VBool false);
                               ("error", VStr (gettext "No flights provided"))] 400)
          else
            TapisStorageService.init w user client ≫= λ storage_service,
            lift (len flights) ≫= λ n : nat,
            lift (iter flights) ≫= λ items : list pyval,
            create_given_all storage_service items
              {| given_flights := n; given_created := 0;
                 given_errors := []; given_projects := [] |} ≫= λ results : given_results,
            mret (Response [("success", VBool true);
                            ("results", given_value results)] 200))
       (only ValueError)
       (λ e, mret (Response [("success", VBool false);
                             ("error", VStr (detail e));
                             ("detail", VStr (gettext "Please authenticate with Tapis first"))]
                     401)))
    Exception
    (λ e, mret (Response [("success", VBool false);
                          ("error", VStr (gettext "Failed to create projects"));
                          ("detail", VStr (detail e))] 500)).
End ViewSet.
End TapisStorageViewSet.

(** A dict with the five members [create_project_from_flight] reads. *)
Definition has_members (flight_info : pyval) : bool :=
  match flight_info with
  | VDict d =>
      dict_has d "flight_name" && dict_has d "system_id" && dict_has d "images_path"
      && dict_has d "image_count" && dict_has d "discovered_at"
  | _ => false
  end.

(** The project that stands for the entry [flight_info] of a request of
    [user]: its owner and its tags. *)
Definition project_of_given `{PyLib} (user : User.t) (flight_info : pyval)
    (p : Project.t) : Prop :=
  ∃ system_id flight_name,
    subscript flight_info "system_id" = Ret system_id
    ∧ subscript flight_info "flight_name" = Ret flight_name
    ∧ Project.owner p = User.id user
    ∧ Project.tags p = "tapis,flight," ++ py_str system_id ++ "," ++ py_str flight_name.

(** ** More of the scenario *)

Module Scene.
(** The first flight of the scenario, as a scan reports it, and a flight
    directory whose name is one of the two fixed tags. *)
Definition flight1 : flight_info := {|
  flight_name := VStr "Flight1";
  system_id := VStr Demo.system;
  images_path := "Flight1/code/images";
  image_count := 1;
  discovered_at := Demo.T0;
|}.

Definition reserved : flight_info := {|
  flight_name := VStr "flight";
  system_id := VStr Demo.system;
  images_path := "flight/code/images";
  image_count := 1;
  discovered_at := Demo.T0;
|}.

(** The first flight as a request carries it, and an entry that lacks
    four of the five members. *)
Definition flight1_given : pyval :=
  VDict [("flight_name", VStr "Flight1");
         ("system_id", VStr Demo.system);
         ("images_path", VStr "Flight1/code/images");
         ("image_count", VInt 1);
         ("discovered_at", VStr "2023-11-16T22:13:20")].

Definition flights_given : list pyval :=
  [flight1_given; VDict [("flight_name", VStr "Flight3")]; flight1_given].

(** A token row with its secrets replaced. *)
Definition redacted (t : TapisOAuth2Token.t) : TapisOAuth2Token.t := {|
  TapisOAuth2Token.user := TapisOAuth2Token.user t;
  TapisOAuth2Token.client := TapisOAuth2Token.client t;
  TapisOAuth2Token.access_token :=
    if truthy (TapisOAuth2Token.access_token t) then VStr "x"
    else TapisOAuth2Token.access_token t;
  TapisOAuth2Token.refresh_token := VStr "";
  TapisOAuth2Token.token_type := VStr "";
  TapisOAuth2Token.scope := TapisOAuth2Token.scope t;
  TapisOAuth2Token.expires_at := TapisOAuth2Token.expires_at t;
|}.

(** Two systems a user prefers. *)
Definition preferred : list string := ["ptdatax.project.a"; "ptdatax.project.b"].

(** The messages as they are, and no detail of an exception. *)
Definition gettext (message : string) : string := message.
Definition detail (e : exn) : string := "".
End Scene.

(** * Properties *)

(** ** Reasoning about computations *)

Section Frames.
Context (P : store → store → Prop) `{!Frame P}.

Lemma frames_ret {A} (a : A) : frames P (mret a).
Proof. intros s. apply frame_refl. Qed.

Lemma frames_raise {A} (e : exn) : frames P (@raise A e).
Proof. intros s. apply frame_refl. Qed.

Lemma frames_lift {A} (r : res A) : frames P (lift r).
Proof. intros s. apply frame_refl. Qed.

Lemma frames_gets {A} (f : store → A) : frames P (gets f).
Proof. intros s. apply frame_refl. Qed.

Lemma frames_modify (f : store → store) : (∀ s, P s (f s)) → frames P (modify f).
Proof. intros Hf s. apply Hf. Qed.

Lemma frames_bind {A B} (m : eff A) (f : A → eff B) :
  frames P m → (∀ a, frames P (f a)) → frames P (m ≫= f).
Proof.
  intros Hm Hf s. unfold mbind, eff_bind.
  specialize (Hm s). destruct (m s) as [[a|e] s1]; simpl in *.
  - eapply frame_trans; [exact Hm | apply Hf].
  - exact Hm.
Qed.

Lemma frames_try {A} (body : eff A) (classes : exn → bool) (handler : exn → eff A) :
  frames P body → (∀ e, frames P (handler e)) → frames P (try_eff body classes handler).
Proof.
  intros Hm Hh s. unfold try_eff.
  specialize (Hm s). destruct (body s) as [[a|e] s1]; simpl in *.
  - exact Hm.
  - destruct (classes e); simpl; [| exact Hm].
    eapply frame_trans; [exact Hm | apply Hh].
Qed.
End Frames.

(** One step of a frame proof: the rule for the head of the computation,
    or a case split on what it branches on. *)
Ltac frame_step :=
  lazymatch goal with
  | |- frames _ (mbind _ _) => apply frames_bind; [exact _ | | intros ?]
  | |- frames _ (try_eff _ _ _) => apply frames_try; [exact _ | | intros ?]
  | |- frames _ (mret _) => apply frames_ret; exact _
  | |- frames _ (raise _) => apply frames_raise; exact _
  | |- frames _ (lift _) => apply frames_lift; exact _
  | |- frames _ (gets _) => apply frames_gets; exact _
  | |- frames _ (emit _) => unfold emit
  | |- frames _ (modify _) => apply frames_modify; intros ?
  | |- frames _ (if ?b then _ else _) => destruct b
  | |- frames _ (match ?x with _ => _ end) => destruct x
  | |- frames _ (let _ := _ in _) => cbv zeta
  end.

Global Instance states_shrink_frame : Frame states_shrink.
Proof.
  split.
  - intros s k Hk. exact Hk.
  - intros a b c Hab Hbc k Hk. apply Hbc, Hab, Hk.
Qed.

Lemma states_shrink_delete k s : states_shrink s (set_states (delete k) s).
Proof.
  intros k' Hk'. simpl. destruct (decide (k = k')) as [->|Hne].
  - apply lookup_delete_eq.
  - rewrite lookup_delete_ne by exact Hne. exact Hk'.
Qed.

Global Instance same_frame {T} (proj : store → T) : Frame (same proj).
Proof. split; unfold same; congruence. Qed.

(** ** Inverting a run that returned *)

Lemma eff_bind_ret_inv {A B} (m : eff A) (f : A → eff B) s b s' :
  (m ≫= f) s = (Ret b, s') → ∃ a s1, m s = (Ret a, s1) ∧ f a s1 = (Ret b, s').
Proof.
  unfold mbind, eff_bind. destruct (m s) as [[a|e] s1]; intros Hrun.
  - eauto.
  - discriminate Hrun.
Qed.

Lemma eff_try_ret_inv {A} (body : eff A) classes handler s a s' :
  try_eff body classes handler s = (Ret a, s') →
  body s = (Ret a, s') ∨
  ∃ e s1, body s = (Raise e, s1) ∧ classes e = true ∧ handler e s1 = (Ret a, s').
Proof.
  unfold try_eff. destruct (body s) as [[a'|e] s1]; intros Hrun.
  - left. exact Hrun.
  - destruct (classes e) eqn:Hc; [| discriminate Hrun]. right. eauto.
Qed.

Lemma eff_ret_inv {A} (a b : A) s s' : @mret eff _ A a s = (Ret b, s') → a = b ∧ s' = s.
Proof. unfold mret, eff_ret. intros [= -> ->]. done. Qed.

Lemma eff_lift_inv {A} (r : res A) b s s' : lift r s = (Ret b, s') → r = Ret b ∧ s' = s.
Proof. unfold lift. intros [= -> ->]. done. Qed.

Lemma eff_gets_inv {A} (f : store → A) b s s' : gets f s = (Ret b, s') → b = f s ∧ s' = s.
Proof. unfold gets. intros [= <- ->]. done. Qed.

Lemma eff_modify_inv (f : store → store) b s s' : modify f s = (Ret b, s') → s' = f s.
Proof. unfold modify. intros [= _ <-]. done. Qed.

Ltac eff_inv :=
  repeat match goal with
  | H : @mbind eff _ _ _ _ _ _ = (Ret _, _) |- _ =>
      apply eff_bind_ret_inv in H; destruct H as (? & ? & ? & ?)
  | H : @mret eff _ _ _ _ = (Ret _, _) |- _ => apply eff_ret_inv in H; destruct H as [? ?]
  | H : lift _ _ = (Ret _, _) |- _ => apply eff_lift_inv in H; destruct H as [? ?]
  | H : gets _ _ = (Ret _, _) |- _ => apply eff_gets_inv in H; destruct H as [? ?]
  | H : modify _ _ = (Ret _, _) |- _ => apply eff_modify_inv in H
  | H : raise _ _ = (Ret _, _) |- _ => discriminate H
  | H : (if ?b then _ else _) _ = (Ret _, _) |- _ => destruct b eqn:?
  | H : (match ?x with _ => _ end) _ = (Ret _, _) |- _ => destruct x eqn:?
  | H : (let _ := _ in _) _ = (Ret _, _) |- _ => cbv zeta in H
  | H : JsonResponse _ _ = HttpResponseRedirect _ |- _ => discriminate H
  | H : Some _ = None |- _ => discriminate H
  | H : None = Some _ |- _ => discriminate H
  end.

(** ** Which tables a function writes *)

Section Writes.
Context `{PyLib}.
Variable (cfg : settings) (w : world).

Lemma authenticate_frames P `{!Frame P} now v :
  (∀ f s, P s (set_users f s)) →
  frames P (TapisOAuth2Backend.authenticate cfg now v).
Proof.
  intros Husers.
  unfold TapisOAuth2Backend.authenticate, TapisOAuth2Backend._get_or_create_user,
    TapisOAuth2Backend._update_user_info, TapisOAuth2Backend._create_user_from_tapis_info.
  repeat first [frame_step | apply Husers].
Qed.

Lemma store_user_tokens_frames P `{!Frame P} user client token_data :
  (∀ f s, P s (set_tokens f s)) →
  frames P (TapisOAuth2CallbackView._store_user_tokens w user client token_data).
Proof.
  intros Htokens. unfold TapisOAuth2CallbackView._store_user_tokens, save_token.
  repeat first [frame_step | apply Htokens].
Qed.

Lemma create_project_from_flight_frames P `{!Frame P} svc info :
  (∀ f s, P s (set_projects f s)) → (∀ f s, P s (set_tasks f s)) →
  frames P (TapisStorageService.create_project_from_flight svc info).
Proof.
  intros Hprojects Htasks.
  unfold TapisStorageService.create_project_from_flight,
    TapisStorageService._create_task_for_flight.
  repeat first [frame_step | apply Hprojects | apply Htasks].
Qed.

Lemma create_all_frames P `{!Frame P} svc user flights rs :
  (∀ f s, P s (set_projects f s)) → (∀ f s, P s (set_tasks f s)) →
  frames P (TapisFlightDiscoveryService.create_all svc user flights rs).
Proof.
  intros Hprojects Htasks. revert rs.
  induction flights as [|info rest IH]; intros rs; simpl.
  - frame_step.
  - frame_step; [| apply IH].
    unfold TapisFlightDiscoveryService.create_one,
      TapisFlightDiscoveryService._find_existing_project.
    repeat first [apply create_project_from_flight_frames | frame_step | assumption].
Qed.

Lemma discover_and_create_projects_frames P `{!Frame P} user client :
  (∀ f s, P s (set_projects f s)) → (∀ f s, P s (set_tasks f s)) →
  frames P (TapisFlightDiscoveryService.discover_and_create_projects w user client).
Proof.
  intros Hprojects Htasks.
  unfold TapisFlightDiscoveryService.discover_and_create_projects,
    TapisStorageService.init, TapisStorageService._get_valid_token.
  repeat first [apply create_all_frames | frame_step | assumption].
Qed.

Lemma trigger_flight_discovery_frames P `{!Frame P} user client :
  (∀ f s, P s (set_projects f s)) → (∀ f s, P s (set_tasks f s)) →
  (∀ f s, P s (set_preferences f s)) → (∀ e s, P s (add_event e s)) →
  frames P (TapisOAuth2CallbackView._trigger_flight_discovery w user client).
Proof.
  intros Hprojects Htasks Hprefs Hevents.
  unfold TapisOAuth2CallbackView._trigger_flight_discovery, get_or_create_for_user,
    update_last_discovery.
  repeat first [apply discover_and_create_projects_frames | frame_step
               | apply Hprefs | apply Hevents | assumption].
Qed.

(** A callback never adds a state row. *)
Lemma callback_states_shrink request :
  frames states_shrink (TapisOAuth2CallbackView.get cfg w request).
Proof.
  unfold TapisOAuth2CallbackView.get, TapisOAuth2CallbackView.guarded,
    TapisOAuth2CallbackView.complete, TapisOAuth2CallbackView.client_of.
  repeat first
    [ apply authenticate_frames | apply store_user_tokens_frames
    | apply trigger_flight_discovery_frames | frame_step
    | apply states_shrink_delete | exact _
    | (intros; intros ? ?; simpl; assumption) ].
Qed.
End Writes.

(** ** The callback *)

Section Callback.
Context `{PyLib}.
Variable (cfg : settings) (w : world).

(** The view catches every exception: it always answers. *)
Lemma callback_returns request db :
  ∃ r, (TapisOAuth2CallbackView.get cfg w request db).1 = Ret r.
Proof.
  unfold TapisOAuth2CallbackView.get, TapisOAuth2CallbackView.guarded, try_eff at 1.
  match goal with |- context [match ?x with _ => _ end] => destruct x as [[r|e] s1] end.
  - eauto.
  - simpl. eauto.
Qed.

Lemma given_Some v : given v = true → ∃ s, v = Some s ∧ s ≠ "" ∧ default "" v = s.
Proof.
  destruct v as [s|]; simpl; [| discriminate].
  intros Hs. exists s. repeat split. intros ->. discriminate Hs.
Qed.

Lemma given_nonempty s : s ≠ "" → given (Some s) = true.
Proof. intros Hs. simpl. destruct s; [congruence | reflexivity]. Qed.

(** What a run of [complete] that ends in the redirect went through. *)
Lemma complete_redirect_inv state state_obj client code db url db' :
  TapisOAuth2CallbackView.complete cfg w state state_obj client code db
    = (Ret (HttpResponseRedirect url), db') →
  ∃ token_data access_token_data jwt_token user s1 s2 s3,
    TapisOAuth2CallbackView._exchange_code_for_tokens w client code = Ret token_data
    ∧ subscript token_data "access_token" = Ret access_token_data
    ∧ TapisOAuth2CallbackView.jwt_of access_token_data = Some jwt_token
    ∧ TapisOAuth2Backend.authenticate cfg (now w) jwt_token db = (Ret (Some user), s1)
    ∧ TapisOAuth2CallbackView._store_user_tokens w user client token_data
        (set_session (Some (User.id user)) s1) = (Ret tt, s2)
    ∧ TapisOAuth2CallbackView._trigger_flight_discovery w user client s2 = (Ret tt, s3)
    ∧ db' = set_states (delete state) s3.
Proof.
  unfold TapisOAuth2CallbackView.complete. intros Hrun.
  eff_inv. subst.
  repeat match goal with u : unit |- _ => destruct u end.
  eexists _, _, _, _, _, _, _. repeat split; eauto.
Qed.

(** A callback that ends in the redirect found its state row, not
    expired, and ran [complete] on it. *)
Lemma callback_redirect_inv request db url db' :
  TapisOAuth2CallbackView.get cfg w request db = (Ret (HttpResponseRedirect url), db') →
  ∃ state code state_obj client,
    TapisOAuth2CallbackView.state request = Some state ∧ state ≠ ""
    ∧ TapisOAuth2CallbackView.code request = Some code
    ∧ states db !! state = Some state_obj
    ∧ TapisOAuth2State.is_expired (now w) state_obj = false
    ∧ clients db !! TapisOAuth2State.client state_obj = Some client
    ∧ TapisOAuth2CallbackView.complete cfg w state state_obj client code db
        = (Ret (HttpResponseRedirect url), db').
Proof.
  unfold TapisOAuth2CallbackView.get, TapisOAuth2CallbackView.guarded. intros Hrun.
  apply eff_try_ret_inv in Hrun as [Hrun | (e & s1 & _ & _ & Hrun)];
    [| eff_inv; discriminate].
  apply eff_try_ret_inv in Hrun as [Hrun | (e & s1 & _ & _ & Hrun)];
    [| eff_inv; discriminate].
  destruct (given (TapisOAuth2CallbackView.error request)); [eff_inv; discriminate |].
  destruct (given (TapisOAuth2CallbackView.code request)) eqn:Hcode;
    [| simpl in Hrun; eff_inv; discriminate].
  destruct (given (TapisOAuth2CallbackView.state request)) eqn:Hstate;
    [| simpl in Hrun; eff_inv; discriminate].
  apply given_Some in Hcode as (code & Hcode & _ & Hcode').
  apply given_Some in Hstate as (state & Hstate & Hne & Hstate').
  simpl in Hrun. rewrite Hcode', Hstate' in Hrun.
  unfold TapisOAuth2CallbackView.client_of in Hrun.
  eff_inv; subst; try discriminate.
  eexists _, _, _, _. repeat split; eauto.
Qed.
Lemma carries_state s request :
  carries s request = true ↔ TapisOAuth2CallbackView.state request = Some s.
Proof.
  unfold carries. destruct (TapisOAuth2CallbackView.state request) as [s'|].
  - rewrite String.eqb_eq. split; congruence.
  - split; discriminate.
Qed.

(** A callback whose state value has no row is refused with status 400 and
    changes nothing; past the two tests on the query parameters the refusal
    is the one of line 103. *)
Lemma callback_unknown_state request db s :
  TapisOAuth2CallbackView.state request = Some s → s ≠ "" →
  states db !! s = None →
  ∃ body,
    TapisOAuth2CallbackView.get cfg w request db = (Ret (JsonResponse body 400), db)
    ∧ (given (TapisOAuth2CallbackView.code request) = true →
       given (TapisOAuth2CallbackView.error request) = false →
       JsonResponse body 400 = invalid_state).
Proof.
  intros Hstate Hne Hrow.
  unfold TapisOAuth2CallbackView.get, TapisOAuth2CallbackView.guarded, try_eff.
  destruct (given (TapisOAuth2CallbackView.error request)) eqn:Herror.
  { eexists. split; [reflexivity | intros _ Hno; discriminate Hno]. }
  destruct (given (TapisOAuth2CallbackView.code request)) eqn:Hcode.
  2: { eexists. split; [reflexivity | intros Hyes; discriminate Hyes]. }
  rewrite Hstate, (given_nonempty s Hne). simpl.
  unfold mbind, eff_bind, gets. rewrite Hrow.
  eexists. split; reflexivity.
Qed.

(** A callback that succeeds leaves no row for its state value. *)
Lemma callback_redirect_deletes request db url db' s :
  TapisOAuth2CallbackView.get cfg w request db = (Ret (HttpResponseRedirect url), db') →
  TapisOAuth2CallbackView.state request = Some s →
  s ≠ "" ∧ states db' !! s = None.
Proof.
  intros Hrun Hstate.
  apply callback_redirect_inv in Hrun
    as (state & code & state_obj & client & Hstate' & Hne & _ & _ & _ & _ & Hrun).
  assert (state = s) as -> by congruence.
  apply complete_redirect_inv in Hrun as (? & ? & ? & ? & ? & ? & s3 & _ & _ & _ & _ & _ & _ & ->).
  split; [exact Hne |]. simpl. apply lookup_delete_eq.
Qed.
End Callback.

(** ** Callbacks in sequence *)

Section Replay.
Context `{PyLib}.
Variable (cfg : settings).

(** Once a state value has no row, every later callback that carries it is
    refused, whatever happens in between. *)
Lemma serve_refuses calls db s :
  s ≠ "" → states db !! s = None →
  Forall (λ c, carries s c.1 = true → refused c) (serve cfg calls db).
Proof.
  intros Hne. revert db.
  induction calls as [|[w request] rest IH]; intros db Hrow; simpl.
  - constructor.
  - constructor.
    + simpl. intros Hcarries. apply carries_state in Hcarries.
      destruct (callback_unknown_state cfg w request db s Hcarries Hne Hrow)
        as (body & Hrun & Hmsg).
      exists body. simpl. rewrite Hrun. split; [reflexivity | exact Hmsg].
    + apply IH. apply (callback_states_shrink cfg w request db), Hrow.
Qed.

Lemma serve_no_success calls db s :
  s ≠ "" → states db !! s = None → successes s (serve cfg calls db) = 0%nat.
Proof.
  intros Hne Hrow. unfold successes.
  pose proof (serve_refuses calls db s Hne Hrow) as Hall.
  induction Hall as [|c log Hc _ IH]; [reflexivity |].
  rewrite filter_cons. case_decide as Hsucc; [| exact IH].
  exfalso. apply andb_prop in Hsucc as [Hcarries Hsucc].
  destruct (Hc Hcarries) as (body & Hresp & _).
  rewrite Hresp in Hsucc. discriminate Hsucc.
Qed.

(** In any sequence of callbacks, from any database, at most one of those
    that carry a given state value succeeds. *)
Lemma successes_at_most_once calls db s : (successes s (serve cfg calls db) ≤ 1)%nat.
Proof.
  revert db. induction calls as [|[w request] rest IH]; intros db.
  - unfold successes. simpl. lia.
  - unfold successes. simpl. rewrite filter_cons. case_decide as Hsucc.
    + simpl in Hsucc. apply andb_prop in Hsucc as [Hcarries Hsucc].
      apply carries_state in Hcarries.
      destruct (TapisOAuth2CallbackView.get cfg w request db) as [r db'] eqn:Hrun.
      simpl in *. destruct r as [[| url |]|]; try discriminate Hsucc.
      destruct (callback_redirect_deletes cfg w request db url db' s Hrun Hcarries)
        as [Hne Hrow].
      pose proof (serve_no_success rest db' s Hne Hrow) as Hnone.
      unfold successes in Hnone. simpl. rewrite Hnone. lia.
    + apply IH.
Qed.

(** C1, amended.  When a callback that carries the state value [s]
    succeeds, (a) the row of [s] is gone from the database it leaves;
    (b) every later callback that carries [s] is answered with status 400,
    and with the error 'Invalid OAuth2 state' whenever it has a code and no
    error parameter; (c) in any sequence of callbacks at most one of those
    that carry [s] succeeds. *)
Theorem callback_consumes_state w request db url db' s :
  TapisOAuth2CallbackView.get cfg w request db = (Ret (HttpResponseRedirect url), db') →
  TapisOAuth2CallbackView.state request = Some s →
  states db' !! s = None
  ∧ (∀ later, Forall (λ c, carries s c.1 = true → refused c) (serve cfg later db'))
  ∧ (∀ calls db0, (successes s (serve cfg calls db0) ≤ 1)%nat).
Proof.
  intros Hrun Hstate.
  destruct (callback_redirect_deletes cfg w request db url db' s Hrun Hstate) as [Hne Hrow].
  split; [exact Hrow |]. split.
  - intros later. apply serve_refuses; assumption.
  - intros calls db0. apply successes_at_most_once.
Qed.
End Replay.

(** ** Expiry of a state *)

Section Expiry.
Context `{PyLib}.

Lemma state_is_expired now row :
  TapisOAuth2State.is_expired now row = true ↔ (now > TapisOAuth2State.expires_at row)%Z.
Proof. unfold TapisOAuth2State.is_expired. apply bool_decide_eq_true. Qed.

Lemma state_not_expired now row :
  TapisOAuth2State.is_expired now row = false ↔ (now ≤ TapisOAuth2State.expires_at row)%Z.
Proof.
  unfold TapisOAuth2State.is_expired. rewrite bool_decide_eq_false. lia.
Qed.

(** The row an authorization that redirects has created. *)
Lemma authorize_creates w request client_id db url db' :
  TapisOAuth2AuthorizeView.get w request client_id db = (Ret (HttpResponseRedirect url), db') →
  ∃ row,
    states db' !! token_urlsafe w = Some row
    ∧ TapisOAuth2State.expires_at row = (now w + timedelta_minutes 10)%Z.
Proof.
  unfold TapisOAuth2AuthorizeView.get. intros Hrun.
  apply eff_try_ret_inv in Hrun as [Hrun | (e & s1 & _ & _ & Hrun)];
    [| eff_inv; discriminate].
  eff_inv. subst.
  match goal with Hadd : datetime_add _ _ = Ret ?t |- _ =>
    unfold datetime_add in Hadd;
    destruct (_ && _) in Hadd; [| discriminate Hadd];
    injection Hadd as <-
  end.
  eexists. split; [apply lookup_insert_eq | reflexivity].
Qed.

(** Past its expiry a state is refused, and its row deleted. *)
Lemma callback_expired cfg w request db s row :
  TapisOAuth2CallbackView.state request = Some s → s ≠ "" →
  given (TapisOAuth2CallbackView.code request) = true →
  given (TapisOAuth2CallbackView.error request) = false →
  states db !! s = Some row →
  (now w > TapisOAuth2State.expires_at row)%Z →
  TapisOAuth2CallbackView.get cfg w request db
    = (Ret state_expired, set_states (delete s) db).
Proof.
  intros Hstate Hne Hcode Herror Hrow Hlate.
  apply state_is_expired in Hlate.
  unfold TapisOAuth2CallbackView.get, TapisOAuth2CallbackView.guarded, try_eff.
  rewrite Herror, Hcode, Hstate, (given_nonempty s Hne). simpl.
  unfold mbind, eff_bind, gets. rewrite Hrow, Hlate. reflexivity.
Qed.

(** Up to and including its expiry a state is accepted: the callback goes
    on to exchange the code. *)
Lemma callback_accepted cfg w request db s code row client :
  TapisOAuth2CallbackView.state request = Some s → s ≠ "" →
  TapisOAuth2CallbackView.code request = Some code → code ≠ "" →
  given (TapisOAuth2CallbackView.error request) = false →
  states db !! s = Some row →
  clients db !! TapisOAuth2State.client row = Some client →
  (now w ≤ TapisOAuth2State.expires_at row)%Z →
  TapisOAuth2CallbackView.get cfg w request db
    = TapisOAuth2CallbackView.guarded
        (TapisOAuth2CallbackView.complete cfg w s row client code) db.
Proof.
  intros Hstate Hne Hcode Hcne Herror Hrow Hclient Hearly.
  apply state_not_expired in Hearly.
  unfold TapisOAuth2CallbackView.get, TapisOAuth2CallbackView.guarded, try_eff.
  rewrite Herror, Hcode, Hstate, (given_nonempty s Hne), (given_nonempty code Hcne). simpl.
  unfold mbind at 1, eff_bind at 1, gets. rewrite Hrow, Hearly.
  unfold mbind at 1, eff_bind at 1, TapisOAuth2CallbackView.client_of.
  unfold mbind at 1, eff_bind at 1, gets. rewrite Hclient. reflexivity.
Qed.

(** C5, amended.  A state created by the authorize endpoint at time [T]
    has [expires_at = T + 10 minutes]; a callback presenting it is accepted
    at any time up to and including [T + 10 minutes], where it goes on to
    exchange the code, and is rejected with HTTP 400 ('OAuth2 state
    expired') at any time strictly after [T + 10 minutes]. *)
Theorem state_expires_after_ten_minutes w request client_id db url db' :
  TapisOAuth2AuthorizeView.get w request client_id db
    = (Ret (HttpResponseRedirect url), db') →
  ∃ row,
    states db' !! token_urlsafe w = Some row
    ∧ TapisOAuth2State.expires_at row = (now w + timedelta_minutes 10)%Z
    ∧ (∀ t, TapisOAuth2State.is_expired t row = false ↔ (t ≤ now w + timedelta_minutes 10)%Z)
    ∧ ∀ cfg w' callback d code,
        TapisOAuth2CallbackView.state callback = Some (token_urlsafe w) →
        token_urlsafe w ≠ "" →
        TapisOAuth2CallbackView.code callback = Some code → code ≠ "" →
        given (TapisOAuth2CallbackView.error callback) = false →
        states d !! token_urlsafe w = Some row →
        ((now w' ≤ now w + timedelta_minutes 10)%Z →
         ∀ client, clients d !! TapisOAuth2State.client row = Some client →
           TapisOAuth2CallbackView.get cfg w' callback d
             = TapisOAuth2CallbackView.guarded
                 (TapisOAuth2CallbackView.complete cfg w' (token_urlsafe w) row client code) d)
        ∧ ((now w' > now w + timedelta_minutes 10)%Z →
           TapisOAuth2CallbackView.get cfg w' callback d
             = (Ret state_expired, set_states (delete (token_urlsafe w)) d)).
Proof.
  intros Hrun.
  destruct (authorize_creates w request client_id db url db' Hrun) as (row & Hrow & Hexp).
  exists row. split; [exact Hrow |]. split; [exact Hexp |]. split.
  - intros t. rewrite state_not_expired, Hexp. reflexivity.
  - intros cfg w' callback d code Hstate Hne Hcode Hcne Herror Hd. split.
    + intros Hearly client Hclient.
      apply callback_accepted; try assumption. rewrite Hexp. exact Hearly.
    + intros Hlate.
      apply callback_expired with (row := row); try assumption.
      * rewrite Hcode. apply given_nonempty, Hcne.
      * rewrite Hexp. exact Hlate.
Qed.
End Expiry.

(** ** Validity of a stored token *)

Lemma truthy_py_and a b : truthy (py_and a b) = truthy a && truthy b.
Proof.
  unfold py_and. destruct (truthy a) eqn:Ha; simpl; [reflexivity | exact Ha].
Qed.

Lemma token_is_expired now token :
  TapisOAuth2Token.is_expired now token = true
  ↔ ∃ e, TapisOAuth2Token.expires_at token = Some e ∧ (e < now)%Z.
Proof.
  unfold TapisOAuth2Token.is_expired.
  destruct (TapisOAuth2Token.expires_at token) as [e|].
  - rewrite bool_decide_eq_true. split.
    + intros Hlt. exists e. split; [reflexivity | lia].
    + intros (e' & [= <-] & Hlt). lia.
  - split; [discriminate | intros (e & Hnone & _); discriminate Hnone].
Qed.

Lemma token_truthy_is_valid now token :
  truthy (TapisOAuth2Token.is_valid now token)
  = truthy (TapisOAuth2Token.access_token token)
    && negb (TapisOAuth2Token.is_expired now token).
Proof. unfold TapisOAuth2Token.is_valid. apply truthy_py_and. Qed.

(** C8.  For every stored token: when [expires_at] is set and in the past,
    [is_valid] is false (and it is the value [False] whenever there is an
    access token); when [expires_at] is null, [is_valid] is true exactly
    when the access token is non-empty. *)
Theorem token_validity now token :
  (∀ e, TapisOAuth2Token.expires_at token = Some e → (e < now)%Z →
        truthy (TapisOAuth2Token.is_valid now token) = false
        ∧ (truthy (TapisOAuth2Token.access_token token) = true →
           TapisOAuth2Token.is_valid now token = VBool false))
  ∧ (TapisOAuth2Token.expires_at token = None →
       truthy (TapisOAuth2Token.is_valid now token)
       = truthy (TapisOAuth2Token.access_token token)
       ∧ ∀ s, TapisOAuth2Token.access_token token = VStr s →
              (truthy (TapisOAuth2Token.is_valid now token) = true ↔ s ≠ "")).
Proof.
  split.
  - intros e Hset Hpast.
    assert (TapisOAuth2Token.is_expired now token = true) as Hexpired
      by (apply token_is_expired; eauto).
    split.
    + rewrite token_truthy_is_valid, Hexpired. apply andb_false_r.
    + intros Haccess. unfold TapisOAuth2Token.is_valid, py_and.
      rewrite Haccess, Hexpired. reflexivity.
  - intros Hnull.
    assert (TapisOAuth2Token.is_expired now token = false) as Hfresh
      by (unfold TapisOAuth2Token.is_expired; rewrite Hnull; reflexivity).
    split.
    + rewrite token_truthy_is_valid, Hfresh. apply andb_true_r.
    + intros s Hs. rewrite token_truthy_is_valid, Hfresh, Hs. simpl.
      rewrite andb_true_r, negb_true_iff, String.eqb_neq. reflexivity.
Qed.

(** ** Decoding a token *)

Lemma res_bind_ret_inv {A B} (m : res A) (f : A → res B) b :
  m ≫= f = Ret b → ∃ a, m = Ret a ∧ f a = Ret b.
Proof. destruct m as [a|e]; simpl; [eauto | discriminate]. Qed.

Lemma try_except_ret_inv {A} (body : res A) classes handler a :
  try_except body classes handler = Ret a →
  body = Ret a ∨ ∃ e, body = Raise e ∧ classes e = true ∧ handler e = Ret a.
Proof.
  unfold try_except. destruct body as [a'|e]; intros Hrun; [left; exact Hrun |].
  destruct (classes e) eqn:Hc; [right; eauto | discriminate Hrun].
Qed.

(** Whatever its body does, a [try] whose handler for [Exception] returns
    [v] returns. *)
Lemma try_except_all {A} (body : res A) (v : A) :
  ∃ r, try_except body Exception (λ _, Ret v) = Ret r.
Proof. destruct body; simpl; eauto. Qed.

Lemma try_except_raise {A} (e : exn) (v : A) :
  try_except (Raise e) Exception (λ _, Ret v) = Ret v.
Proof. reflexivity. Qed.

Ltac res_inv :=
  repeat match goal with
  | H : @mbind res _ _ _ _ _ = Ret _ |- _ =>
      apply res_bind_ret_inv in H; destruct H as (? & ? & ?)
  | H : (if ?b then _ else _) = Ret _ |- _ => destruct b eqn:?
  | H : Ret _ = Ret _ |- _ => injection H as H
  | H : Raise _ = Ret _ |- _ => discriminate H
  | H : Some _ = None |- _ => discriminate H
  | H : None = Some _ |- _ => discriminate H
  end.

Section Decoding.
Context `{PyLib}.
Variable (cfg : settings).

(** The validation catches every exception. *)
Lemma validate_returns now access_token :
  ∃ r, TapisOAuth2Backend._validate_token_with_tapis cfg now access_token = Ret r.
Proof. unfold TapisOAuth2Backend._validate_token_with_tapis. apply try_except_all. Qed.

(** Whatever the inner [try] does, the validation returns what it returns,
    or [None]. *)
Lemma inner_try_none (body : res (option TapisOAuth2Backend.user_info)) :
  (∀ r, body = Ret r → r = None) →
  try_except (try_except body TapisOAuth2Backend.decode_errors (λ _, Ret None))
    Exception (λ _, Ret None) = Ret None.
Proof.
  intros Hnone. destruct body as [r|e]; simpl.
  - rewrite (Hnone r eq_refl). reflexivity.
  - destruct (TapisOAuth2Backend.decode_errors e); reflexivity.
Qed.

Lemma validate_three_segments now token header segment signature :
  split "."%char token = [header; segment; signature] →
  TapisOAuth2Backend._validate_token_with_tapis cfg now (VStr token)
  = try_except
      (try_except
         (payload_bytes ← urlsafe_b64decode (TapisOAuth2Backend.pad segment);
          text ← decode_utf8 payload_bytes;
          payload ← json_loads text;
          _ ← keys payload;
          info ← TapisOAuth2Backend.claims cfg payload;
          exp ← get payload "exp" VNone;
          (if truthy exp then int_gt (unix_seconds now) exp else Ret false) ≫=
          λ expired : bool,
            if expired then Ret None
            else if negb (truthy (TapisOAuth2Backend.username info)) then Ret None
            else Ret (Some info))
         TapisOAuth2Backend.decode_errors (λ _, Ret None))
      Exception (λ _, Ret None).
Proof.
  intros Hsplit. unfold TapisOAuth2Backend._validate_token_with_tapis.
  simpl. rewrite Hsplit. simpl. reflexivity.
Qed.

(** C6, amended.  A string whose split on ['.'] does not give exactly
    three segments is rejected: the validation returns [None], and so
    raises nothing.  The same holds when the decoding of the second segment
    raises: when [urlsafe_b64decode] raises on the padded segment, or the
    bytes it gives are not UTF-8, or [json.loads] raises on the text.  (A
    segment that is not base64url text need not make the decoder raise: it
    discards the characters outside the alphabet.) *)
Theorem malformed_token_rejected now token :
  length (split "."%char token) ≠ 3%nat
  ∨ undecodable (nth 1 (split "."%char token) "") →
  TapisOAuth2Backend._validate_token_with_tapis cfg now (VStr token) = Ret None.
Proof.
  intros Hbad.
  destruct (decide (length (split "."%char token) = 3%nat)) as [Hthree | Hnot].
  - destruct Hbad as [Hlen | Hbad]; [contradiction |].
    destruct (split "."%char token) as [|header [|segment [|signature [|]]]] eqn:Hsplit;
      try discriminate Hthree.
    rewrite (validate_three_segments now token header segment signature Hsplit).
    simpl in Hbad. apply inner_try_none. intros r Hr.
    destruct Hbad as [e Hb64 | bytes e Hb64 Hutf8 | bytes text e Hb64 Hutf8 Hjson].
    + rewrite Hb64 in Hr. discriminate Hr.
    + rewrite Hb64 in Hr. simpl in Hr. rewrite Hutf8 in Hr. discriminate Hr.
    + rewrite Hb64 in Hr. simpl in Hr. rewrite Hutf8 in Hr. simpl in Hr.
      rewrite Hjson in Hr. discriminate Hr.
  - unfold TapisOAuth2Backend._validate_token_with_tapis. simpl.
    apply Nat.eqb_neq in Hnot. rewrite Hnot. reflexivity.
Qed.
Lemma get_dict d k default : get (VDict d) k default = Ret (match dict_get d k with Some x => x | None => default end).
Proof. reflexivity. Qed.

(** The validation of a token whose payload is the JSON object [d]. *)
Lemma validate_object now token d :
  decodes_to token (VDict d) →
  TapisOAuth2Backend._validate_token_with_tapis cfg now (VStr token)
  = try_except
      (try_except
         (info ← TapisOAuth2Backend.claims cfg (VDict d);
          (if truthy (claim d "exp") then int_gt (unix_seconds now) (claim d "exp")
           else Ret false) ≫=
          λ expired : bool,
            if expired then Ret None
            else if negb (truthy (TapisOAuth2Backend.username info)) then Ret None
            else Ret (Some info))
         TapisOAuth2Backend.decode_errors (λ _, Ret None))
      Exception (λ _, Ret None).
Proof.
  intros (header & segment & signature & Hsplit & Hdecode).
  apply res_bind_ret_inv in Hdecode as (bytes & Hb64 & Hdecode).
  apply res_bind_ret_inv in Hdecode as (text & Hutf8 & Hjson).
  rewrite (validate_three_segments now token header segment signature Hsplit).
  rewrite Hb64. simpl. rewrite Hutf8. simpl. rewrite Hjson. simpl.
  destruct (TapisOAuth2Backend.claims cfg (VDict d)); reflexivity.
Qed.

Lemma claims_username d info :
  TapisOAuth2Backend.claims cfg (VDict d) = Ret info →
  TapisOAuth2Backend.username info = first_truthy (claim d <$> username_claims).
Proof.
  unfold TapisOAuth2Backend.claims. rewrite !get_dict. simpl. intros Hinfo.
  res_inv; subst; reflexivity.
Qed.

(** A payload that is not an object is rejected. *)
Lemma validate_not_object now token payload :
  decodes_to token payload → (∀ d, payload ≠ VDict d) →
  TapisOAuth2Backend._validate_token_with_tapis cfg now (VStr token) = Ret None.
Proof.
  intros (header & segment & signature & Hsplit & Hdecode) Hnot.
  apply res_bind_ret_inv in Hdecode as (bytes & Hb64 & Hdecode).
  apply res_bind_ret_inv in Hdecode as (text & Hutf8 & Hjson).
  rewrite (validate_three_segments now token header segment signature Hsplit).
  rewrite Hb64. simpl. rewrite Hutf8. simpl. rewrite Hjson. simpl.
  destruct payload; try reflexivity. exfalso. eapply Hnot. reflexivity.
Qed.

(** The comparison of line 94 agrees with the exact value of a float. *)
Lemma int_gt_float_below n f q :
  float_value f = Some q →
  QArith_base.Qlt q (QArith_base.inject_Z n) →
  int_gt_float n f = true.
Proof.
  destruct f as [s|s| |s m e]; simpl; intros [= <-] Hlt.
  - apply bool_decide_eq_true_2. rewrite <- QArith_base.Zlt_Qlt in Hlt. lia.
  - set (M := if s then Z.neg m else Z.pos m) in *.
    destruct (0 <=? e)%Z eqn:He.
    + apply Z.leb_le in He. apply bool_decide_eq_true_2.
      rewrite <- (Qpower.Zpower_Qpower 2 e He), <- QArith_base.inject_Z_mult,
        <- QArith_base.Zlt_Qlt in Hlt.
      lia.
    + apply Z.leb_gt in He. apply bool_decide_eq_true_2.
      destruct e as [|p|p]; try lia.
      change (QArith_base.Qpower (QArith_base.inject_Z 2) (Z.neg p))
        with (QArith_base.Qinv (QArith_base.Qpower (QArith_base.inject_Z 2) (Z.pos p)))
        in Hlt.
      assert (0 <= Z.pos p)%Z as Hp by lia.
      rewrite <- (Qpower.Zpower_Qpower 2 (Z.pos p) Hp) in Hlt.
      assert (0 < 2 ^ Z.pos p)%Z as Hpos by (apply Z.pow_pos_nonneg; lia).
      assert (QArith_base.Qlt (QArith_base.inject_Z 0)
                (QArith_base.inject_Z (2 ^ Z.pos p))) as HposQ
        by (rewrite <- QArith_base.Zlt_Qlt; exact Hpos).
      apply (QArith_base.Qmult_lt_r _ _ _ HposQ) in Hlt.
      rewrite <- QArith_base.Qmult_assoc,
        (QArith_base.Qmult_comm (QArith_base.Qinv _)),
        QArith_base.Qmult_inv_r, QArith_base.Qmult_1_r in Hlt.
      * rewrite <- QArith_base.inject_Z_mult, <- QArith_base.Zlt_Qlt in Hlt.
        change (- Z.neg p)%Z with (Z.pos p). lia.
      * intros Hz. rewrite Hz in HposQ. apply (QArith_base.Qlt_irrefl _ HposQ).
Qed.

(** A number other than zero that is below [t] passes both tests of
    line 94, [if exp and current_time > exp]. *)
Lemma nonzero_below_expired t v :
  nonzero_below t v → truthy v = true ∧ int_gt t v = Ret true.
Proof.
  destruct v as [|b|n|s|l|d|f]; simpl; try contradiction.
  - intros [-> Hlt]. split; [reflexivity |]. rewrite bool_decide_eq_true_2 by lia.
    reflexivity.
  - intros [Hnz Hlt]. apply Z.eqb_neq in Hnz. rewrite Hnz.
    split; [reflexivity |]. rewrite bool_decide_eq_true_2 by lia. reflexivity.
  - destruct f as [s|s| |s m e].
    + intros (q & [= <-] & Hnz & _). exfalso. apply Hnz. reflexivity.
    + intros ->. split; reflexivity.
    + intros (q & Hnone & _). discriminate Hnone.
    + intros (q & Hq & _ & Hlt). split; [reflexivity |].
      rewrite (int_gt_float_below t _ q Hq Hlt). reflexivity.
Qed.

(** C4, amended.  For a three-segment token whose second segment decodes
    to a JSON object: (a) the user name extracted is the first of the
    claims 'tapis/username', 'username', 'sub' whose value counts as true
    (a claim that is present but empty, zero or null is skipped), and an
    identity is returned only with such a name; (b) no identity is returned
    when the 'exp' claim is a number other than zero, whole or fractional,
    that is below the current time truncated to whole seconds, nor when it
    is a string, list or object that counts as true; (c) no identity is
    returned when none of the three claims has a value that counts as
    true.  A payload that is not an object gives no identity either. *)
Theorem username_and_expiry now token payload :
  decodes_to token payload →
  (∀ d, payload = VDict d →
     let name := first_truthy (claim d <$> username_claims) in
     (∀ info,
        TapisOAuth2Backend._validate_token_with_tapis cfg now (VStr token) = Ret (Some info) →
        TapisOAuth2Backend.username info = name ∧ truthy name = true)
     ∧ (nonzero_below (unix_seconds now) (claim d "exp")
        ∨ (truthy (claim d "exp") = true ∧ is_number (claim d "exp") = false) →
          TapisOAuth2Backend._validate_token_with_tapis cfg now (VStr token) = Ret None)
     ∧ (truthy name = false →
          TapisOAuth2Backend._validate_token_with_tapis cfg now (VStr token) = Ret None))
  ∧ ((∀ d, payload ≠ VDict d) →
       TapisOAuth2Backend._validate_token_with_tapis cfg now (VStr token) = Ret None).
Proof.
  intros Hdec. split; [| apply validate_not_object; exact Hdec].
  intros d -> name. rewrite (validate_object now token d Hdec).
  split; [| split].
  - intros info Hrun.
    apply try_except_ret_inv in Hrun as [Hrun | (e & _ & _ & Hrun)]; [| discriminate Hrun].
    apply try_except_ret_inv in Hrun as [Hrun | (e & _ & _ & Hrun)]; [| discriminate Hrun].
    apply res_bind_ret_inv in Hrun as (info' & Hclaims & Hrun).
    apply res_bind_ret_inv in Hrun as (expired & _ & Hrun).
    destruct expired; [discriminate Hrun |].
    destruct (truthy (TapisOAuth2Backend.username info')) eqn:Hname; [| discriminate Hrun].
    injection Hrun as <-.
    rewrite (claims_username d info' Hclaims) in Hname.
    split; [apply claims_username; exact Hclaims | exact Hname].
  - intros [Hpast | [Htrue Hother]]; apply inner_try_none; intros r Hr;
      apply res_bind_ret_inv in Hr as (info & _ & Hr).
    + apply nonzero_below_expired in Hpast as [Htrue Hgt].
      rewrite Htrue, Hgt in Hr. simpl in Hr. congruence.
    + rewrite Htrue in Hr.
      destruct (claim d "exp"); try discriminate Hother; discriminate Hr.
  - intros Hnone. apply inner_try_none. intros r Hr.
    apply res_bind_ret_inv in Hr as (info & Hclaims & Hr).
    apply res_bind_ret_inv in Hr as (expired & _ & Hr).
    destruct expired; [congruence |].
    rewrite (claims_username d info Hclaims) in Hr.
    fold name in Hr. rewrite Hnone in Hr. simpl in Hr. congruence.
Qed.
End Decoding.

(** ** Writing a token row *)

Lemma append_nil s : "" ++ s = s.
Proof. reflexivity. Qed.

Lemma append_cons c s1 s2 : String c s1 ++ s2 = String c (s1 ++ s2).
Proof. reflexivity. Qed.

Lemma length_append a b :
  String.length (a ++ b) = (String.length a + String.length b)%nat.
Proof.
  induction a as [|c a IH]; [reflexivity |].
  rewrite append_cons. simpl. rewrite IH. reflexivity.
Qed.

Lemma ref_repr_dict_cons k x d :
  (String.length (Ref.py_repr x) < String.length (Ref.py_repr (VDict ((k, x) :: d)))
   ∧ String.length (Ref.py_repr (VDict d))
     ≤ String.length (Ref.py_repr (VDict ((k, x) :: d))))%nat.
Proof.
  cbn [Ref.py_repr]. rewrite !append_cons, !append_nil. cbn [String.length].
  rewrite !length_append. cbn [String.length].
  destruct d as [|[k2 x2] d2].
  - rewrite !length_append. cbn [String.length]. lia.
  - rewrite !append_cons, !append_nil, !length_append. cbn [String.length].
    rewrite !length_append. cbn [String.length]. rewrite !length_append.
    cbn [String.length]. lia.
Qed.

Lemma not_null_true token :
  TapisOAuth2Token.access_token token ≠ VNone
  ∧ TapisOAuth2Token.refresh_token token ≠ VNone
  ∧ TapisOAuth2Token.token_type token ≠ VNone
  ∧ TapisOAuth2Token.scope token ≠ VNone
  → TapisOAuth2Token.not_null token = true.
Proof.
  unfold TapisOAuth2Token.not_null. intros (Ha & Hr & Hty & Hsc).
  destruct (TapisOAuth2Token.access_token token); try congruence;
    destruct (TapisOAuth2Token.refresh_token token); try congruence;
    destruct (TapisOAuth2Token.token_type token); try congruence;
    destruct (TapisOAuth2Token.scope token); congruence.
Qed.

Lemma save_token_writes `{PyLib} key token db :
  TapisOAuth2Token.not_null token = true → TapisOAuth2Token.fits token = true →
  save_token key token db
  = (Ret tt, set_tokens (insert key (TapisOAuth2Token.prepared token)) db).
Proof. unfold save_token. intros -> ->. reflexivity. Qed.

Lemma save_token_ret_inv `{PyLib} key token db u db' :
  save_token key token db = (Ret u, db') →
  db' = set_tokens (insert key (TapisOAuth2Token.prepared token)) db
  ∧ TapisOAuth2Token.not_null token = true ∧ TapisOAuth2Token.fits token = true.
Proof.
  unfold save_token.
  destruct (TapisOAuth2Token.not_null token); [| discriminate].
  destruct (TapisOAuth2Token.fits token); [| discriminate].
  simpl. unfold modify. intros [= _ <-]. repeat split.
Qed.

(** [str] of a dictionary, as the reference library computes it. *)
Lemma ref_str_of_dict_longer : str_of_dict_longer (H := ref_lib).
Proof.
  intros d k s. change (py_str (VDict d)) with (Ref.py_repr (VDict d)).
  induction d as [|[k' x] d IH]; [discriminate |].
  destruct (ref_repr_dict_cons k' x d) as [Hhead Htail].
  cbn [dict_get]. destruct (k' =? k)%string.
  - intros [= ->]. etransitivity; [| exact Hhead].
    cbn [Ref.py_repr]. rewrite append_cons, append_nil. cbn [String.length].
    rewrite length_append. cbn [String.length]. lia.
  - intros Hget. specialize (IH Hget). lia.
Qed.

(** ** Token refresh *)

Section Refresh.
Context `{PyLib}.
Variable (w : world).

(** What the assignments of lines 305-316 leave in [token_obj]. *)
Lemma refreshed_fields token_obj new_token_data token_obj' :
  TapisOAuth2TokenRefreshView.refreshed w token_obj new_token_data = Ret token_obj' →
  ∃ d,
    new_token_data = VDict d
    ∧ TapisOAuth2Token.access_token token_obj' = claim d "access_token"
    ∧ TapisOAuth2Token.token_type token_obj' = default (VStr "Bearer") (dict_get d "token_type")
    ∧ (if truthy (claim d "expires_in")
       then ∃ n, py_int (claim d "expires_in") = Ret n
                 ∧ TapisOAuth2Token.expires_at token_obj'
                   = Some (now w + timedelta_seconds n)%Z
       else TapisOAuth2Token.expires_at token_obj' = None)
    ∧ TapisOAuth2Token.refresh_token token_obj'
      = default (TapisOAuth2Token.refresh_token token_obj) (dict_get d "refresh_token")
    ∧ TapisOAuth2Token.scope token_obj' = TapisOAuth2Token.scope token_obj
    ∧ TapisOAuth2Token.user token_obj' = TapisOAuth2Token.user token_obj
    ∧ TapisOAuth2Token.client token_obj' = TapisOAuth2Token.client token_obj.
Proof.
  unfold TapisOAuth2TokenRefreshView.refreshed, claim. intros Hrun.
  destruct new_token_data as [| | | | |d|]; try discriminate Hrun.
  exists d. split; [reflexivity |].
  unfold get, has_key, subscript, dict_has in Hrun.
  assert (∀ n t, datetime_add (now w) (timedelta_seconds n) = Ret t →
                 t = (now w + timedelta_seconds n)%Z) as Hadd.
  { intros n t. unfold datetime_add. destruct (_ && _); congruence. }
  destruct (dict_get d "expires_in") as [ex|]; simpl in *;
    [destruct (truthy ex) eqn:Hex |];
    destruct (dict_get d "refresh_token") as [r|],
             (dict_get d "access_token") as [a|],
             (dict_get d "token_type") as [ty|];
    simpl in *; res_inv; subst;
    try match goal with Ht : datetime_add _ _ = Ret _ |- _ => apply Hadd in Ht; subst end;
    simpl; repeat split; eauto.
Qed.

(** A refresh that answers 200 has read the caller's row, got a response
    from the token endpoint and written the row back. *)
Lemma refresh_success_inv user client_id db body db' :
  TapisOAuth2TokenRefreshView.post w user client_id db = (Ret (Response body 200), db') →
  ∃ client token_obj new_token_data token_obj',
    clients db !! client_id = Some client
    ∧ tokens db !! (User.id user, TapisOAuth2Client.client_id client) = Some token_obj
    ∧ TapisOAuth2TokenRefreshView._refresh_access_token w client
        (TapisOAuth2Token.refresh_token token_obj) = Ret new_token_data
    ∧ TapisOAuth2TokenRefreshView.refreshed w token_obj new_token_data = Ret token_obj'
    ∧ db' = set_tokens (insert (User.id user, TapisOAuth2Client.client_id client)
                          (TapisOAuth2Token.prepared token_obj')) db.
Proof.
  unfold TapisOAuth2TokenRefreshView.post, get_object_or_404. intros Hrun.
  apply eff_try_ret_inv in Hrun as [Hrun | (e & s1 & _ & _ & Hrun)].
  2: { eff_inv. discriminate. }
  eff_inv; subst; try discriminate.
  match goal with Hsave : save_token _ _ _ = _ |- _ =>
    apply save_token_ret_inv in Hsave as (-> & _ & _) end.
  eexists _, _, _, _. repeat split; eauto.
Qed.

(** C9, amended.  A refresh that succeeds overwrites the stored access
    token with the response's 'access_token', the token type with its
    'token_type' ('Bearer' when absent), and the expiry with now +
    [int(expires_in)] seconds when 'expires_in' is present with a value
    that counts as true, and with null otherwise (also when it is present
    and zero); the stored refresh token is replaced by the response's
    'refresh_token' when the response has that key and left as it was
    otherwise.  Each text column holds its value as [get_prep_value] gives
    it: a string as it is, [str] of another value; a row that was written
    that way ([prepared old = old]) keeps its scope, and its refresh token
    when the response has no 'refresh_token'.  Every other row is
    unchanged. *)
Theorem refresh_overwrites user client_id db body db' :
  TapisOAuth2TokenRefreshView.post w user client_id db = (Ret (Response body 200), db') →
  ∃ client old d new,
    clients db !! client_id = Some client
    ∧ tokens db !! (User.id user, TapisOAuth2Client.client_id client) = Some old
    ∧ TapisOAuth2TokenRefreshView._refresh_access_token w client
        (TapisOAuth2Token.refresh_token old) = Ret (VDict d)
    ∧ db' = set_tokens (insert (User.id user, TapisOAuth2Client.client_id client) new) db
    ∧ TapisOAuth2Token.access_token new
      = TapisOAuth2Token.get_prep_value (claim d "access_token")
    ∧ TapisOAuth2Token.token_type new
      = TapisOAuth2Token.get_prep_value (default (VStr "Bearer") (dict_get d "token_type"))
    ∧ (if truthy (claim d "expires_in")
       then ∃ n, py_int (claim d "expires_in") = Ret n
                 ∧ TapisOAuth2Token.expires_at new = Some (now w + timedelta_seconds n)%Z
       else TapisOAuth2Token.expires_at new = None)
    ∧ TapisOAuth2Token.refresh_token new
      = TapisOAuth2Token.get_prep_value
          (default (TapisOAuth2Token.refresh_token old) (dict_get d "refresh_token"))
    ∧ TapisOAuth2Token.scope new
      = TapisOAuth2Token.get_prep_value (TapisOAuth2Token.scope old)
    ∧ (TapisOAuth2Token.prepared old = old →
       TapisOAuth2Token.scope new = TapisOAuth2Token.scope old
       ∧ (dict_get d "refresh_token" = None →
          TapisOAuth2Token.refresh_token new = TapisOAuth2Token.refresh_token old)).
Proof.
  intros Hrun.
  apply refresh_success_inv in Hrun
    as (client & old & new_token_data & new & Hclient & Hold & Hresp & Hnew & ->).
  apply refreshed_fields in Hnew
    as (d & -> & Haccess & Htype & Hexpiry & Hrefresh & Hscope & _ & _).
  exists client, old, d, (TapisOAuth2Token.prepared new).
  split; [exact Hclient |]. split; [exact Hold |]. split; [exact Hresp |].
  split; [reflexivity |]. simpl.
  rewrite Haccess, Htype, Hrefresh, Hscope.
  split; [reflexivity |]. split; [reflexivity |]. split; [exact Hexpiry |].
  split; [reflexivity |]. split; [reflexivity |].
  intros Hold'. split.
  - rewrite <- Hold' at 2. reflexivity.
  - intros ->. simpl. rewrite <- Hold' at 2. reflexivity.
Qed.
End Refresh.

(** ** What the callback stores *)

Section Stored.
Context `{PyLib}.
Variable (cfg : settings) (w : world).
Hypothesis (Hstr : str_of_dict_longer).

(** Only a string can pass the validation. *)
Lemma validate_not_string now v :
  (∀ token, v ≠ VStr token) →
  TapisOAuth2Backend._validate_token_with_tapis cfg now v = Ret None.
Proof.
  intros Hnot. destruct v; try reflexivity. exfalso. eapply Hnot. reflexivity.
Qed.

(** The backend authenticates a user only from a string that passes the
    validation. *)
Lemma authenticate_success_inv now v db user db' :
  TapisOAuth2Backend.authenticate cfg now v db = (Ret (Some user), db') →
  ∃ token info,
    v = VStr token
    ∧ TapisOAuth2Backend._validate_token_with_tapis cfg now (VStr token) = Ret (Some info).
Proof.
  unfold TapisOAuth2Backend.authenticate. intros Hrun.
  destruct (truthy v); [| eff_inv; discriminate].
  destruct (configured (TAPIS_BASE_URL cfg)); [| eff_inv; discriminate].
  destruct (configured (TAPIS_TENANT_ID cfg)); [| eff_inv; discriminate].
  simpl in Hrun.
  apply eff_try_ret_inv in Hrun as [Hrun | (e & s1 & _ & _ & Hrun)];
    [| eff_inv; discriminate].
  apply eff_bind_ret_inv in Hrun as (info & s1 & Hvalid & Hrun).
  apply eff_lift_inv in Hvalid as [Hvalid ->].
  destruct info as [info|]; [| eff_inv; discriminate].
  destruct v as [| | |token| | |];
    try (rewrite validate_not_string in Hvalid by discriminate; discriminate Hvalid).
  eauto.
Qed.

(** When the row can be written, the tokens are stored under the user and
    the client, with the text of the response's 'access_token'. *)
Lemma store_user_tokens_writes user client d db :
  storable w d →
  ∃ row,
    TapisOAuth2CallbackView._store_user_tokens w user client (VDict d) db
      = (Ret tt, set_tokens (insert (User.id user, TapisOAuth2Client.client_id client) row) db)
    ∧ TapisOAuth2Token.access_token row
      = TapisOAuth2Token.get_prep_value (claim d "access_token").
Proof.
  intros (Hexpiry & Haccess & Hrefresh & Htype & Hscope).
  unfold TapisOAuth2CallbackView._store_user_tokens, claim in *.
  unfold try_eff, mbind at 1, eff_bind at 1, lift, get.
  assert (∀ token,
            TapisOAuth2Token.access_token token = default VNone (dict_get d "access_token") →
            TapisOAuth2Token.refresh_token token
              = default (VStr "") (dict_get d "refresh_token") →
            TapisOAuth2Token.token_type token
              = default (VStr "Bearer") (dict_get d "token_type") →
            TapisOAuth2Token.scope token = default (VStr "") (dict_get d "scope") →
            TapisOAuth2Token.not_null token = true ∧ TapisOAuth2Token.fits token = true)
    as Hrow.
  { intros token Ha Hr Hty Hsc. split.
    - apply not_null_true. rewrite Ha, Hr, Hty, Hsc.
      repeat split; [exact Haccess | ..].
      + destruct (dict_get d "refresh_token"); simpl; congruence.
      + destruct (dict_get d "token_type") as [v|]; simpl; [| discriminate].
        apply (Htype v eq_refl).
      + destruct (dict_get d "scope"); simpl; congruence.
    - unfold TapisOAuth2Token.fits. rewrite Hty. apply Nat.leb_le.
      destruct (dict_get d "token_type") as [v|]; simpl.
      + apply (Htype v eq_refl).
      + rewrite py_str_str. simpl. lia. }
  destruct (dict_get d "expires_in") as [ex|]; simpl in *;
    [destruct (truthy ex) eqn:Hex;
       [destruct (Hexpiry eq_refl) as (n & t & Hint & Hadd); rewrite Hint; simpl;
        rewrite Hadd |] |];
    simpl;
    match goal with
    | |- context [save_token ?key ?token db] =>
        destruct (Hrow token eq_refl eq_refl eq_refl eq_refl) as [Hnull Hfits];
        rewrite (save_token_writes key token db Hnull Hfits)
    end;
    eexists; (split; [reflexivity |]); reflexivity.
Qed.

(** The discovery trigger writes neither tokens nor the session. *)
Lemma trigger_keeps_tokens user client :
  frames (same (λ s, (tokens s, session s)))
    (TapisOAuth2CallbackView._trigger_flight_discovery w user client).
Proof. apply trigger_flight_discovery_frames; [exact _ | reflexivity ..]. Qed.

Lemma store_user_tokens_keeps_session user client token_data :
  frames (same session)
    (TapisOAuth2CallbackView._store_user_tokens w user client token_data).
Proof. apply store_user_tokens_frames; [exact _ | reflexivity]. Qed.
Lemma subscript_dict v k x :
  subscript v k = Ret x → ∃ d, v = VDict d ∧ dict_get d k = Some x.
Proof.
  destruct v as [| | | | |d|]; simpl; intros Hsub; try discriminate Hsub.
  destruct (dict_get d k) as [y|] eqn:Hget; [| discriminate Hsub].
  injection Hsub as ->. eauto.
Qed.

End Stored.

(** ** The discovery trigger *)

Section Trigger.
Context `{PyLib}.
Variable (w : world).

Lemma discover_keeps user client :
  frames (same (λ s, (preferences s, events s)))
    (TapisFlightDiscoveryService.discover_and_create_projects w user client).
Proof. apply discover_and_create_projects_frames; [exact _ | reflexivity ..]. Qed.

Lemma get_or_create_for_user_run user db :
  get_or_create_for_user user db = (Ret (preferences_of db user), with_preferences db user).
Proof.
  unfold get_or_create_for_user, preferences_of, with_preferences, mbind, eff_bind, gets.
  destruct (preferences db !! User.id user); reflexivity.
Qed.

Lemma with_preferences_lookup user db :
  preferences (with_preferences db user) !! User.id user = Some (preferences_of db user).
Proof.
  unfold with_preferences, preferences_of.
  destruct (preferences db !! User.id user) eqn:Hp; simpl.
  - exact Hp.
  - apply lookup_insert_eq.
Qed.

(** C7, amended.  When the preferences permit the scan: if the task is
    queued, the last-discovery timestamp is written right after the
    dispatch, before any outcome of the scan is known; if importing the
    task module raises [ImportError], the scan runs in the request and the
    timestamp is written only after the scan has returned, and not at all
    when the scan raises; if the dispatch fails in another way, there is
    neither a scan nor a write.  When the preferences do not permit the
    scan nothing happens. *)
Theorem discovery_timestamp_order user client db :
  let uid := User.id user in
  let cid := TapisOAuth2Client.client_id client in
  let db' := (TapisOAuth2CallbackView._trigger_flight_discovery w user client db).2 in
  let last := TapisUserPreferences.last_auto_discovery <$> (preferences db' !! uid) in
  let before := TapisUserPreferences.last_auto_discovery (preferences_of db user) in
  if negb (TapisUserPreferences.should_run_auto_discovery (now w) (preferences_of db user))
  then events db' = events db ∧ last = Some before
  else
    match celery_delay w uid cid with
    | Ret _ =>
        events db' = (events db ++ [TaskDispatched uid cid; LastDiscoveryUpdated uid (now w)])%list
        ∧ last = Some (Some (now w))
    | Raise e =>
        if only ImportError e then
          match TapisFlightDiscoveryService.discover_and_create_projects w user client
                  (with_preferences db user) with
          | (Ret r, _) =>
              events db' = (events db ++ [ScanReturned (projects_created r);
                                          LastDiscoveryUpdated uid (now w)])%list
              ∧ last = Some (Some (now w))
          | (Raise e', _) =>
              events db' = (events db ++ [ScanRaised e'])%list ∧ last = Some before
          end
        else events db' = events db ∧ last = Some before
    end.
Proof.
  cbv zeta.
  destruct (TapisOAuth2CallbackView._trigger_flight_discovery w user client db)
    as [r db'] eqn:Hrun.
  cbn [snd].
  unfold TapisOAuth2CallbackView._trigger_flight_discovery in Hrun.
  unfold try_eff at 1, mbind at 1, eff_bind at 1 in Hrun.
  rewrite get_or_create_for_user_run in Hrun.
  pose proof (with_preferences_lookup user db) as Hlookup.
  assert (events (with_preferences db user) = events db) as Hevents.
  { unfold with_preferences. destruct (preferences db !! User.id user); reflexivity. }
  destruct (TapisUserPreferences.should_run_auto_discovery (now w) (preferences_of db user));
    cbn [negb] in *.
  2: { injection Hrun as _ <-. rewrite Hlookup. split; [exact Hevents | reflexivity]. }
  unfold try_eff at 1, mbind at 1, eff_bind at 1, lift in Hrun.
  destruct (celery_delay w (User.id user) (TapisOAuth2Client.client_id client)) as [task|e].
  - unfold update_last_discovery, emit, modify, mbind, eff_bind in Hrun.
    injection Hrun as _ <-. simpl. rewrite Hevents.
    rewrite lookup_alter_eq, Hlookup. split; [| reflexivity].
    rewrite <- app_assoc. reflexivity.
  - destruct (only ImportError e).
    2: { injection Hrun as _ <-. rewrite Hlookup. split; [exact Hevents | reflexivity]. }
    unfold try_eff at 1, mbind at 1, eff_bind at 1 in Hrun.
    pose proof (discover_keeps user client (with_preferences db user)) as Hkeep.
    destruct (TapisFlightDiscoveryService.discover_and_create_projects w user client
                (with_preferences db user)) as [[results|e'] s2].
    + unfold same in Hkeep. simpl in Hkeep. injection Hkeep as Hprefs Hevs.
      unfold update_last_discovery, emit, modify, mbind, eff_bind in Hrun.
      injection Hrun as _ <-. simpl. rewrite Hevs, Hevents, Hprefs.
      rewrite lookup_alter_eq, Hlookup. split; [| reflexivity].
      rewrite <- app_assoc. reflexivity.
    + unfold same in Hkeep. simpl in Hkeep. injection Hkeep as Hprefs Hevs.
      unfold emit, modify in Hrun. simpl in Hrun.
      injection Hrun as _ <-. simpl. rewrite Hevs, Hevents, Hprefs, Hlookup.
      split; reflexivity.
Qed.
End Trigger.

(** ** Re-running discovery *)

Lemma prefix_lower needle s :
  String.prefix needle s = true → String.prefix (lower needle) (lower s) = true.
Proof.
  revert needle. induction s as [|b s IH]; intros [|a needle]; simpl; try done.
  destruct (ascii_dec a b) as [->|Hne]; [| discriminate].
  intros Hprefix. destruct (ascii_dec (lower_char b) (lower_char b)); [| congruence].
  apply IH, Hprefix.
Qed.

(** A substring is found again when letter case is ignored. *)
Lemma contains_icontains s needle : contains s needle = true → icontains s needle = true.
Proof.
  unfold icontains. induction s as [|b s IH]; simpl.
  - destruct needle; simpl; [reflexivity | discriminate].
  - intros Hfound. apply orb_prop in Hfound as [Hhere | Hlater].
    + apply (prefix_lower needle (String b s)) in Hhere. simpl in Hhere.
      rewrite Hhere. reflexivity.
    + rewrite (IH Hlater). apply orb_true_r.
Qed.

Section Rediscovery.
Context `{PyLib}.
Variable (w : world).

(** The existing-project check finds a project as soon as one of the
    owner's projects has the flight's tag pair in its tags. *)
Lemma find_existing_project_finds user info db p :
  p ∈ projects db → Project.owner p = User.id user →
  icontains (Project.tags p) (TapisFlightDiscoveryService.flight_tag info) = true →
  ∃ found,
    TapisFlightDiscoveryService._find_existing_project user info db = (Ret (Some found), db).
Proof.
  intros Hin Howner Htags.
  unfold TapisFlightDiscoveryService._find_existing_project, mbind, eff_bind, gets. simpl.
  match goal with |- context [head ?l] => destruct l as [|found rest] eqn:Hfilter end.
  - exfalso.
    assert (p ∈ @nil Project.t) as Hnil; [| inversion Hnil].
    rewrite <- Hfilter. apply list_elem_of_filter. repeat split; assumption.
  - exists found. reflexivity.
Qed.

(** [create_project_from_flight] appends one project and one task. *)
Lemma create_project_from_flight_run svc info db :
  ∃ project task,
    TapisStorageService.create_project_from_flight svc info db
    = (Ret (Some project),
       set_tasks (λ ts, ts ++ [task])%list
         (set_projects (λ ps, ps ++ [project])%list db))
    ∧ Project.id project = next_project_id (projects db).
Proof. eexists _, _. split; reflexivity. Qed.

(** What one turn of the creation loop does: nothing when the check finds
    a project, and otherwise one project more, entered in the results with
    the flight it was made for. *)
Lemma create_one_run svc user info rs db :
  (∃ found, TapisFlightDiscoveryService._find_existing_project user info db
            = (Ret (Some found), db)
            ∧ TapisFlightDiscoveryService.create_one svc user info rs db = (Ret rs, db))
  ∨ (∃ project task,
       TapisFlightDiscoveryService._find_existing_project user info db = (Ret None, db)
       ∧ TapisFlightDiscoveryService.create_one svc user info rs db
         = (Ret (TapisFlightDiscoveryService.add_created project info rs),
            set_tasks (λ ts, ts ++ [task])%list
              (set_projects (λ ps, ps ++ [project])%list db))).
Proof.
  assert (∃ o, TapisFlightDiscoveryService._find_existing_project user info db = (Ret o, db))
    as [o Hfind].
  { unfold TapisFlightDiscoveryService._find_existing_project, mbind, eff_bind, gets.
    simpl. eauto. }
  unfold TapisFlightDiscoveryService.create_one, try_eff, mbind, eff_bind.
  rewrite Hfind. destruct o as [found|].
  - left. exists found. split; reflexivity.
  - right. destruct (create_project_from_flight_run svc info db) as (project & task & Hrun & _).
    exists project, task. split; [reflexivity |]. rewrite Hrun. reflexivity.
Qed.
Global Instance untouched_frame : Frame untouched.
Proof. split; unfold untouched; congruence. Qed.

(** Building the service reads the token and writes nothing. *)
Lemma init_untouched user client : frames untouched (TapisStorageService.init w user client).
Proof.
  unfold TapisStorageService.init, TapisStorageService._get_valid_token.
  repeat frame_step.
Qed.

Lemma create_one_rerun db0 svc user info rs db system flight :
  rerun_inv db0 user system flight rs db →
  ∃ rs' db',
    TapisFlightDiscoveryService.create_one svc user info rs db = (Ret rs', db')
    ∧ rerun_inv db0 user system flight rs' db'.
Proof.
  intros (Hthere & Hentries & Hprojects).
  destruct (create_one_run svc user info rs db)
    as [(found & _ & Hrun) | (project & task & Hfind & Hrun)].
  - exists rs, db. split; [exact Hrun | repeat split; assumption].
  - eexists _, _. split; [exact Hrun |]. split; [| split].
    + destruct Hthere as (p & Hin & Howner & Htags).
      exists p. simpl. split; [| split; assumption].
      apply elem_of_app. left. exact Hin.
    + intros cp Hcp [Hsid Hfname]. simpl in Hcp.
      apply elem_of_app in Hcp as [Hold | Hnew]; [apply (Hentries cp Hold); split; assumption |].
      apply list_elem_of_singleton in Hnew. subst cp. simpl in Hsid, Hfname.
      destruct Hthere as (p & Hin & Howner & Htags).
      destruct (find_existing_project_finds user info db p Hin Howner) as (found & Hfound).
      * apply contains_icontains.
        unfold TapisFlightDiscoveryService.flight_tag. rewrite Hsid, Hfname. exact Htags.
      * rewrite Hfound in Hfind. discriminate Hfind.
    + intros p Hp. simpl in Hp. apply elem_of_app in Hp as [Hold | Hnew].
      * destruct (Hprojects p Hold) as [Hbase | (cp & Hcp & Hid)]; [left; exact Hbase |].
        right. exists cp. split; [| exact Hid]. simpl. apply elem_of_app. left. exact Hcp.
      * apply list_elem_of_singleton in Hnew. subst p. right.
        eexists. split; [simpl; apply elem_of_app; right; apply list_elem_of_singleton; reflexivity |].
        reflexivity.
Qed.

Lemma create_all_rerun db0 svc user flights rs db system flight :
  rerun_inv db0 user system flight rs db →
  ∃ rs' db',
    TapisFlightDiscoveryService.create_all svc user flights rs db = (Ret rs', db')
    ∧ rerun_inv db0 user system flight rs' db'.
Proof.
  revert rs db. induction flights as [|info rest IH]; intros rs db Hinv; simpl.
  - exists rs, db. split; [reflexivity | exact Hinv].
  - destruct (create_one_rerun db0 svc user info rs db system flight Hinv)
      as (rs1 & db1 & Hone & Hinv1).
    destruct (IH rs1 db1 Hinv1) as (rs' & db' & Hall & Hinv').
    exists rs', db'. split; [| exact Hinv'].
    unfold mbind, eff_bind. rewrite Hone. exact Hall.
Qed.

(** C3.  When a project of the user already has the pair
    [system_id,flight_name] in its tag string, a run of the discovery for
    that user creates no project for a flight with that system and that
    name: no entry of [created_projects] is for it, and every project the
    run adds to the database is listed in [created_projects].  (The check
    the run makes is the substring search [icontains], which ignores
    letter case; a tag string that contains the pair passes it.) *)
Theorem rediscovery_creates_no_duplicate user client db system flight r db' :
  materialised db user system flight →
  TapisFlightDiscoveryService.discover_and_create_projects w user client db = (Ret r, db') →
  (∀ cp, cp ∈ created_projects r → ¬ for_flight system flight cp)
  ∧ (∀ p, p ∈ projects db' →
          p ∈ projects db ∨ ∃ cp, cp ∈ created_projects r ∧ cp_project_id cp = Project.id p)
  ∧ (∀ info, system_id info = system → flight_name info = flight →
             ∃ found, TapisFlightDiscoveryService._find_existing_project user info db'
                      = (Ret (Some found), db')).
Proof.
  intros Hthere Hrun.
  unfold TapisFlightDiscoveryService.discover_and_create_projects in Hrun.
  apply eff_bind_ret_inv in Hrun as (svc & db1 & Hinit & Hrun).
  pose proof (init_untouched user client db) as Hsame.
  rewrite Hinit in Hsame. unfold untouched in Hsame. simpl in Hsame. subst db1.
  assert (rerun_inv db user system flight
            {| systems_scanned := 0; flights_discovered := 0; projects_created := 0;
               errors := []; created_projects := [] |} db) as Hstart.
  { split; [exact Hthere |]. split.
    - intros cp Hcp. inversion Hcp.
    - intros p Hp. left. exact Hp. }
  assert (rerun_inv db user system flight r db') as (Hend & Hentries & Hprojects).
  { destruct Hstart as (H1 & H2 & H3).
    destruct (_ ≫= _) as [[n items]|e] in Hrun.
    - destruct (TapisFlightDiscoveryService.scan_systems w svc items) as [all_flights|e].
      + match type of Hrun with
        | TapisFlightDiscoveryService.create_all ?svc ?u ?fl ?rs ?d = _ =>
            destruct (create_all_rerun db svc u fl rs d system flight) as (rs' & db2 & Hall & Hinv)
        end.
        { repeat split; assumption. }
        rewrite Hall in Hrun. injection Hrun as <- <-. exact Hinv.
      + injection Hrun as <- <-. repeat split; assumption.
    - injection Hrun as <- <-. repeat split; assumption. }
  split; [exact Hentries |]. split; [exact Hprojects |].
  intros info Hsid Hfname.
  destruct Hend as (p & Hin & Howner & Htags).
  apply (find_existing_project_finds user info db' p Hin Howner).
  apply contains_icontains.
  unfold TapisFlightDiscoveryService.flight_tag. rewrite Hsid, Hfname. exact Htags.
Qed.
End Rediscovery.

(** ** The scanner *)

Lemma lower_app a b : lower (a ++ b) = lower a ++ lower b.
Proof.
  induction a as [|c a IH]; [reflexivity |].
  rewrite append_cons. simpl. rewrite IH. reflexivity.
Qed.

Lemma lower_split s a b :
  lower s = a ++ b → ∃ s1 s2, s = s1 ++ s2 ∧ lower s1 = a ∧ lower s2 = b.
Proof.
  revert s. induction a as [|c a IH]; intros s Hs.
  - exists "", s. repeat split. exact Hs.
  - rewrite append_cons in Hs.
    destruct s as [|c' s]; simpl in Hs; [discriminate Hs |].
    injection Hs as Hc Hs. destruct (IH s Hs) as (s1 & s2 & -> & <- & <-).
    exists (String c' s1), s2. simpl. rewrite Hc. repeat split.
Qed.

Lemma endswith_refl s : endswith s s = true.
Proof.
  destruct s as [|a s]; [reflexivity |].
  cbn [endswith]. rewrite String.eqb_refl. reflexivity.
Qed.

Lemma endswith_app s suffix : endswith (s ++ suffix) suffix = true.
Proof.
  induction s as [|c s IH].
  - rewrite append_nil. apply endswith_refl.
  - rewrite append_cons. cbn [endswith]. rewrite IH. apply orb_true_r.
Qed.

Lemma endswith_inv s suffix : endswith s suffix = true → ∃ s1, s = s1 ++ suffix.
Proof.
  induction s as [|c s IH]; cbn [endswith]; intros Hends.
  - rewrite orb_false_r in Hends. apply String.eqb_eq in Hends. exists "". exact Hends.
  - apply orb_prop in Hends as [Heq | Hlater].
    + apply String.eqb_eq in Heq. exists "". exact Heq.
    + destruct (IH Hlater) as (s1 & ->). exists (String c s1). reflexivity.
Qed.

(** The suffix test of line 137 is the test of [jpeg_file]. *)
Lemma jpeg_name s :
  endswith (lower s) ".jpg" || endswith (lower s) ".jpeg" = true
  ↔ ∃ stem ext, s = stem ++ ext ∧ (lower ext = ".jpg" ∨ lower ext = ".jpeg").
Proof.
  split.
  - intros Hends. apply orb_prop in Hends as [Hends | Hends];
      apply endswith_inv in Hends as (s1 & Hs);
      apply lower_split in Hs as (stem & ext & -> & _ & Hext); eauto.
  - intros (stem & ext & -> & Hext). rewrite lower_app.
    destruct Hext as [-> | ->]; rewrite endswith_app; [reflexivity | apply orb_true_r].
Qed.

Section Scanner.
Context `{PyLib}.
Variable (w : world) (svc : TapisStorageService.t).

(** On an entry whose name, if it is a file, is a string, the test of the
    generator is defined, and it is the test of [jpeg_file]. *)
Lemma is_jpg_entry item :
  entry item → file_name_is_text item →
  ∃ b, TapisStorageService.is_jpg item = Ret b ∧ (b = true ↔ jpeg_file item).
Proof.
  intros (d & ->) Hname. unfold TapisStorageService.is_jpg, get. simpl.
  destruct (dict_get d "type") as [ty|] eqn:Hty; simpl.
  2: { exists false. split; [reflexivity |]. split; [discriminate |].
       intros (d' & stem & ext & [= <-] & Hty' & _). congruence. }
  destruct (eq_str ty "file") eqn:Hfile.
  2: { exists false. split; [reflexivity |]. split; [discriminate |].
       intros (d' & stem & ext & [= <-] & Hty' & _).
       rewrite Hty in Hty'. injection Hty' as ->. discriminate Hfile. }
  destruct ty as [| | |ty| | |]; try discriminate Hfile.
  apply String.eqb_eq in Hfile. subst ty.
  destruct (dict_get d "name") as [name|] eqn:Hn.
  - destruct (Hname d name eq_refl Hty Hn) as (s & ->). eexists. split; [reflexivity |].
    rewrite jpeg_name. split.
    + intros (stem & ext & -> & Hext). exists d, stem, ext. repeat split; assumption.
    + intros (d' & stem & ext & [= <-] & _ & Hn' & Hext).
      rewrite Hn in Hn'. injection Hn' as ->. eauto.
  - exists false. split; [reflexivity |]. split; [discriminate |].
    intros (d' & stem & ext & [= <-] & _ & Hn' & _). congruence.
Qed.

Lemma count_jpg_none items :
  Forall entry items → Forall file_name_is_text items →
  Forall (λ y, ¬ jpeg_file y) items →
  TapisStorageService.count_jpg items = Ret 0%nat.
Proof.
  induction 1 as [|item items Hitem _ IH]; intros Hnames Hnone; [reflexivity |].
  apply Forall_cons in Hnames as [Hname Hnames].
  apply Forall_cons in Hnone as [Hno Hnone]. simpl.
  destruct (is_jpg_entry item Hitem Hname) as ([] & -> & Hb); simpl.
  - exfalso. apply Hno, Hb. reflexivity.
  - rewrite (IH Hnames Hnone). reflexivity.
Qed.

(** The count of line 135 is one when exactly one entry is a JPEG file. *)
Lemma count_jpg_one items :
  Forall entry items → Forall file_name_is_text items → exactly_one jpeg_file items →
  TapisStorageService.count_jpg items = Ret 1%nat.
Proof.
  intros Hentries Hnames (before & x & after & -> & Hx & Hbefore & Hafter).
  induction before as [|item before IH]; simpl.
  - apply Forall_cons in Hentries as [Hitem Hentries].
    apply Forall_cons in Hnames as [Hname Hnames].
    destruct (is_jpg_entry x Hitem Hname) as (b & -> & Hb). simpl.
    apply Hb in Hx. subst b.
    rewrite (count_jpg_none after Hentries Hnames Hafter). reflexivity.
  - apply Forall_cons in Hentries as [Hitem Hentries].
    apply Forall_cons in Hnames as [Hname Hnames].
    apply Forall_cons in Hbefore as [Hno Hbefore].
    destruct (is_jpg_entry item Hitem Hname) as ([] & -> & Hb); simpl.
    + exfalso. apply Hno, Hb. reflexivity.
    + rewrite (IH Hnames Hentries Hbefore). reflexivity.
Qed.

(** The loop of lines 123-126 finds the directory [images] exactly when
    the listing has one. *)
Lemma has_images_dir_entries items :
  Forall entry items →
  ∃ b, TapisStorageService.has_images_dir items = Ret b
       ∧ (b = true ↔ Exists (is_dir "images") items).
Proof.
  induction 1 as [|item items (d & ->) _ (b & IH & Hb)]; simpl.
  - exists false. split; [reflexivity |]. split; [discriminate |].
    intros Hex. inversion Hex.
  - match goal with |- context [if ?c then _ else _] => destruct c eqn:Hhere end.
    + exists true. split; [reflexivity |]. split; [| reflexivity]. intros _.
      apply Exists_cons. left.
      apply andb_prop in Hhere as [Hty Hnm]. exists d.
      destruct (dict_get d "type") as [[| | |ty| | |]|]; try discriminate Hty.
      destruct (dict_get d "name") as [[| | |nm| | |]|]; try discriminate Hnm.
      simpl in Hty, Hnm. apply String.eqb_eq in Hty, Hnm. subst. repeat split.
    + exists b. split; [exact IH |]. rewrite Hb, Exists_cons. split; [tauto |].
      intros [(d' & [= <-] & Hty & Hnm) | Hlater]; [| exact Hlater].
      rewrite Hty, Hnm in Hhere. discriminate Hhere.
Qed.
(** A flight directory with an [images] directory and exactly one JPEG
    file in it is a match, with one image. *)
Lemma check_flight_directory_match system flight code_items image_items :
  lists w svc system (flight ++ "/code") code_items →
  Exists (is_dir "images") code_items →
  lists_files w svc system (flight ++ "/code/images") image_items →
  exactly_one jpeg_file image_items →
  TapisStorageService._check_flight_directory w svc system (VStr flight)
  = Ret (Some {| flight_name := VStr flight;
                 system_id := system;
                 images_path := flight ++ "/code/images";
                 image_count := 1;
                 discovered_at := now w |}).
Proof.
  intros (code_listing & Hcode & Hresult & Hentries) Himages
         [(images_listing & Himgs & Hresult' & Hentries') Hnames] Hone.
  unfold TapisStorageService._check_flight_directory. rewrite py_str_str.
  cbv zeta. rewrite Hcode, Hresult. simpl.
  destruct (has_images_dir_entries code_items Hentries) as (b & -> & Hb).
  apply Hb in Himages. subst b. simpl.
  rewrite Himgs. simpl. rewrite Hresult'. simpl.
  rewrite (count_jpg_one image_items Hentries' Hnames Hone). reflexivity.
Qed.

(** Without an [images] directory in its [code] listing a flight directory
    is no match. *)
Lemma check_flight_directory_no_images system flight code_items :
  lists w svc system (flight ++ "/code") code_items →
  ¬ Exists (is_dir "images") code_items →
  TapisStorageService._check_flight_directory w svc system (VStr flight) = Ret None.
Proof.
  intros (code_listing & Hcode & Hresult & Hentries) Hnone.
  unfold TapisStorageService._check_flight_directory. rewrite py_str_str.
  cbv zeta. rewrite Hcode, Hresult. simpl.
  destruct (has_images_dir_entries code_items Hentries) as ([] & -> & Hb); simpl.
  - exfalso. apply Hnone, Hb. reflexivity.
  - reflexivity.
Qed.

(** The check raises nothing, and a match it returns is for the directory
    it was asked about. *)
Lemma check_flight_directory_returns system name :
  ∃ r, TapisStorageService._check_flight_directory w svc system name = Ret r
       ∧ ∀ info, r = Some info → flight_name info = name.
Proof.
  unfold TapisStorageService._check_flight_directory. cbv zeta.
  match goal with |- context [try_except ?body Exception _] =>
    destruct body as [r|e] eqn:Hbody
  end; simpl.
  2: { exists None. split; [reflexivity | discriminate]. }
  exists r. split; [reflexivity |]. intros info ->.
  destruct (TapisStorageService._make_request _ _ _ _ _) as [code_listing|e] in Hbody.
  2: { destruct (only RequestException e); discriminate Hbody. }
  res_inv; try discriminate.
  match goal with Hinner : try_except _ _ _ = Ret (Some info) |- _ =>
    apply try_except_ret_inv in Hinner as [Hinner | (e & _ & _ & Hinner)];
      [| discriminate Hinner];
    res_inv; try discriminate
  end.
  subst info. reflexivity.
Qed.

(** On an entry the body of the scan loop raises nothing; it reports a
    match only for a directory, under the directory's name. *)
Lemma scan_item_entry system item :
  entry item →
  ∃ r, TapisStorageService.scan_item w svc system item = Ret r
       ∧ ∀ info, r = Some info →
           ∃ d, item = VDict d
                ∧ dict_get d "type" = Some (VStr "dir")
                ∧ dict_get d "name" = Some (flight_name info).
Proof.
  intros (d & ->). unfold TapisStorageService.scan_item, get. simpl.
  destruct (dict_get d "type") as [ty|] eqn:Hty; simpl.
  2: { exists None. split; [reflexivity | discriminate]. }
  destruct ty as [| | |ty| | |]; simpl;
    try (exists None; split; [reflexivity | discriminate]).
  destruct (ty =? "dir") eqn:Hdir; [| exists None; split; [reflexivity | discriminate]].
  apply String.eqb_eq in Hdir. subst ty.
  destruct (dict_get d "name") as [name|] eqn:Hn; simpl.
  2: { exists None. split; [reflexivity | discriminate]. }
  destruct (truthy name); [| exists None; split; [reflexivity | discriminate]].
  destruct (check_flight_directory_returns system name) as (r & -> & Hr).
  exists r. split; [reflexivity |]. intros info Hinfo.
  exists d. rewrite (Hr info Hinfo). repeat split; assumption.
Qed.

(** For the directory [flight] the body of the scan loop is the check. *)
Lemma scan_item_flight system flight item :
  flight ≠ "" → is_dir flight item →
  TapisStorageService.scan_item w svc system item
  = TapisStorageService._check_flight_directory w svc system (VStr flight).
Proof.
  intros Hne (d & -> & Hty & Hn). unfold TapisStorageService.scan_item, get.
  rewrite Hty, Hn. simpl. destruct flight; [congruence | reflexivity].
Qed.

Lemma scan_items_app system before rest :
  Forall entry before →
  TapisStorageService.scan_items w svc system (before ++ rest)
  = (TapisStorageService.scan_items w svc system before
     ++ TapisStorageService.scan_items w svc system rest)%list.
Proof.
  induction 1 as [|item before Hitem _ IH]; simpl; [reflexivity |].
  destruct (scan_item_entry system item Hitem) as ([info|] & -> & _);
    rewrite IH; reflexivity.
Qed.

(** The other entries of the root listing give no match for [flight]. *)
Lemma scan_items_others system flight items :
  Forall entry items → Forall (λ y, ¬ is_dir flight y) items →
  matches_of flight (TapisStorageService.scan_items w svc system items) = [].
Proof.
  induction 1 as [|item items Hitem _ IH]; intros Hnot; simpl; [reflexivity |].
  apply Forall_cons in Hnot as [Hno Hnot].
  destruct (scan_item_entry system item Hitem) as ([info|] & -> & Hinfo); [| exact (IH Hnot)].
  unfold matches_of. rewrite filter_cons. case_decide as Hmatch; [| exact (IH Hnot)].
  exfalso. destruct (Hinfo info eq_refl) as (d & -> & Hty & Hname).
  destruct (flight_name info) as [| | |name| | |]; try discriminate Hmatch.
  simpl in Hmatch. apply String.eqb_eq in Hmatch. subst name.
  apply Hno. exists d. repeat split; assumption.
Qed.
Lemma matches_of_app flight a b :
  matches_of flight (a ++ b) = (matches_of flight a ++ matches_of flight b)%list.
Proof. unfold matches_of. apply filter_app. Qed.

Lemma matches_of_cons flight info rest :
  flight_name info = VStr flight →
  matches_of flight (info :: rest) = info :: matches_of flight rest.
Proof.
  intros Hname. unfold matches_of. rewrite filter_cons.
  case_decide as Hmatch; [reflexivity |]. exfalso. apply Hmatch.
  rewrite Hname. simpl. apply String.eqb_refl.
Qed.

(** The matches of a scan for a directory that the root listing has once
    are those of the check of that directory. *)
Lemma scan_matches_of_flight system flight root_items :
  flight ≠ "" →
  root_lists w svc system root_items →
  exactly_one (is_dir flight) root_items →
  matches_of flight (TapisStorageService.scan_system_for_flights w svc system)
  = match TapisStorageService._check_flight_directory w svc system (VStr flight) with
    | Ret (Some info) => [info]
    | _ => []
    end.
Proof.
  intros Hne (root_listing & Hroot & Hresult & Hentries)
         (before & x & after & -> & Hx & Hbefore & Hafter).
  unfold TapisStorageService.scan_system_for_flights.
  rewrite Hroot. simpl. rewrite Hresult. simpl.
  apply Forall_app in Hentries as [Hentries_before Hentries].
  apply Forall_cons in Hentries as [_ Hentries_after].
  rewrite (scan_items_app system before (x :: after) Hentries_before).
  rewrite matches_of_app.
  rewrite (scan_items_others system flight before Hentries_before Hbefore). simpl.
  rewrite (scan_item_flight system flight x Hne Hx).
  destruct (check_flight_directory_returns system (VStr flight)) as ([info|] & -> & Hname).
  - rewrite (matches_of_cons flight info _ (Hname info eq_refl)).
    rewrite (scan_items_others system flight after Hentries_after Hafter). reflexivity.
  - apply scan_items_others; assumption.
Qed.

(** C2, amended.  In the scan of a system whose root listing has the
    flight directory [flight], of a name that is not empty, once, and
    whose listings are made of objects: when the listing of [flight/code]
    has a directory named 'images' and the listing of [flight/code/images],
    in which the name of a file entry is a string, has exactly one file
    entry whose name ends, in any letter case, in .jpg or .jpeg, the scan
    reports exactly one match for the flight, with [image_count = 1]; when
    the listing of [flight/code] has no directory named 'images', the scan
    reports no match for it. *)
Theorem scan_reports_flight system flight root_items code_items :
  flight ≠ "" →
  root_lists w svc system root_items →
  exactly_one (is_dir flight) root_items →
  lists w svc system (flight ++ "/code") code_items →
  (∀ image_items,
     Exists (is_dir "images") code_items →
     lists_files w svc system (flight ++ "/code/images") image_items →
     exactly_one jpeg_file image_items →
     matches_of flight (TapisStorageService.scan_system_for_flights w svc system)
     = [{| flight_name := VStr flight;
           system_id := system;
           images_path := flight ++ "/code/images";
           image_count := 1;
           discovered_at := now w |}])
  ∧ (¬ Exists (is_dir "images") code_items →
     matches_of flight (TapisStorageService.scan_system_for_flights w svc system) = []).
Proof.
  intros Hne Hroot Honce Hcode.
  rewrite (scan_matches_of_flight system flight root_items Hne Hroot Honce).
  split.
  - intros image_items Himages Hlist Hone.
    rewrite (check_flight_directory_match system flight code_items image_items
               Hcode Himages Hlist Hone).
    reflexivity.
  - intros Hnone.
    rewrite (check_flight_directory_no_images system flight code_items Hcode Hnone).
    reflexivity.
Qed.
End Scanner.

(** * Further properties of the code *)

(** ** Restoring the padding of a token segment *)

Lemma length_repeat_eq n : String.length (repeat_eq n) = n.
Proof. induction n as [|n IH]; simpl; congruence. Qed.

(** Lines 66-69 of [app/auth/tapis_oauth2.py] append fewer than four ['=']
    characters, none when the length is already a multiple of four, and
    the length of what they give is a multiple of four. *)
Theorem pad_restores_multiple_of_four payload_b64 :
  (String.length (TapisOAuth2Backend.pad payload_b64) mod 4 = 0)%nat
  ∧ ∃ n, (n < 4)%nat
         ∧ TapisOAuth2Backend.pad payload_b64 = payload_b64 ++ repeat_eq n
         ∧ (n = 0%nat ↔ (String.length payload_b64 mod 4 = 0)%nat).
Proof.
  unfold TapisOAuth2Backend.pad. cbv zeta.
  pose proof (Nat.mod_upper_bound (String.length payload_b64) 4 ltac:(lia)) as Hlt.
  pose proof (Nat.div_mod_eq (String.length payload_b64) 4) as Hdiv.
  destruct (String.length payload_b64 mod 4 =? 0)%nat eqn:Hzero; cbn [negb].
  - apply Nat.eqb_eq in Hzero. split; [exact Hzero |].
    exists 0%nat. split; [lia |]. split; [| tauto].
    cbn [repeat_eq]. clear. induction payload_b64 as [|c s IH]; [reflexivity |].
    rewrite append_cons. congruence.
  - apply Nat.eqb_neq in Hzero. split.
    + rewrite length_append, length_repeat_eq.
      replace (String.length payload_b64 + (4 - String.length payload_b64 mod 4))%nat
        with (4 * (String.length payload_b64 / 4 + 1))%nat by lia.
      rewrite Nat.mul_comm. apply Nat.Div0.mod_mul.
    + exists (4 - String.length payload_b64 mod 4)%nat.
      split; [lia |]. split; [reflexivity | lia].
Qed.

(** ** Running a computation step by step *)

Lemma run_gets {A B} (f : store → A) (k : A → eff B) s : (gets f ≫= k) s = k (f s) s.
Proof. reflexivity. Qed.

Lemma run_modify {B} (f : store → store) (k : unit → eff B) s :
  (modify f ≫= k) s = k tt (f s).
Proof. reflexivity. Qed.

Lemma run_ret {A B} (a : A) (k : A → eff B) s : (mret a ≫= k) s = k a s.
Proof. reflexivity. Qed.

Lemma run_lift {A B} (r : res A) (k : A → eff B) s :
  (lift r ≫= k) s = match r with Ret a => k a s | Raise e => (Raise e, s) end.
Proof. destruct r; reflexivity. Qed.

Lemma run_raise {A B} (e : exn) (k : A → eff B) s : (raise e ≫= k) s = (Raise e, s).
Proof. reflexivity. Qed.

Lemma run_bind {A B} (m : eff A) (k : A → eff B) s :
  (m ≫= k) s = match m s with (Ret a, s1) => k a s1 | (Raise e, s1) => (Raise e, s1) end.
Proof. unfold mbind, eff_bind. destruct (m s) as [[a|e] s1]; reflexivity. Qed.

Lemma run_try {A} (body : eff A) classes handler s :
  try_eff body classes handler s
  = match body s with
    | (Ret a, s1) => (Ret a, s1)
    | (Raise e, s1) => if classes e then handler e s1 else (Raise e, s1)
    end.
Proof. unfold try_eff. destruct (body s) as [[a|e] s1]; reflexivity. Qed.

(** ** The authentication backend *)

Section BackendSafety.
Context `{PyLib}.
Variable (cfg : settings).

(** [_get_or_create_user] writes at most one row of the users' table, and
    only when it returns a user; when it raises nothing is written. *)
Lemma get_or_create_user_run info access_token db :
  (∃ e, TapisOAuth2Backend._get_or_create_user info access_token db = (Raise e, db))
  ∨ TapisOAuth2Backend._get_or_create_user info access_token db = (Ret None, db)
  ∨ ∃ user db',
      TapisOAuth2Backend._get_or_create_user info access_token db = (Ret (Some user), db')
      ∧ (∃ k, users db' !! k = Some user)
      ∧ same users_apart db db'
      ∧ users_grow db db'.
Proof.
  assert (∀ k (u : User.t), users_grow db (set_users (insert k u) db)) as Hgrow.
  { intros k u k' Hk'. cbn [users set_users].
    destruct (decide (k' = k)) as [-> | Hne].
    - rewrite lookup_insert_eq. eauto.
    - rewrite lookup_insert_ne by congruence. exact Hk'. }
  unfold TapisOAuth2Backend._get_or_create_user.
  destruct (truthy (TapisOAuth2Backend.username info)); cbn [negb]; [| right; left; reflexivity].
  rewrite run_bind, run_try, run_gets.
  destruct (users db !! py_str (TapisOAuth2Backend.username info)) as [user|] eqn:Hlookup.
  - right. right. unfold TapisOAuth2Backend._update_user_info. cbv zeta.
    destruct user as [id uname mail first last]. cbn [User.email User.first_name User.last_name].
    destruct (truthy (TapisOAuth2Backend.email info) && _) eqn:Hmail,
             (truthy (TapisOAuth2Backend.given_name info) && _) eqn:Hfirst,
             (truthy (TapisOAuth2Backend.family_name info) && _) eqn:Hlast;
      cbn [orb];
      try (rewrite run_modify; eexists _, _; split; [reflexivity |]; cbn [users set_users];
           split; [eexists; apply lookup_insert_eq |]; split; [reflexivity | apply Hgrow]).
    eexists _, _. split; [reflexivity |].
    split; [eexists; exact Hlookup |]. split; [reflexivity |].
    intros k Hk. exact Hk.
  - unfold raise, only. cbv beta iota. rewrite bool_decide_eq_true_2 by reflexivity.
    unfold TapisOAuth2Backend._create_user_from_tapis_info. cbv zeta.
    rewrite run_lift.
    destruct (create_user_fields _ _ _ _) as [[[[uname mail] first] last]|e].
    + rewrite run_gets.
      destruct (users db !! uname) as [other|] eqn:Hother.
      * left. eexists. reflexivity.
      * right. right. rewrite run_modify. eexists _, _. split; [reflexivity |].
        cbn [users set_users].
        split; [eexists; apply lookup_insert_eq |]. split; [reflexivity | apply Hgrow].
    + left. eexists. reflexivity.
Qed.

(** What a call of [authenticate] does, in every case. *)
Lemma authenticate_run now access_token db :
  ∃ r db',
    TapisOAuth2Backend.authenticate cfg now access_token db = (Ret r, db')
    ∧ (truthy access_token = false ∨ configured (TAPIS_BASE_URL cfg) = false
       ∨ configured (TAPIS_TENANT_ID cfg) = false → r = None)
    ∧ (r = None → db' = db)
    ∧ (∀ user, r = Some user → ∃ k, users db' !! k = Some user)
    ∧ same users_apart db db'
    ∧ users_grow db db'.
Proof.
  assert (∀ m : eff (option User.t), m db = (Ret None, db) →
            ∃ r db', m db = (Ret r, db')
              ∧ (truthy access_token = false ∨ configured (TAPIS_BASE_URL cfg) = false
                 ∨ configured (TAPIS_TENANT_ID cfg) = false → r = None)
              ∧ (r = None → db' = db)
              ∧ (∀ user, r = Some user → ∃ k, users db' !! k = Some user)
              ∧ same users_apart db db'
              ∧ users_grow db db') as Hnone.
  { intros m Hm. exists None, db. split; [exact Hm |].
    split; [intros _; reflexivity |]. split; [reflexivity |].
    split; [discriminate |]. split; [reflexivity |]. intros k Hk. exact Hk. }
  unfold TapisOAuth2Backend.authenticate.
  destruct (truthy access_token) eqn:Htoken; cbn [negb]; [| apply Hnone; reflexivity].
  destruct (configured (TAPIS_BASE_URL cfg)) eqn:Hbase; cbn [negb];
    [| apply Hnone; reflexivity].
  destruct (configured (TAPIS_TENANT_ID cfg)) eqn:Htenant; cbn [negb];
    [| apply Hnone; reflexivity].
  destruct (validate_returns cfg now access_token) as [info Hvalid].
  destruct info as [info|].
  2: { apply Hnone. rewrite run_try, run_lift, Hvalid. reflexivity. }
  destruct (get_or_create_user_run info access_token db)
    as [[e Hrun] | [Hrun | (user & db' & Hrun & Hrow & Hsame & Hgrow)]].
  - apply Hnone. rewrite run_try, run_lift, Hvalid, Hrun. reflexivity.
  - apply Hnone. rewrite run_try, run_lift, Hvalid, Hrun. reflexivity.
  - exists (Some user), db'.
    split; [rewrite run_try, run_lift, Hvalid, Hrun; reflexivity |].
    split; [intros [Hno | [Hno | Hno]]; discriminate Hno |].
    split; [discriminate |].
    split; [intros u [= <-]; exact Hrow |]. split; assumption.
Qed.

(** [authenticate] raises nothing.  It returns no user for an empty token
    and when [TAPIS_BASE_URL] or [TAPIS_TENANT_ID] is not configured.  When
    it returns no user the database is as it was; a user it returns is a
    row of the users' table afterwards.  It writes no other table, and the
    users' table loses no row. *)
Theorem authenticate_outcome now access_token db :
  ∃ r db',
    TapisOAuth2Backend.authenticate cfg now access_token db = (Ret r, db')
    ∧ (truthy access_token = false ∨ configured (TAPIS_BASE_URL cfg) = false
       ∨ configured (TAPIS_TENANT_ID cfg) = false → r = None)
    ∧ (r = None → db' = db)
    ∧ (∀ user, r = Some user → ∃ k, users db' !! k = Some user)
    ∧ same users_apart db db'
    ∧ users_grow db db'.
Proof. apply authenticate_run. Qed.

(** Logging in to an existing account keeps its id and its user name;
    each of the e-mail address and the two names either stays or becomes
    the text of the token's claim, and only of a claim that is not empty;
    no row under another user name is written. *)
Theorem login_keeps_the_account now access_token db user db' info old :
  TapisOAuth2Backend.authenticate cfg now access_token db = (Ret (Some user), db') →
  TapisOAuth2Backend._validate_token_with_tapis cfg now access_token = Ret (Some info) →
  users db !! py_str (TapisOAuth2Backend.username info) = Some old →
  User.id user = User.id old
  ∧ User.username user = User.username old
  ∧ (User.email user = User.email old
     ∨ (truthy (TapisOAuth2Backend.email info) = true
        ∧ User.email user = py_str (TapisOAuth2Backend.email info)))
  ∧ (User.first_name user = User.first_name old
     ∨ (truthy (TapisOAuth2Backend.given_name info) = true
        ∧ User.first_name user = py_str (TapisOAuth2Backend.given_name info)))
  ∧ (User.last_name user = User.last_name old
     ∨ (truthy (TapisOAuth2Backend.family_name info) = true
        ∧ User.last_name user = py_str (TapisOAuth2Backend.family_name info)))
  ∧ (∀ k, k ≠ User.username old → users db' !! k = users db !! k).
Proof.
  intros Hrun Hvalid Hold. unfold TapisOAuth2Backend.authenticate in Hrun.
  destruct (truthy access_token); cbn [negb] in Hrun; [| discriminate Hrun].
  destruct (configured (TAPIS_BASE_URL cfg)); cbn [negb] in Hrun; [| discriminate Hrun].
  destruct (configured (TAPIS_TENANT_ID cfg)); cbn [negb] in Hrun; [| discriminate Hrun].
  rewrite run_try, run_lift, Hvalid in Hrun.
  unfold TapisOAuth2Backend._get_or_create_user in Hrun.
  destruct (truthy (TapisOAuth2Backend.username info)); cbn [negb] in Hrun;
    [| discriminate Hrun].
  rewrite run_bind, run_try, run_gets, Hold in Hrun.
  unfold TapisOAuth2Backend._update_user_info in Hrun. cbv zeta in Hrun.
  destruct old as [id uname mail first last].
  cbn [User.id User.username User.email User.first_name User.last_name] in *.
  destruct (truthy (TapisOAuth2Backend.email info)) eqn:Hmail,
           (truthy (TapisOAuth2Backend.given_name info)) eqn:Hfirst,
           (truthy (TapisOAuth2Backend.family_name info)) eqn:Hlast;
    cbn [andb] in Hrun;
    repeat match type of Hrun with
           | context [negb (eq_str ?claim ?field)] =>
               destruct (negb (eq_str claim field))
           end;
    cbn [orb] in Hrun; rewrite ?run_modify in Hrun;
    injection Hrun as <- <-; cbn;
    (split; [reflexivity |]); (split; [reflexivity |]);
    (split; [tauto |]); (split; [tauto |]); (split; [tauto |]);
    intros k Hk; rewrite ?lookup_insert_ne by congruence; reflexivity.
Qed.
End BackendSafety.

(** ** The callback view *)

Section CallbackOutcome.
Context `{PyLib}.
Variable (cfg : settings) (w : world).

(** A [try] block whose handler for [Exception] returns, returns. *)
Lemma try_eff_returns {A} (body : eff A) (v : A) s :
  ∃ r s', try_eff body Exception (λ _, mret v) s = (Ret r, s').
Proof. rewrite run_try. destruct (body s) as [[a|e] s1]; simpl; eauto. Qed.

Lemma store_user_tokens_returns user client token_data s :
  ∃ s', TapisOAuth2CallbackView._store_user_tokens w user client token_data s = (Ret tt, s').
Proof.
  unfold TapisOAuth2CallbackView._store_user_tokens.
  match goal with |- context [try_eff ?body _ _] =>
    destruct (try_eff_returns body tt s) as ([] & s' & ->) end.
  eauto.
Qed.

Lemma trigger_flight_discovery_returns user client s :
  ∃ s', TapisOAuth2CallbackView._trigger_flight_discovery w user client s = (Ret tt, s').
Proof.
  unfold TapisOAuth2CallbackView._trigger_flight_discovery.
  match goal with |- context [try_eff ?body _ _] =>
    destruct (try_eff_returns body tt s) as ([] & s' & ->) end.
  eauto.
Qed.

Lemma exchange_code_for_tokens_returns client code :
  ∃ token_data, TapisOAuth2CallbackView._exchange_code_for_tokens w client code = Ret token_data.
Proof. unfold TapisOAuth2CallbackView._exchange_code_for_tokens. apply try_except_all. Qed.

(** The response [HttpResponseRedirect] gives, when it gives one. *)
Lemma http_response_redirect_ret url r :
  http_response_redirect url = Ret r → r = HttpResponseRedirect url.
Proof.
  unfold http_response_redirect. destruct (urlparse_scheme url) as [scheme|e]; simpl;
    [| discriminate].
  destruct (negb (scheme =? "") && negb (bool_decide (scheme ∈ allowed_schemes)));
    congruence.
Qed.

(** Once the state row is found and not expired, the callback redirects,
    or answers 401 or 500 without a write, or raises without a write, or
    raises at the redirect, after all its writes. *)
Lemma complete_outcome state state_obj client code db :
  (∃ r db', TapisOAuth2CallbackView.complete cfg w state state_obj client code db
            = (Ret r, db')
            ∧ http_response_redirect (redirect_url_of state_obj) = Ret r)
  ∨ (∃ body status,
       TapisOAuth2CallbackView.complete cfg w state state_obj client code db
       = (Ret (JsonResponse body status), db)
       ∧ (status = 401 ∨ status = 500)%nat)
  ∨ (∃ e, TapisOAuth2CallbackView.complete cfg w state state_obj client code db
          = (Raise e, db))
  ∨ (∃ e db', TapisOAuth2CallbackView.complete cfg w state state_obj client code db
              = (Raise e, db')
              ∧ http_response_redirect (redirect_url_of state_obj) = Raise e
              ∧ states db' !! state = None
              ∧ is_Some (session db')).
Proof.
  unfold TapisOAuth2CallbackView.complete. cbv zeta.
  destruct (exchange_code_for_tokens_returns client code) as [token_data ->].
  rewrite run_lift.
  destruct (truthy token_data); cbn [negb]; [| right; left; eauto].
  rewrite run_lift. destruct (keys token_data) as [ks|e]; [| right; right; left; eauto].
  rewrite run_lift. destruct (has_key token_data "access_token") as [[]|e]; cbn [negb];
    [| right; left; eauto | right; right; left; eauto].
  rewrite run_lift.
  destruct (subscript token_data "access_token") as [access_token_data|e];
    [| right; right; left; eauto].
  destruct (TapisOAuth2CallbackView.jwt_of access_token_data) as [jwt_token|];
    [| right; left; eauto].
  rewrite run_lift. destruct (slice50 jwt_token) as [[]|e]; [| right; right; left; eauto].
  rewrite run_bind.
  destruct (authenticate_run cfg (now w) jwt_token db)
    as (r & db1 & -> & _ & Hnone & _).
  destruct r as [user|]; [| right; left; rewrite (Hnone eq_refl); eauto].
  rewrite run_modify, run_bind.
  pose proof (store_user_tokens_keeps_session w user client token_data
                (set_session (Some (User.id user)) db1)) as Hsession2.
  destruct (store_user_tokens_returns user client token_data
              (set_session (Some (User.id user)) db1)) as [s2 Hs2].
  rewrite Hs2 in Hsession2 |- *. rewrite run_bind.
  pose proof (trigger_keeps_tokens w user client s2) as Hsession3.
  destruct (trigger_flight_discovery_returns user client s2) as [s3 Hs3].
  rewrite Hs3 in Hsession3 |- *.
  rewrite run_modify. unfold lift. fold (redirect_url_of state_obj).
  destruct (http_response_redirect (redirect_url_of state_obj)) as [r|e] eqn:Hredirect.
  - left. eauto.
  - right. right. right. eexists _, _. split; [reflexivity |]. split; [reflexivity |].
    split; [apply lookup_delete_eq |].
    unfold same in Hsession2, Hsession3. cbn [snd] in Hsession2, Hsession3.
    injection Hsession3 as _ Hsession3. cbn. rewrite Hsession3, Hsession2. cbn. eauto.
Qed.

(** The two [except] clauses turn an exception into a 500 answer and keep
    the writes made before it. *)
Lemma guarded_run (body : eff response) s :
  match body s with
  | (Ret r, s') => TapisOAuth2CallbackView.guarded body s = (Ret r, s')
  | (Raise e, s') =>
      ∃ message, TapisOAuth2CallbackView.guarded body s = (Ret (JsonResponse message 500), s')
  end.
Proof.
  unfold TapisOAuth2CallbackView.guarded. rewrite !run_try.
  destruct (body s) as [[r|e] s']; [reflexivity |].
  destruct (only KeyError e); simpl; eauto.
Qed.

(** What a callback does, in every case. *)
Lemma callback_run request db :
  ∃ r db',
    TapisOAuth2CallbackView.get cfg w request db = (Ret r, db')
    ∧ (redirected request db r
       ∨ (r = state_expired
          ∧ ∃ s, TapisOAuth2CallbackView.state request = Some s
                 ∧ db' = set_states (delete s) db)
       ∨ (∃ body status,
            r = JsonResponse body status
            ∧ (status = 400 ∨ status = 401 ∨ status = 500)%nat
            ∧ db' = db)
       ∨ (∃ message,
            r = JsonResponse message 500 ∧ stopped_at_redirect request db db')).
Proof.
  unfold TapisOAuth2CallbackView.get.
  match goal with |- context [TapisOAuth2CallbackView.guarded ?body] =>
    set (b := body) end.
  assert (∀ x, b db = x → callback_body_outcome request db x) as Hbody.
  { intros x Hx. subst b. unfold callback_body_outcome.
    destruct (given (TapisOAuth2CallbackView.error request));
      [subst x; right; right; left; eauto |].
    destruct (given (TapisOAuth2CallbackView.code request)) eqn:Hcode; cbn [negb orb] in Hx;
      [| subst x; right; right; left; eauto].
    destruct (given (TapisOAuth2CallbackView.state request)) eqn:Hstate; cbn [negb] in Hx;
      [| subst x; right; right; left; eauto].
    apply given_Some in Hstate as (s & Hs & _ & Hdefault).
    cbv zeta in Hx. rewrite Hdefault, run_gets in Hx.
    destruct (states db !! s) as [state_obj|] eqn:Hrow;
      [| subst x; right; right; left; eauto].
    destruct (TapisOAuth2State.is_expired (now w) state_obj).
    { rewrite run_modify in Hx. subst x. right. left. exists s. split; [reflexivity | exact Hs]. }
    rewrite run_bind in Hx. unfold TapisOAuth2CallbackView.client_of in Hx.
    rewrite run_gets in Hx.
    destruct (clients db !! TapisOAuth2State.client state_obj) as [client|];
      [| subst x; right; right; right; left; eauto].
    unfold mret at 1, eff_ret at 1 in Hx.
    destruct (complete_outcome s state_obj client
                (default "" (TapisOAuth2CallbackView.code request)) db)
      as [(r & db' & Hrun & Hredirect)
         | [(body & status & Hrun & Hstatus)
           | [(e & Hrun) | (e & db' & Hrun & Hredirect & Hgone & Hsession)]]];
      rewrite Hrun in Hx; subst x.
    - left. exists r, db'. split; [reflexivity |]. exists s, state_obj.
      repeat split; try assumption.
      apply http_response_redirect_ret. exact Hredirect.
    - right. right. left. exists body, status. split; [reflexivity | tauto].
    - right. right. right. left. eauto.
    - right. right. right. right. exists e, db'. split; [reflexivity |].
      exists s, state_obj, e. repeat split; assumption. }
  pose proof (guarded_run b db) as Hguard.
  destruct (Hbody _ eq_refl)
    as [(r & db' & Hb & Hr)
       | [(s & Hb & Hs)
         | [(body & status & Hb & Hst) | [(e & Hb) | (e & db' & Hb & Hstopped)]]]];
    rewrite Hb in Hguard.
  - eexists _, _. split; [exact Hguard |]. left. exact Hr.
  - eexists _, _. split; [exact Hguard |]. right. left. eauto.
  - eexists _, _. split; [exact Hguard |]. right. right. left. eauto.
  - destruct Hguard as [message Hguard].
    eexists _, _. split; [exact Hguard |]. right. right. left.
    exists message, 500%nat. split; [reflexivity |]. split; [tauto | reflexivity].
  - destruct Hguard as [message Hguard].
    eexists _, _. split; [exact Hguard |]. right. right. right. eauto.
Qed.

(** The callback view raises nothing: it redirects, to the target of the
    state row, or answers 400, 401 or 500.  A callback that does not
    redirect writes nothing, with two exceptions: the answer 'OAuth2 state
    expired' deletes the expired state row, and a callback whose target
    [HttpResponseRedirect] refuses is answered 500 after all its writes,
    with the user logged in and the state row deleted.  So a state whose
    callback failed for another reason can be presented again. *)
Theorem callback_outcome request db :
  ∃ r db',
    TapisOAuth2CallbackView.get cfg w request db = (Ret r, db')
    ∧ (redirected request db r
       ∨ (r = state_expired
          ∧ ∃ s, TapisOAuth2CallbackView.state request = Some s
                 ∧ db' = set_states (delete s) db)
       ∨ (∃ body status,
            r = JsonResponse body status
            ∧ (status = 400 ∨ status = 401 ∨ status = 500)%nat
            ∧ db' = db)
       ∨ (∃ message,
            r = JsonResponse message 500 ∧ stopped_at_redirect request db db')).
Proof. apply callback_run. Qed.
End CallbackOutcome.

(** ** The authorize view *)

Section AuthorizeOutcome.
Context `{PyLib}.
Variable (w : world).

(** What a call of the authorize view does, in every case. *)
Lemma authorize_run request client_id db :
  ∃ r db',
    TapisOAuth2AuthorizeView.get w request client_id db = (Ret r, db')
    ∧ ((∃ client row,
          clients db !! client_id = Some client
          ∧ TapisOAuth2Client.is_active client = true
          ∧ state_row_added w request client row db db'
          ∧ http_response_redirect (auth_url_of w client) = Ret r
          ∧ r = HttpResponseRedirect (auth_url_of w client))
       ∨ (r = JsonResponse [("error", VStr "Failed to initiate OAuth2 flow")] 500
          ∧ db' = db
          ∧ no_state_row w request client_id db)
       ∨ (∃ client row e,
            clients db !! client_id = Some client
            ∧ TapisOAuth2Client.is_active client = true
            ∧ state_row_added w request client row db db'
            ∧ http_response_redirect (auth_url_of w client) = Raise e
            ∧ r = JsonResponse [("error", VStr "Failed to initiate OAuth2 flow")] 500)).
Proof.
  unfold TapisOAuth2AuthorizeView.get, get_object_or_404, no_state_row.
  rewrite run_try, run_bind, run_gets.
  destruct (clients db !! client_id) as [client|] eqn:Hclient.
  2: { eexists _, _. split; [reflexivity |]. right. left. repeat split. left. reflexivity. }
  destruct (TapisOAuth2Client.is_active client) eqn:Hactive.
  2: { eexists _, _. split; [reflexivity |]. right. left. repeat split. right. left. eauto. }
  unfold mret at 1, eff_ret at 1. cbv zeta. rewrite run_lift.
  destruct (datetime_add (now w) (timedelta_minutes 10)) as [expires_at|e] eqn:Hadd.
  2: { eexists _, _. split; [reflexivity |]. right. left. repeat split.
       right. right. right. left. eauto. }
  rewrite run_gets.
  destruct (states db !! token_urlsafe w) as [other|] eqn:Hstate.
  { eexists _, _. split; [reflexivity |]. right. left. repeat split.
    right. right. left. eauto. }
  unfold TapisOAuth2State.fits. cbn [TapisOAuth2State.state TapisOAuth2State.redirect_after_auth].
  destruct (String.length (token_urlsafe w) <=? 128)%nat eqn:Hlen1.
  2: { apply Nat.leb_gt in Hlen1. cbn [andb negb]. rewrite run_raise.
       eexists _, _. split; [reflexivity |]. right. left. repeat split.
       right. right. right. right. left. exact Hlen1. }
  destruct (String.length
              (default "/dashboard/" (TapisOAuth2AuthorizeView.redirect_after request))
            <=? 200)%nat eqn:Hlen2.
  2: { apply Nat.leb_gt in Hlen2. cbn [andb negb]. rewrite run_raise.
       eexists _, _. split; [reflexivity |]. right. left. repeat split.
       right. right. right. right. right. exact Hlen2. }
  apply Nat.leb_le in Hlen1, Hlen2. cbn [andb negb]. rewrite run_modify. unfold lift.
  fold (auth_url_of w client).
  destruct (http_response_redirect (auth_url_of w client)) as [r|e] eqn:Hredirect.
  - eexists _, _. split; [reflexivity |]. left. eexists client, _.
    split; [reflexivity || assumption |]. split; [reflexivity || assumption |].
    split; [repeat split; reflexivity || assumption |].
    split; [exact Hredirect |]. apply http_response_redirect_ret. exact Hredirect.
  - eexists _, _. split; [reflexivity |]. right. right. eexists client, _, e.
    split; [reflexivity || assumption |]. split; [reflexivity || assumption |].
    split; [repeat split; reflexivity || assumption |].
    split; [exact Hredirect | reflexivity].
Qed.

(** The authorize view raises nothing.  It redirects to the client's
    authorization URL with the new state in the query, after adding exactly
    one state row, under a state value that had no row; or it answers 500.
    With the answer 500 nothing is written when the client is unknown or
    not active (the 404 of [get_object_or_404] is raised inside the [try]
    block), when the state value is already in use, when the expiry is
    past the last date, and when the state value has more than 128
    characters or the target after the login more than 200; the state row
    stays written when [HttpResponseRedirect] refuses the authorization
    URL of the client. *)
Theorem authorize_outcome request client_id db :
  ∃ r db',
    TapisOAuth2AuthorizeView.get w request client_id db = (Ret r, db')
    ∧ ((∃ client row,
          clients db !! client_id = Some client
          ∧ TapisOAuth2Client.is_active client = true
          ∧ state_row_added w request client row db db'
          ∧ http_response_redirect (auth_url_of w client) = Ret r
          ∧ r = HttpResponseRedirect (auth_url_of w client))
       ∨ (r = JsonResponse [("error", VStr "Failed to initiate OAuth2 flow")] 500
          ∧ db' = db
          ∧ no_state_row w request client_id db)
       ∨ (∃ client row e,
            clients db !! client_id = Some client
            ∧ TapisOAuth2Client.is_active client = true
            ∧ state_row_added w request client row db db'
            ∧ http_response_redirect (auth_url_of w client) = Raise e
            ∧ r = JsonResponse [("error", VStr "Failed to initiate OAuth2 flow")] 500)).
Proof. apply authorize_run. Qed.
End AuthorizeOutcome.

(** ** The refresh view *)

Section RefreshOutcome.
Context `{PyLib}.
Variable (w : world).

(** Writing a token row either writes it or raises without a write. *)
Lemma save_token_run key token s :
  save_token key token s
  = (Ret tt, set_tokens (insert key (TapisOAuth2Token.prepared token)) s)
  ∨ ∃ e, save_token key token s = (Raise e, s).
Proof.
  unfold save_token.
  destruct (TapisOAuth2Token.not_null token); cbn [negb]; [| right; eauto].
  destruct (TapisOAuth2Token.fits token); cbn [negb]; [| right; eauto].
  left. reflexivity.
Qed.

(** The refresh view raises nothing, and it writes the token row only when
    it answers 200.  An unknown or inactive client is answered 500; without
    a token row for the caller and the client the answer is 404; with a
    row whose refresh token is empty it is 400, whatever the token endpoint
    would answer; when the token endpoint gives nothing the answer is 500;
    with a response of the endpoint the answer is 200 and the row is
    written, unless an assignment of lines 305-316 raises or the database
    refuses the row, which is answered 500. *)
Theorem refresh_outcome user client_id db :
  ∃ r db',
    TapisOAuth2TokenRefreshView.post w user client_id db = (Ret r, db')
    ∧ (db' = db ∨ ∃ body, r = Response body 200)
    ∧ (clients db !! client_id = None
       ∨ (∃ client, clients db !! client_id = Some client
                    ∧ TapisOAuth2Client.is_active client = false)
       → r = Response [("error", VStr "Failed to refresh token")] 500 ∧ db' = db)
    ∧ (∀ client,
         clients db !! client_id = Some client →
         TapisOAuth2Client.is_active client = true →
         let key := (User.id user, TapisOAuth2Client.client_id client) in
         (tokens db !! key = None →
          r = Response [("error", VStr "No token found for this client")] 404 ∧ db' = db)
         ∧ (∀ token_obj,
              tokens db !! key = Some token_obj →
              (truthy (TapisOAuth2Token.refresh_token token_obj) = false →
               r = Response [("error", VStr "No refresh token available")] 400 ∧ db' = db)
              ∧ (truthy (TapisOAuth2Token.refresh_token token_obj) = true →
                 ∃ new_token_data,
                   TapisOAuth2TokenRefreshView._refresh_access_token w client
                     (TapisOAuth2Token.refresh_token token_obj) = Ret new_token_data
                   ∧ (truthy new_token_data = false →
                      r = Response [("error", VStr "Failed to refresh token")] 500
                      ∧ db' = db)
                   ∧ (truthy new_token_data = true →
                      match TapisOAuth2TokenRefreshView.refreshed w token_obj
                              new_token_data with
                      | Ret token_obj' =>
                          if TapisOAuth2Token.not_null token_obj'
                             && TapisOAuth2Token.fits token_obj'
                          then r = Response
                                     [("message", VStr "Token refreshed successfully");
                                      ("expires_at",
                                       match TapisOAuth2Token.expires_at token_obj' with
                                       | Some t => VStr (isoformat t)
                                       | None => VNone
                                       end)] 200
                               ∧ db' = set_tokens
                                         (insert key (TapisOAuth2Token.prepared token_obj'))
                                         db
                          else r = Response [("error", VStr "Failed to refresh token")] 500
                               ∧ db' = db
                      | Raise _ =>
                          r = Response [("error", VStr "Failed to refresh token")] 500
                          ∧ db' = db
                      end)))).
Proof.
  unfold TapisOAuth2TokenRefreshView.post, get_object_or_404.
  rewrite run_try, run_bind, run_gets.
  destruct (clients db !! client_id) as [client|] eqn:Hclient.
  2: { eexists _, _. split; [reflexivity |]. split; [left; reflexivity |].
       split; [intros _; split; reflexivity |]. intros client Hclient'.
       discriminate Hclient'. }
  destruct (TapisOAuth2Client.is_active client) eqn:Hactive.
  2: { eexists _, _. split; [reflexivity |]. split; [left; reflexivity |].
       split; [intros _; split; reflexivity |]. intros client' [= <-] Hon. congruence. }
  assert (∀ (r : response) (db' : store),
            None = Some client
            ∨ (∃ client0, Some client = Some client0
                          ∧ TapisOAuth2Client.is_active client0 = false) →
            r = Response [("error", VStr "Failed to refresh token")] 500 ∧ db' = db)
    as Hknown.
  { intros r db' [Hnone | (client0 & [= <-] & Hoff)]; congruence. }
  unfold mret at 1, eff_ret at 1. cbv zeta. rewrite run_gets.
  destruct (tokens db !! (User.id user, TapisOAuth2Client.client_id client))
    as [token_obj|] eqn:Htoken.
  2: { eexists _, _. split; [reflexivity |]. split; [left; reflexivity |].
       split; [intros [Hno | (c & [= <-] & Hoff)]; congruence |].
       intros client' [= <-] _. rewrite Htoken.
       split; [intros _; split; reflexivity |]. intros t Ht. discriminate Ht. }
  destruct (truthy (TapisOAuth2Token.refresh_token token_obj)) eqn:Hrefresh; cbn [negb].
  2: { eexists _, _. split; [reflexivity |]. split; [left; reflexivity |].
       split; [intros [Hno | (c & [= <-] & Hoff)]; congruence |].
       intros client' [= <-] _. rewrite Htoken.
       split; [intros Hno; discriminate Hno |]. intros t [= <-]. rewrite Hrefresh.
       split; [intros _; split; reflexivity | intros Hyes; discriminate Hyes]. }
  rewrite run_lift.
  assert (∃ new_token_data,
            TapisOAuth2TokenRefreshView._refresh_access_token w client
              (TapisOAuth2Token.refresh_token token_obj) = Ret new_token_data)
    as [new_token_data Hnew]
    by (unfold TapisOAuth2TokenRefreshView._refresh_access_token; apply try_except_all).
  rewrite Hnew.
  match goal with |- ∃ r db', ?run = _ ∧ _ => set (outcome := run) end.
  assert (∃ r db', outcome = (Ret r, db')
            ∧ (db' = db ∨ ∃ body, r = Response body 200)
            ∧ (truthy new_token_data = false →
               r = Response [("error", VStr "Failed to refresh token")] 500 ∧ db' = db)
            ∧ (truthy new_token_data = true →
               match TapisOAuth2TokenRefreshView.refreshed w token_obj new_token_data with
               | Ret token_obj' =>
                   if TapisOAuth2Token.not_null token_obj'
                      && TapisOAuth2Token.fits token_obj'
                   then r = Response
                              [("message", VStr "Token refreshed successfully");
                               ("expires_at",
                                match TapisOAuth2Token.expires_at token_obj' with
                                | Some t => VStr (isoformat t)
                                | None => VNone
                                end)] 200
                        ∧ db' = set_tokens
                                  (insert (User.id user, TapisOAuth2Client.client_id client)
                                     (TapisOAuth2Token.prepared token_obj'))
                                  db
                   else r = Response [("error", VStr "Failed to refresh token")] 500
                        ∧ db' = db
               | Raise _ =>
                   r = Response [("error", VStr "Failed to refresh token")] 500 ∧ db' = db
               end)) as (r & db' & Hrun & Hwrites & Hfailed & Hdone).
  { subst outcome.
    destruct (truthy new_token_data) eqn:Htruthy; cbn [negb].
    2: { eexists _, _. split; [reflexivity |]. split; [left; reflexivity |].
         split; [intros _; split; reflexivity | intros Hyes; discriminate Hyes]. }
    rewrite run_lift.
    destruct (TapisOAuth2TokenRefreshView.refreshed w token_obj new_token_data)
      as [token_obj'|e].
    2: { eexists _, _. split; [reflexivity |]. split; [left; reflexivity |].
         split; [intros Hno; discriminate Hno | intros _; split; reflexivity]. }
    rewrite run_bind. unfold save_token.
    destruct (TapisOAuth2Token.not_null token_obj'); cbn [negb andb].
    2: { eexists _, _. split; [reflexivity |]. split; [left; reflexivity |].
         split; [intros Hno; discriminate Hno | intros _; split; reflexivity]. }
    destruct (TapisOAuth2Token.fits token_obj'); cbn [negb].
    2: { eexists _, _. split; [reflexivity |]. split; [left; reflexivity |].
         split; [intros Hno; discriminate Hno | intros _; split; reflexivity]. }
    eexists _, _. split; [reflexivity |]. split; [right; eauto |].
    split; [intros Hno; discriminate Hno | intros _; split; reflexivity]. }
  exists r, db'. split; [exact Hrun |]. split; [exact Hwrites |].
  split; [intros [Hno | (c & [= <-] & Hoff)]; congruence |].
  intros client' [= <-] _. rewrite Htoken.
  split; [intros Hno; discriminate Hno |]. intros t [= <-]. rewrite Hrefresh.
  split; [intros Hno; discriminate Hno |]. intros _.
  exists new_token_data. split; [exact Hnew |]. split; assumption.
Qed.
End RefreshOutcome.

(** ** The cooldown of the discovery trigger *)

Section Cooldown.
Context `{PyLib}.

(** The trigger when the task is queued. *)
Lemma trigger_run_dispatched w user client db task :
  TapisUserPreferences.should_run_auto_discovery (now w) (preferences_of db user) = true →
  celery_delay w (User.id user) (TapisOAuth2Client.client_id client) = Ret task →
  TapisOAuth2CallbackView._trigger_flight_discovery w user client db
  = (Ret tt,
     add_event (LastDiscoveryUpdated (User.id user) (now w))
       (set_preferences
          (alter (TapisUserPreferences.set_last_auto_discovery (Some (now w))) (User.id user))
          (add_event (TaskDispatched (User.id user) (TapisOAuth2Client.client_id client))
             (with_preferences db user)))).
Proof.
  intros Hrun Hqueue. unfold TapisOAuth2CallbackView._trigger_flight_discovery.
  rewrite run_try, run_bind, get_or_create_for_user_run, Hrun. cbn [negb].
  rewrite run_try, run_lift, Hqueue. reflexivity.
Qed.

(** The trigger when the preferences do not permit the scan. *)
Lemma trigger_run_skipped w user client db :
  TapisUserPreferences.should_run_auto_discovery (now w) (preferences_of db user) = false →
  TapisOAuth2CallbackView._trigger_flight_discovery w user client db
  = (Ret tt, with_preferences db user).
Proof.
  intros Hrun. unfold TapisOAuth2CallbackView._trigger_flight_discovery.
  rewrite run_try, run_bind, get_or_create_for_user_run, Hrun. reflexivity.
Qed.

(** After a login whose trigger has queued the scan at time [now w], a
    login at [now w'] triggers nothing while [now w' - now w] is below the
    cooldown of the user's preferences, and queues the scan again once it
    is not (the flag [auto_discover_on_login] being what permitted the
    first scan). *)
Theorem second_login_within_cooldown w w' user client db task :
  TapisUserPreferences.should_run_auto_discovery (now w) (preferences_of db user) = true →
  celery_delay w (User.id user) (TapisOAuth2Client.client_id client) = Ret task →
  let db1 := (TapisOAuth2CallbackView._trigger_flight_discovery w user client db).2 in
  let cooldown :=
    timedelta_hours (TapisUserPreferences.discovery_cooldown_hours (preferences_of db user)) in
  ((now w' - now w < cooldown)%Z →
     TapisOAuth2CallbackView._trigger_flight_discovery w' user client db1 = (Ret tt, db1))
  ∧ ((cooldown ≤ now w' - now w)%Z →
     ∀ task', celery_delay w' (User.id user) (TapisOAuth2Client.client_id client) = Ret task' →
       events (TapisOAuth2CallbackView._trigger_flight_discovery w' user client db1).2
       = (events db1 ++ [TaskDispatched (User.id user) (TapisOAuth2Client.client_id client);
                         LastDiscoveryUpdated (User.id user) (now w')])%list).
Proof.
  intros Hrun Hqueue. cbv zeta.
  rewrite (trigger_run_dispatched w user client db task Hrun Hqueue). cbn [snd].
  set (db1 := add_event _ _).
  assert (preferences db1 !! User.id user
          = Some (TapisUserPreferences.set_last_auto_discovery (Some (now w))
                    (preferences_of db user))) as Hrow.
  { subst db1. cbn [preferences add_event set_preferences].
    rewrite lookup_alter_eq, with_preferences_lookup. reflexivity. }
  assert (preferences_of db1 user
          = TapisUserPreferences.set_last_auto_discovery (Some (now w))
              (preferences_of db user)) as Hprefs.
  { unfold preferences_of at 1. rewrite Hrow. reflexivity. }
  assert (with_preferences db1 user = db1) as Hwith.
  { unfold with_preferences. rewrite Hrow. reflexivity. }
  assert (TapisUserPreferences.auto_discover_on_login (preferences_of db user) = true)
    as Hflag.
  { unfold TapisUserPreferences.should_run_auto_discovery in Hrun.
    destruct (TapisUserPreferences.auto_discover_on_login (preferences_of db user));
      [reflexivity | discriminate Hrun]. }
  split.
  - intros Hsoon. rewrite trigger_run_skipped; [rewrite Hwith; reflexivity |].
    rewrite Hprefs. unfold TapisUserPreferences.should_run_auto_discovery.
    cbn [TapisUserPreferences.auto_discover_on_login
           TapisUserPreferences.set_last_auto_discovery
           TapisUserPreferences.last_auto_discovery
           TapisUserPreferences.discovery_cooldown_hours].
    rewrite Hflag. cbn [negb].
    destruct (Z.ltb_spec (now w' - now w) (timedelta_hours
      (TapisUserPreferences.discovery_cooldown_hours (preferences_of db user))));
      [reflexivity | lia].
  - intros Hlate task' Hqueue'.
    rewrite (trigger_run_dispatched w' user client db1 task'); [| | exact Hqueue'].
    + cbn [snd events add_event set_preferences]. rewrite Hwith, <- app_assoc. reflexivity.
    + rewrite Hprefs. unfold TapisUserPreferences.should_run_auto_discovery.
      cbn [TapisUserPreferences.auto_discover_on_login
             TapisUserPreferences.set_last_auto_discovery
             TapisUserPreferences.last_auto_discovery
             TapisUserPreferences.discovery_cooldown_hours].
      rewrite Hflag. cbn [negb].
      destruct (Z.ltb_spec (now w' - now w) (timedelta_hours
        (TapisUserPreferences.discovery_cooldown_hours (preferences_of db user))));
        [lia | reflexivity].
Qed.
End Cooldown.

(** ** What a scan reports *)

Section ScanReports.
Context `{PyLib}.
Variable (w : world) (svc : TapisStorageService.t).

(** A match of the directory check is for the system and the directory it
    was asked about, and counts at least one image. *)
Lemma check_flight_directory_match_inv system name info :
  TapisStorageService._check_flight_directory w svc system name = Ret (Some info) →
  flight_name info = name
  ∧ system_id info = system
  ∧ images_path info = py_str name ++ "/code/images"
  ∧ (1 ≤ image_count info)%nat
  ∧ discovered_at info = now w.
Proof.
  unfold TapisStorageService._check_flight_directory. cbv zeta. intros Hrun.
  apply try_except_ret_inv in Hrun as [Hrun | (e & _ & _ & Hrun)]; [| discriminate Hrun].
  destruct (TapisStorageService._make_request _ _ _ _ _) as [code_listing|e] in Hrun.
  2: { destruct (only RequestException e); discriminate Hrun. }
  res_inv; try discriminate.
  match goal with Hinner : try_except _ _ _ = Ret (Some info) |- _ =>
    apply try_except_ret_inv in Hinner as [Hinner | (e & _ & _ & Hinner)];
      [| discriminate Hinner];
    res_inv; try discriminate
  end.
  subst info. cbn.
  match goal with Hcount : (0 <? _)%nat = true |- _ => apply Nat.ltb_lt in Hcount end.
  repeat split; [lia].
Qed.

Lemma scan_item_match_inv system item info :
  TapisStorageService.scan_item w svc system item = Ret (Some info) →
  scanned_flight w system info.
Proof.
  unfold TapisStorageService.scan_item. intros Hrun.
  res_inv; try discriminate.
  match goal with Hcheck : TapisStorageService._check_flight_directory _ _ _ _ = _ |- _ =>
    apply check_flight_directory_match_inv in Hcheck
      as (Hname & Hsystem & Hpath & Hcount & Htime) end.
  unfold scanned_flight. rewrite Hname. repeat split; assumption.
Qed.

Lemma scan_items_scanned system items :
  Forall (scanned_flight w system) (TapisStorageService.scan_items w svc system items).
Proof.
  induction items as [|item rest IH]; cbn [TapisStorageService.scan_items]; [constructor |].
  destruct (TapisStorageService.scan_item w svc system item) as [[info|]|e] eqn:Hitem.
  - constructor; [apply (scan_item_match_inv system item), Hitem | exact IH].
  - exact IH.
  - constructor.
Qed.

(** Whatever the files API answers, every match a scan reports is for the
    scanned system, is named after a directory with a non-empty name, has
    the path [<name>/code/images], counts at least one image and carries
    the time of the scan. *)
Theorem scan_reports_scanned_flights system :
  Forall (scanned_flight w system)
    (TapisStorageService.scan_system_for_flights w svc system).
Proof.
  unfold TapisStorageService.scan_system_for_flights.
  match goal with |- context [match ?x with _ => _ end] => destruct x as [items|e] end.
  - apply scan_items_scanned.
  - constructor.
Qed.
End ScanReports.

(** ** The results of a discovery *)

Section DiscoveryResults.
Context `{PyLib}.
Variable (w : world).

(** One turn of the creation loop, with the project it creates. *)
Lemma create_one_accounts svc user info rs db :
  TapisFlightDiscoveryService.create_one svc user info rs db = (Ret rs, db)
  ∨ ∃ project task,
      TapisFlightDiscoveryService.create_one svc user info rs db
      = (Ret (TapisFlightDiscoveryService.add_created project info rs),
         set_tasks (λ ts, ts ++ [task])%list
           (set_projects (λ ps, ps ++ [project])%list db))
      ∧ entry_of_project (User.id (TapisStorageService.user svc))
          {| cp_project_id := Project.id project;
             cp_project_name := Project.name project;
             cp_flight_name := flight_name info;
             cp_system_id := system_id info;
             cp_image_count := image_count info |} project
      ∧ task_of_project project task.
Proof.
  assert (∃ o, TapisFlightDiscoveryService._find_existing_project user info db = (Ret o, db))
    as [o Hfind].
  { unfold TapisFlightDiscoveryService._find_existing_project. rewrite run_gets. eauto. }
  unfold TapisFlightDiscoveryService.create_one.
  rewrite !run_try, !run_bind, Hfind.
  destruct o as [found|].
  - left. reflexivity.
  - right. eexists _, _. split; [reflexivity |]. split; [| reflexivity].
    repeat split.
Qed.

(** The creation loop appends projects and tasks, one of each for every
    entry it adds to [created_projects]. *)
Lemma create_all_accounts svc user flights rs db :
  ∃ rs' db' new_projects new_tasks entries,
    TapisFlightDiscoveryService.create_all svc user flights rs db = (Ret rs', db')
    ∧ projects db' = (projects db ++ new_projects)%list
    ∧ tasks db' = (tasks db ++ new_tasks)%list
    ∧ created_projects rs' = (created_projects rs ++ entries)%list
    ∧ projects_created rs' = (projects_created rs + length new_projects)%nat
    ∧ Forall2 (entry_of_project (User.id (TapisStorageService.user svc))) entries new_projects
    ∧ Forall2 task_of_project new_projects new_tasks
    ∧ (length new_projects ≤ length flights)%nat
    ∧ systems_scanned rs' = systems_scanned rs
    ∧ flights_discovered rs' = flights_discovered rs
    ∧ errors rs' = errors rs.
Proof.
  revert rs db. induction flights as [|info rest IH]; intros rs db.
  - exists rs, db, [], [], []. cbn [TapisFlightDiscoveryService.create_all].
    split; [reflexivity |]. rewrite !app_nil_r, Nat.add_0_r.
    repeat split; constructor.
  - cbn [TapisFlightDiscoveryService.create_all]. rewrite run_bind.
    destruct (create_one_accounts svc user info rs db)
      as [-> | (project & task & -> & Hentry & Htask)].
    + destruct (IH rs db)
        as (rs' & db' & new_projects & new_tasks & entries & -> & Hp & Ht & Hc & Hn
            & Hentries & Htasks & Hlen & Hs & Hf & He).
      exists rs', db', new_projects, new_tasks, entries.
      repeat split; try assumption. cbn [length]. lia.
    + destruct (IH (TapisFlightDiscoveryService.add_created project info rs)
                  (set_tasks (λ ts, ts ++ [task])%list
                     (set_projects (λ ps, ps ++ [project])%list db)))
        as (rs' & db' & new_projects & new_tasks & entries & -> & Hp & Ht & Hc & Hn
            & Hentries & Htasks & Hlen & Hs & Hf & He).
      cbn in Hp, Ht, Hc, Hn, Hs, Hf, He.
      eexists rs', db', (project :: new_projects), (task :: new_tasks), (_ :: entries).
      split; [reflexivity |].
      split; [rewrite Hp, <- app_assoc; reflexivity |].
      split; [rewrite Ht, <- app_assoc; reflexivity |].
      split; [rewrite Hc, <- app_assoc; reflexivity |].
      split; [rewrite Hn; cbn [length]; lia |].
      split; [constructor; [exact Hentry | exact Hentries] |].
      split; [constructor; [exact Htask | exact Htasks] |].
      split; [cbn [length]; lia |]. repeat split; assumption.
Qed.

(** Building the service: it needs the caller's token row for the client,
    valid at the time of the call, and raises [ValueError] without one. *)
Lemma init_run user client db :
  (∃ token,
     tokens db !! (User.id user, TapisOAuth2Client.client_id client) = Some token
     ∧ truthy (TapisOAuth2Token.is_valid (now w) token) = true
     ∧ TapisStorageService.init w user client db
       = (Ret {| TapisStorageService.user := user;
                 TapisStorageService.client := client;
                 TapisStorageService.token := token;
                 TapisStorageService.base_url :=
                   rstrip "/"%char (TapisOAuth2Client.base_url client) |}, db))
  ∨ (TapisStorageService.init w user client db = (Raise ValueError, db)
     ∧ ∀ token,
         tokens db !! (User.id user, TapisOAuth2Client.client_id client) = Some token →
         truthy (TapisOAuth2Token.is_valid (now w) token) = false).
Proof.
  unfold TapisStorageService.init, TapisStorageService._get_valid_token.
  rewrite !run_bind, !run_try, !run_gets.
  destruct (tokens db !! (User.id user, TapisOAuth2Client.client_id client)) as [token|].
  - destruct (truthy (TapisOAuth2Token.is_valid (now w) token)) eqn:Hvalid; cbn [negb].
    + left. exists token. repeat split. exact Hvalid.
    + right. split; [reflexivity |]. intros token' [= <-]. exact Hvalid.
  - right. split; [| discriminate]. unfold raise, only. cbv beta iota.
    rewrite bool_decide_eq_true_2 by reflexivity. reflexivity.
Qed.

(** What a run of the discovery does, in every case. *)
Lemma discovery_run user client db :
  (TapisFlightDiscoveryService.discover_and_create_projects w user client db
   = (Raise ValueError, db)
   ∧ ∀ token,
       tokens db !! (User.id user, TapisOAuth2Client.client_id client) = Some token →
       truthy (TapisOAuth2Token.is_valid (now w) token) = false)
  ∨ ∃ r db' new_projects new_tasks,
      TapisFlightDiscoveryService.discover_and_create_projects w user client db
      = (Ret r, db')
      ∧ (∃ token,
           tokens db !! (User.id user, TapisOAuth2Client.client_id client) = Some token
           ∧ truthy (TapisOAuth2Token.is_valid (now w) token) = true)
      ∧ projects db' = (projects db ++ new_projects)%list
      ∧ tasks db' = (tasks db ++ new_tasks)%list
      ∧ projects_created r = length new_projects
      ∧ Forall2 (entry_of_project (User.id user)) (created_projects r) new_projects
      ∧ Forall2 task_of_project new_projects new_tasks
      ∧ (projects_created r ≤ flights_discovered r)%nat
      ∧ (errors r ≠ [] → new_projects = []).
Proof.
  unfold TapisFlightDiscoveryService.discover_and_create_projects. rewrite !run_bind.
  destruct (init_run user client db) as [(token & Htoken & Hvalid & ->) | [-> Hnone]].
  2: { left. split; [reflexivity | exact Hnone]. }
  right. set (svc := {| TapisStorageService.user := user |}).
  assert (∀ n e, ∃ r db' new_projects new_tasks,
            @mret eff _ _ {| systems_scanned := n; flights_discovered := 0;
                             projects_created := 0;
                             errors := [DiscoveryProcessFailed e];
                             created_projects := [] |} db = (Ret r, db')
            ∧ (∃ token0,
                 tokens db !! (User.id user, TapisOAuth2Client.client_id client)
                 = Some token0
                 ∧ truthy (TapisOAuth2Token.is_valid (now w) token0) = true)
            ∧ projects db' = (projects db ++ new_projects)%list
            ∧ tasks db' = (tasks db ++ new_tasks)%list
            ∧ projects_created r = length new_projects
            ∧ Forall2 (entry_of_project (User.id user)) (created_projects r) new_projects
            ∧ Forall2 task_of_project new_projects new_tasks
            ∧ (projects_created r ≤ flights_discovered r)%nat
            ∧ (errors r ≠ [] → new_projects = [])) as Hfailed.
  { intros n e. eexists _, db, [], []. split; [reflexivity |].
    split; [eauto |]. rewrite !app_nil_r. cbn. repeat split; constructor. }
  match goal with |- context [match ?x with Ret _ => _ | Raise _ => _ end] =>
    destruct x as [[n items]|e] end; [| apply Hfailed].
  destruct (TapisFlightDiscoveryService.scan_systems w svc items) as [all_flights|e];
    [| apply Hfailed].
  match goal with |- context [TapisFlightDiscoveryService.create_all _ _ _ ?rs db] =>
    destruct (create_all_accounts svc user all_flights rs db)
      as (rs' & db' & new_projects & new_tasks & entries & -> & Hp & Ht & Hc & Hn
          & Hentries & Htasks & Hlen & Hs & Hf & He) end.
  cbn in Hc, Hn, Hf, He. subst entries.
  exists rs', db', new_projects, new_tasks. split; [reflexivity |].
  split; [eauto |]. rewrite Hn, Hf, He.
  repeat split; try assumption. intros Herr. congruence.
Qed.

(** A discovery needs a token row of the user for the client that is valid
    at the time of the run: with one it returns its results, without one
    it raises [ValueError] and writes nothing. *)
Theorem discovery_requires_valid_token user client db :
  (TapisFlightDiscoveryService.discover_and_create_projects w user client db
   = (Raise ValueError, db)
   ∧ ∀ token,
       tokens db !! (User.id user, TapisOAuth2Client.client_id client) = Some token →
       truthy (TapisOAuth2Token.is_valid (now w) token) = false)
  ∨ (∃ r db',
       TapisFlightDiscoveryService.discover_and_create_projects w user client db
       = (Ret r, db')
       ∧ ∃ token,
           tokens db !! (User.id user, TapisOAuth2Client.client_id client) = Some token
           ∧ truthy (TapisOAuth2Token.is_valid (now w) token) = true).
Proof.
  destruct (discovery_run user client db)
    as [Hraise | (r & db' & _ & _ & Hrun & Htoken & _)]; [left | right]; eauto.
Qed.

(** The results of a discovery account for what it wrote: the projects'
    table has grown by [projects_created] rows, one per entry of
    [created_projects], in that order, each owned by the user and named
    and tagged after the entry's flight; the tasks' table has grown by one
    task per new project; no other table has changed.  No more projects are
    created than flights were discovered, and none when the run records an
    error. *)
Theorem discovery_accounts_for_projects user client db r db' :
  TapisFlightDiscoveryService.discover_and_create_projects w user client db = (Ret r, db') →
  ∃ new_projects new_tasks,
    projects db' = (projects db ++ new_projects)%list
    ∧ tasks db' = (tasks db ++ new_tasks)%list
    ∧ same projects_apart db db'
    ∧ projects_created r = length new_projects
    ∧ Forall2 (entry_of_project (User.id user)) (created_projects r) new_projects
    ∧ Forall2 task_of_project new_projects new_tasks
    ∧ (projects_created r ≤ flights_discovered r)%nat
    ∧ (errors r ≠ [] → new_projects = []).
Proof.
  intros Hrun.
  pose proof (discover_and_create_projects_frames w (same projects_apart) user client
                ltac:(reflexivity) ltac:(reflexivity) db) as Hsame.
  rewrite Hrun in Hsame. cbn [snd] in Hsame.
  destruct (discovery_run user client db)
    as [[Hraise _] | (r0 & db0 & new_projects & new_tasks & Hrun0 & _ & Hrest)].
  - rewrite Hraise in Hrun. discriminate Hrun.
  - rewrite Hrun0 in Hrun. injection Hrun as -> ->.
    exists new_projects, new_tasks.
    destruct Hrest as (Hp & Ht & Hrest). repeat split; try assumption; apply Hrest.
Qed.

(** *** Running the discovery again *)

Lemma prefix_refl s : String.prefix s s = true.
Proof.
  induction s as [|c s IH]; [reflexivity |]. simpl.
  destruct (ascii_dec c c); [exact IH | congruence].
Qed.

Lemma contains_suffix a b : contains (a ++ b) b = true.
Proof.
  induction a as [|c a IH].
  - rewrite append_nil. destruct b; simpl; [reflexivity |].
    change (String.prefix (String a b) (String a b) || contains b (String a b) = true).
    rewrite prefix_refl. reflexivity.
  - rewrite append_cons. cbn [contains]. rewrite IH. apply orb_true_r.
Qed.

Lemma has_project_grows user info db db' new_projects :
  projects db' = (projects db ++ new_projects)%list →
  has_project db user info → has_project db' user info.
Proof.
  intros Hgrow (p & Hin & Hrest). exists p. split; [| exact Hrest].
  rewrite Hgrow. apply elem_of_app. left. exact Hin.
Qed.

(** After a turn of the creation loop the flight has its project. *)
Lemma create_one_covers svc user info rs db rs' db' :
  TapisStorageService.user svc = user →
  TapisFlightDiscoveryService.create_one svc user info rs db = (Ret rs', db') →
  has_project db' user info.
Proof.
  intros Huser Hrun.
  assert (∃ o, TapisFlightDiscoveryService._find_existing_project user info db = (Ret o, db)
               ∧ (∀ found, o = Some found → has_project db user info)) as (o & Hfind & Ho).
  { unfold TapisFlightDiscoveryService._find_existing_project. rewrite run_gets.
    eexists. split; [reflexivity |]. intros found Hhead.
    apply head_Some_elem_of in Hhead. apply list_elem_of_filter in Hhead as [[Howner Htags] Hin].
    exists found. repeat split; assumption. }
  unfold TapisFlightDiscoveryService.create_one in Hrun.
  rewrite !run_try, !run_bind, Hfind in Hrun.
  destruct o as [found|].
  - injection Hrun as _ <-. apply (Ho found eq_refl).
  - destruct (create_project_from_flight_run svc info db) as (project & task & Hcreate & _).
    assert (Project.owner project = User.id user
            ∧ Project.tags project = TapisStorageService.flight_tags info) as [Howner Htags].
    { revert Hcreate. unfold TapisStorageService.create_project_from_flight.
      rewrite run_try, run_gets, run_modify, run_bind. cbv zeta.
      unfold TapisStorageService._create_task_for_flight.
      rewrite run_try, run_gets, run_modify.
      intros [= <- _]. rewrite Huser. split; reflexivity. }
    rewrite run_bind, Hcreate in Hrun. injection Hrun as _ <-.
    exists project. split; [cbn; apply elem_of_app; right; apply list_elem_of_singleton; reflexivity |].
    split; [exact Howner |]. rewrite Htags. apply contains_icontains.
    unfold TapisStorageService.flight_tags, TapisFlightDiscoveryService.flight_tag.
    apply (contains_suffix "tapis,flight,").
Qed.

(** After the creation loop every flight of the list has its project. *)
Lemma create_all_covers svc user flights rs db rs' db' :
  TapisStorageService.user svc = user →
  TapisFlightDiscoveryService.create_all svc user flights rs db = (Ret rs', db') →
  Forall (has_project db' user) flights.
Proof.
  intros Huser. revert rs db. induction flights as [|info rest IH]; intros rs db Hrun.
  - constructor.
  - cbn [TapisFlightDiscoveryService.create_all] in Hrun. rewrite run_bind in Hrun.
    destruct (TapisFlightDiscoveryService.create_one svc user info rs db)
      as [[rs1|e] db1] eqn:Hone; [| discriminate Hrun].
    constructor; [| apply (IH rs1 db1 Hrun)].
    destruct (create_all_accounts svc user rest rs1 db1)
      as (rs2 & db2 & new_projects & _ & _ & Hrun2 & Hgrow & _).
    rewrite Hrun2 in Hrun. injection Hrun as _ <-.
    apply (has_project_grows user info db1 db2 new_projects Hgrow).
    apply (create_one_covers svc user info rs db rs1 db1 Huser Hone).
Qed.

(** When every flight has its project the creation loop does nothing. *)
Lemma create_all_noop svc user flights rs db :
  Forall (has_project db user) flights →
  TapisFlightDiscoveryService.create_all svc user flights rs db = (Ret rs, db).
Proof.
  induction 1 as [|info rest (p & Hin & Howner & Htags) _ IH];
    cbn [TapisFlightDiscoveryService.create_all]; [reflexivity |].
  rewrite run_bind.
  destruct (find_existing_project_finds user info db p Hin Howner Htags) as [found Hfind].
  unfold TapisFlightDiscoveryService.create_one at 1.
  rewrite run_try, run_bind, Hfind. exact IH.
Qed.

End DiscoveryResults.

(** ** Cleaning up expired states *)

(** The periodic cleanup raises nothing, deletes exactly the state rows
    that [is_expired] calls expired at that time, keeps the others as they
    are, and writes no other table. *)
Theorem cleanup_deletes_exactly_the_expired now db :
  ∃ db',
    TapisOAuth2StateCleanup.cleanup_expired_oauth_states now db = (Ret tt, db')
    ∧ (∀ s, states db' !! s
            = match states db !! s with
              | Some row => if TapisOAuth2State.is_expired now row then None else Some row
              | None => None
              end)
    ∧ same states_apart db db'.
Proof.
  eexists. split; [reflexivity |]. split; [| reflexivity].
  intros s. cbn [states set_states].
  destruct (states db !! s) as [row|] eqn:Hrow.
  - unfold TapisOAuth2State.is_expired.
    destruct (bool_decide_reflect (now > TapisOAuth2State.expires_at row)%Z) as [Hlate | Hnot].
    + apply map_lookup_filter_None. right. intros row' Hrow'. cbn.
      rewrite Hrow in Hrow'. injection Hrow' as <-. lia.
    + apply map_lookup_filter_Some. split; [exact Hrow |]. cbn. lia.
  - apply map_lookup_filter_None. left. exact Hrow.
Qed.

(** ** Saving a client *)

Lemma rstrip_spec c s :
  ∃ n, s = rstrip c s ++ char_times c n
       ∧ endswith (rstrip c s) (String c "") = false.
Proof.
  induction s as [|a s (n & Hs & Hend)].
  - exists 0%nat. split; reflexivity.
  - cbn [rstrip]. destruct (rstrip c s) as [|b r] eqn:Hr.
    + destruct (Ascii.eqb_spec a c) as [-> | Hne].
      * exists (S n). rewrite append_nil in *. split; [cbn; congruence | reflexivity].
      * exists n. rewrite append_nil in Hs. rewrite append_cons, append_nil.
        split; [congruence |]. cbn. rewrite orb_false_r.
        destruct (Ascii.eqb_spec a c); [contradiction | reflexivity].
    + exists n. rewrite append_cons. split; [congruence |].
      change (endswith (String a (String b r)) (String c ""))
        with ((String a (String b r) =? String c "") || endswith (String b r) (String c "")).
      rewrite Hend, orb_false_r. cbn. destruct (Ascii.eqb a c); reflexivity.
Qed.

(** [TapisOAuth2Client.save] leaves a client with both endpoint URLs
    non-empty: a URL that was given is kept, an empty one becomes the base
    URL without its trailing slashes followed by the endpoint's path, so
    that no doubled slash arises at the joint.  Saving again changes
    nothing. *)
Theorem client_save_fills_endpoint_urls self :
  let saved := TapisOAuth2ClientSave.save self in
  TapisOAuth2Client.authorization_url saved ≠ ""
  ∧ TapisOAuth2Client.token_url saved ≠ ""
  ∧ (TapisOAuth2Client.authorization_url self ≠ "" →
     TapisOAuth2Client.authorization_url saved = TapisOAuth2Client.authorization_url self)
  ∧ (TapisOAuth2Client.token_url self ≠ "" →
     TapisOAuth2Client.token_url saved = TapisOAuth2Client.token_url self)
  ∧ (∃ base n,
       TapisOAuth2Client.base_url self = base ++ char_times "/" n
       ∧ endswith base "/" = false
       ∧ (TapisOAuth2Client.authorization_url self = "" →
          TapisOAuth2Client.authorization_url saved = base ++ "/v3/oauth2/authorize")
       ∧ (TapisOAuth2Client.token_url self = "" →
          TapisOAuth2Client.token_url saved = base ++ "/v3/oauth2/tokens"))
  ∧ TapisOAuth2ClientSave.save saved = saved.
Proof.
  assert (∀ a b, a ++ String "/" b ≠ "") as Hnonempty.
  { intros [|c a] b; [rewrite append_nil | rewrite append_cons]; discriminate. }
  destruct (rstrip_spec "/" (TapisOAuth2Client.base_url self)) as (n & Hbase & Hend).
  destruct self as [cid secret tenant base auth tok cb name active]. cbn in *.
  unfold TapisOAuth2ClientSave.save. cbn.
  destruct (String.eqb_spec auth "") as [-> | Hauth],
           (String.eqb_spec tok "") as [-> | Htok]; cbn.
  all: repeat match goal with
       | |- _ ∧ _ => split
       | |- _ → _ => intros ?
       | |- ∃ _ _, _ => exists (rstrip "/" base), n
       end; try congruence; try apply Hnonempty; try assumption.
  all: try (destruct (String.eqb_spec (rstrip "/" base ++ "/v3/oauth2/authorize") "")
              as [Hempty | _]; [apply Hnonempty in Hempty; contradiction |]).
  all: try (destruct (String.eqb_spec (rstrip "/" base ++ "/v3/oauth2/tokens") "")
              as [Hempty | _]; [apply Hnonempty in Hempty; contradiction |]).
  all: try (destruct (String.eqb_spec auth "") as [Hempty | _]; [contradiction |]).
  all: try (destruct (String.eqb_spec tok "") as [Hempty | _]; [contradiction |]).
  all: reflexivity.
Qed.

(** ** The revoke view *)

Section Revoke.
Context `{PyLib}.

Lemma revoke_eq user client_id db :
  TapisOAuth2RevokeView.post user client_id db
  = match clients db !! client_id with
    | Some client =>
        if TapisOAuth2Client.is_active client then
          match tokens db !! (User.id user, TapisOAuth2Client.client_id client) with
          | Some _ =>
              (Ret (Response [("message", VStr "Token revoked successfully")] 200),
               set_tokens (delete (User.id user, TapisOAuth2Client.client_id client)) db)
          | None => (Ret (Response [("error", VStr "No token found for this client")] 404), db)
          end
        else (Ret (Response [("error", VStr "Failed to revoke token")] 500), db)
    | None => (Ret (Response [("error", VStr "Failed to revoke token")] 500), db)
    end.
Proof.
  unfold TapisOAuth2RevokeView.post, get_object_or_404.
  rewrite run_try, run_bind, run_gets.
  destruct (clients db !! client_id) as [client|]; [| reflexivity].
  destruct (TapisOAuth2Client.is_active client); [| reflexivity].
  unfold mret at 1, eff_ret at 1. cbv zeta. rewrite run_gets.
  destruct (tokens db !! (User.id user, TapisOAuth2Client.client_id client)); reflexivity.
Qed.

(** What a call of the revoke view does, in every case. *)
Lemma revoke_run user client_id db :
  (∃ client token_obj,
     clients db !! client_id = Some client
     ∧ TapisOAuth2Client.is_active client = true
     ∧ tokens db !! (User.id user, TapisOAuth2Client.client_id client) = Some token_obj
     ∧ TapisOAuth2RevokeView.post user client_id db
       = (Ret (Response [("message", VStr "Token revoked successfully")] 200),
          set_tokens (delete (User.id user, TapisOAuth2Client.client_id client)) db))
  ∨ (∃ client,
       clients db !! client_id = Some client
       ∧ TapisOAuth2Client.is_active client = true
       ∧ tokens db !! (User.id user, TapisOAuth2Client.client_id client) = None
       ∧ TapisOAuth2RevokeView.post user client_id db
         = (Ret (Response [("error", VStr "No token found for this client")] 404), db))
  ∨ ((clients db !! client_id = None
      ∨ ∃ client, clients db !! client_id = Some client
                  ∧ TapisOAuth2Client.is_active client = false)
     ∧ TapisOAuth2RevokeView.post user client_id db
       = (Ret (Response [("error", VStr "Failed to revoke token")] 500), db)).
Proof.
  rewrite revoke_eq.
  destruct (clients db !! client_id) as [client|] eqn:Hclient.
  2: { right. right. split; [left; reflexivity | reflexivity]. }
  destruct (TapisOAuth2Client.is_active client) eqn:Hactive.
  2: { right. right. split; [right; eauto | reflexivity]. }
  destruct (tokens db !! (User.id user, TapisOAuth2Client.client_id client))
    as [token_obj|] eqn:Htoken.
  - left. exists client, token_obj. repeat split; assumption.
  - right. left. exists client. repeat split; assumption.
Qed.

(** The revoke view raises nothing.  With a token row of the caller for
    the client it answers 200 after deleting that row, and no other row of
    any table; without such a row it answers 404; an unknown or inactive
    client is answered 500; nothing is written in the last two cases. *)
Theorem revoke_outcome user client_id db :
  ∃ r db',
    TapisOAuth2RevokeView.post user client_id db = (Ret r, db')
    ∧ (∀ client token_obj,
         clients db !! client_id = Some client →
         TapisOAuth2Client.is_active client = true →
         tokens db !! (User.id user, TapisOAuth2Client.client_id client) = Some token_obj →
         r = Response [("message", VStr "Token revoked successfully")] 200
         ∧ tokens db' = delete (User.id user, TapisOAuth2Client.client_id client) (tokens db)
         ∧ same tokens_apart db db')
    ∧ (∀ client,
         clients db !! client_id = Some client →
         TapisOAuth2Client.is_active client = true →
         tokens db !! (User.id user, TapisOAuth2Client.client_id client) = None →
         r = Response [("error", VStr "No token found for this client")] 404 ∧ db' = db)
    ∧ (clients db !! client_id = None
       ∨ (∃ client, clients db !! client_id = Some client
                    ∧ TapisOAuth2Client.is_active client = false)
       → r = Response [("error", VStr "Failed to revoke token")] 500 ∧ db' = db).
Proof.
  destruct (revoke_run user client_id db)
    as [(client & token_obj & Hclient & Hactive & Htoken & ->)
       | [(client & Hclient & Hactive & Htoken & ->) | [Hunknown ->]]];
    eexists _, _; (split; [reflexivity |]); (split; [| split]).
  - intros client' token_obj' Hclient'. assert (client' = client) as -> by congruence.
    intros _ _. repeat split; reflexivity.
  - intros client' Hclient'. assert (client' = client) as -> by congruence. congruence.
  - intros [Hno | (client' & Hclient' & Hoff)]; congruence.
  - intros client' token_obj' Hclient'. assert (client' = client) as -> by congruence.
    congruence.
  - intros client' Hclient' _ _. split; reflexivity.
  - intros [Hno | (client' & Hclient' & Hoff)]; congruence.
  - intros client token_obj Hclient Hactive.
    destruct Hunknown as [Hno | (c & Hc & Hoff)]; congruence.
  - intros client Hclient Hactive.
    destruct Hunknown as [Hno | (c & Hc & Hoff)]; congruence.
  - intros _. split; reflexivity.
Qed.

(** Once a token has been revoked, a refresh for that client answers 404,
    building the storage service raises [ValueError], and so does a
    discovery: the user has to authenticate again. *)
Theorem revoked_token_is_unusable w user client_id db body db' :
  TapisOAuth2RevokeView.post user client_id db = (Ret (Response body 200), db') →
  ∃ client,
    clients db' !! client_id = Some client
    ∧ tokens db' !! (User.id user, TapisOAuth2Client.client_id client) = None
    ∧ TapisOAuth2TokenRefreshView.post w user client_id db'
      = (Ret (Response [("error", VStr "No token found for this client")] 404), db')
    ∧ TapisStorageService.init w user client db' = (Raise ValueError, db')
    ∧ TapisFlightDiscoveryService.discover_and_create_projects w user client db'
      = (Raise ValueError, db').
Proof.
  intros Hrun.
  destruct (revoke_run user client_id db)
    as [(client & token_obj & Hclient & Hactive & Htoken & Hrevoke)
       | [(client & _ & _ & _ & Hrevoke) | [_ Hrevoke]]];
    rewrite Hrevoke in Hrun; try discriminate Hrun.
  injection Hrun as _ <-. exists client.
  assert (tokens (set_tokens (delete (User.id user, TapisOAuth2Client.client_id client)) db)
            !! (User.id user, TapisOAuth2Client.client_id client) = None) as Hgone
    by apply lookup_delete_eq.
  set (db' := set_tokens _ db) in *.
  assert (clients db' !! client_id = Some client) as Hclient' by exact Hclient.
  split; [exact Hclient' |]. split; [exact Hgone |].
  split.
  - unfold TapisOAuth2TokenRefreshView.post, get_object_or_404.
    rewrite run_try, run_bind, run_gets, Hclient', Hactive.
    unfold mret at 1, eff_ret at 1. cbv zeta. rewrite run_gets, Hgone. reflexivity.
  - destruct (init_run w user client db') as [(token & Htoken' & _) | [Hinit _]].
    { rewrite Hgone in Htoken'. discriminate Htoken'. }
    split; [exact Hinit |].
    unfold TapisFlightDiscoveryService.discover_and_create_projects.
    rewrite run_bind, Hinit. reflexivity.
Qed.
End Revoke.

(** ** Reading a flight back from the tags of its project *)

Lemma contains_comma_cons c s :
  contains (String c s) "," = false → c ≠ ","%char ∧ contains s "," = false.
Proof.
  cbn [contains]. intros Hno. apply orb_false_elim in Hno as [Hhere Hlater].
  split; [| exact Hlater]. intros ->. cbn in Hhere. destruct s; discriminate Hhere.
Qed.

Lemma split_no_comma s : contains s "," = false → split "," s = [s].
Proof.
  induction s as [|c s IH]; [reflexivity |]. intros Hno.
  apply contains_comma_cons in Hno as [Hc Hs]. cbn [split].
  destruct (Ascii.eqb_spec c ","); [contradiction |]. rewrite (IH Hs). reflexivity.
Qed.

Lemma split_comma_app a b :
  contains a "," = false → split "," (a ++ "," ++ b) = a :: split "," b.
Proof.
  induction a as [|c a IH]; intros Hno.
  - rewrite append_nil. reflexivity.
  - apply contains_comma_cons in Hno as [Hc Ha]. rewrite append_cons. cbn [split].
    destruct (Ascii.eqb_spec c ","); [contradiction |]. rewrite (IH Ha). reflexivity.
Qed.

Lemma flight_tags_split system flight :
  contains system "," = false → contains flight "," = false →
  split "," ("tapis,flight," ++ system ++ "," ++ flight) = ["tapis"; "flight"; system; flight].
Proof.
  intros Hsystem Hflight.
  change ("tapis,flight," ++ system ++ "," ++ flight)
    with ("tapis" ++ "," ++ "flight" ++ "," ++ system ++ "," ++ flight).
  rewrite (split_comma_app "tapis") by reflexivity.
  rewrite (split_comma_app "flight") by reflexivity.
  rewrite (split_comma_app system) by exact Hsystem.
  rewrite (split_no_comma flight) by exact Hflight. reflexivity.
Qed.

(** The loop over the tags that [create_project_from_flight] writes: the
    first two change nothing. *)
Lemma flight_of_tags_written system flight :
  contains system "," = false → contains flight "," = false →
  flight_of_tags ("tapis,flight," ++ system ++ "," ++ flight)
  = tag_step (tag_step (None, None) system) flight.
Proof.
  intros Hsystem Hflight. unfold flight_of_tags. cbv zeta.
  assert (("tapis,flight," ++ system ++ "," ++ flight =? "") = false) as ->.
  { apply String.eqb_neq. rewrite append_cons. discriminate. }
  cbn [negb]. rewrite (flight_tags_split _ _ Hsystem Hflight). reflexivity.
Qed.

Section TagsReadBack.
Context `{PyLib}.


(** A flight directory named 'tapis' or 'flight' gives a project whose
    tags cannot be read back: the loop takes the name for one of the two
    fixed tags, and no flight is found. *)
Theorem reserved_flight_name_is_not_read_back info :
  let system := py_str (system_id info) in
  let flight := py_str (flight_name info) in
  flight = "tapis" ∨ flight = "flight" →
  contains system "," = false →
  flight_info_of_tags (TapisStorageService.flight_tags info) = None.
Proof.
  cbv zeta. intros Hname Hcomma.
  unfold flight_info_of_tags, TapisStorageService.flight_tags.
  rewrite (flight_of_tags_written _ _ Hcomma)
    by (destruct Hname as [-> | ->]; reflexivity).
  assert (∀ found, tag_step found (py_str (flight_name info)) = found) as ->.
  { intros found. destruct Hname as [-> | ->]; reflexivity. }
  unfold tag_step. cbv zeta.
  destruct (startswith (strip (py_str (system_id info))) "ptdatax.project"); cbn [fst snd].
  - reflexivity.
  - destruct (negb _); reflexivity.
Qed.
End TagsReadBack.

(** ** The preferences view *)

Section PreferencesView.
Context `{PyLib}.
Variable (now : datetime) (gettext : string → string) (detail : exn → string).

Lemma when_given_keeps data key update :
  (∀ value, step_keeps gettext (update value)) →
  step_keeps gettext (TapisUserPreferencesView.when_given data key update).
Proof.
  intros Hupdate p r. unfold TapisUserPreferencesView.when_given. intros Hrun.
  res_inv.
  - eapply Hupdate. eassumption.
  - subst r. split; [reflexivity | split; [reflexivity | tauto]].
Qed.

Lemma and_then_keeps first second :
  step_keeps gettext first → step_keeps gettext second →
  step_keeps gettext (TapisUserPreferencesView.and_then first second).
Proof.
  intros Hfirst Hsecond p r. unfold TapisUserPreferencesView.and_then. intros Hrun.
  apply res_bind_ret_inv in Hrun as ([answer|p1] & Hrun1 & Hrun).
  - injection Hrun as <-. apply (Hfirst p _ Hrun1).
  - specialize (Hfirst p _ Hrun1). cbn in Hfirst. destruct Hfirst as (Hu & Hl & Hb).
    specialize (Hsecond p1 r Hrun). destruct r as [answer|p2]; [exact Hsecond |].
    destruct Hsecond as (Hu2 & Hl2 & Hb2).
    split; [congruence | split; [congruence | tauto]].
Qed.

(** The updates of lines 69-112 end the request with a 400 answer, or
    give an instance with the same owner and the same time of the last
    discovery, whose two numbers are within their bounds if they were. *)
Lemma updates_keep data : step_keeps gettext (TapisUserPreferencesView.updates gettext data).
Proof.
  unfold TapisUserPreferencesView.updates.
  repeat (apply and_then_keeps || apply when_given_keeps); intros value p r Hrun.
  - injection Hrun as <-. split; [reflexivity | split; [reflexivity | intros Hb; exact Hb]].
  - unfold TapisUserPreferencesView.set_max_projects_per_discovery in Hrun.
    apply res_bind_ret_inv in Hrun as (n & _ & Hrun).
    destruct (Z.ltb_spec n 1); injection Hrun as <-; [eauto |].
    split; [reflexivity | split; [reflexivity |]]. intros [_ Hb]. split; [cbn; lia | exact Hb].
  - unfold TapisUserPreferencesView.set_discovery_cooldown_hours in Hrun.
    apply res_bind_ret_inv in Hrun as (n & _ & Hrun).
    destruct (Z.ltb_spec n 0); injection Hrun as <-; [eauto |].
    split; [reflexivity | split; [reflexivity |]]. intros [Hb _]. split; [exact Hb | cbn; lia].
  - injection Hrun as <-. split; [reflexivity | split; [reflexivity | intros Hb; exact Hb]].
  - injection Hrun as <-. split; [reflexivity | split; [reflexivity | intros Hb; exact Hb]].
  - unfold TapisUserPreferencesView.set_preferred_systems in Hrun.
    destruct value as [| | | |items| |]; try (injection Hrun as <-; eauto).
    destruct (forallb _ items); cbn [negb] in Hrun; [| injection Hrun as <-; eauto].
    apply res_bind_ret_inv in Hrun as (joined & _ & Hrun). injection Hrun as <-.
    split; [reflexivity | split; [reflexivity | intros Hb; exact Hb]].
Qed.

(** What a call of the view's [post] does, by what the updates give. *)
Lemma preferences_post_run user data db :
  match TapisUserPreferencesView.updates gettext data (preferences_of db user) with
  | Ret (inr p') =>
      if in_integer_range (TapisUserPreferences.max_projects_per_discovery p')
         && in_integer_range (TapisUserPreferences.discovery_cooldown_hours p')
      then
        TapisUserPreferencesView.post now gettext detail user data db
        = (Ret (Response
                  [("success", VBool true);
                   ("message", VStr (gettext "Preferences updated successfully"));
                   ("preferences", TapisUserPreferencesView.preferences_body now p')] 200),
           set_preferences (insert (User.id user) p') (with_preferences db user))
      else
        ∃ body,
          TapisUserPreferencesView.post now gettext detail user data db
          = (Ret (Response body 500), with_preferences db user)
  | Ret (inl answer) =>
      TapisUserPreferencesView.post now gettext detail user data db
      = (Ret answer, with_preferences db user)
  | Raise e =>
      ∃ body,
        TapisUserPreferencesView.post now gettext detail user data db
        = (Ret (Response body (if only ValueError e then 400 else 500)),
           with_preferences db user)
  end.
Proof.
  unfold TapisUserPreferencesView.post.
  rewrite !run_try, run_bind, get_or_create_for_user_run, run_lift.
  destruct (TapisUserPreferencesView.updates gettext data (preferences_of db user))
    as [[answer|p']|e].
  - reflexivity.
  - rewrite run_bind. unfold TapisUserPreferencesView.save.
    destruct (in_integer_range _ && in_integer_range _); cbn [negb].
    + reflexivity.
    + unfold raise, only. cbv beta iota.
      rewrite bool_decide_eq_false_2 by discriminate. cbn. eauto.
  - destruct (only ValueError e); cbn; eauto.
Qed.

Lemma with_preferences_within_bounds user db :
  map_Forall (λ _ p, within_bounds p) (preferences db) →
  map_Forall (λ _ p, within_bounds p) (preferences (with_preferences db user))
  ∧ within_bounds (preferences_of db user).
Proof.
  intros Hall. unfold with_preferences, preferences_of.
  destruct (preferences db !! User.id user) as [p|] eqn:Hrow; cbn.
  - split; [exact Hall | apply (Hall _ _ Hrow)].
  - assert (within_bounds (TapisUserPreferences.defaults (User.id user))) as Hdefaults
      by (split; cbn; lia).
    split; [| exact Hdefaults]. apply map_Forall_insert_2; assumption.
Qed.

(** The view's [post] raises nothing: it answers 200, 400 or 500.  Only
    with 200 does it store anything of the request; the other answers
    leave the row as it was (or as [get_or_create_for_user] has just made
    it).  The row a 200 stores has the owner and the time of the last
    discovery of the row before.  At least one project per discovery and a
    non-negative cooldown are an invariant of the table: if every row is
    within these bounds before the call, every row is after it. *)
Theorem preferences_post_outcome user data db :
  ∃ body status db',
    TapisUserPreferencesView.post now gettext detail user data db
    = (Ret (Response body status), db')
    ∧ ((status = 200%nat
        ∧ ∃ p', db' = set_preferences (insert (User.id user) p') (with_preferences db user)
                ∧ TapisUserPreferencesView.updates gettext data (preferences_of db user)
                  = Ret (inr p')
                ∧ TapisUserPreferences.user p'
                  = TapisUserPreferences.user (preferences_of db user)
                ∧ TapisUserPreferences.last_auto_discovery p'
                  = TapisUserPreferences.last_auto_discovery (preferences_of db user))
       ∨ ((status = 400 ∨ status = 500)%nat ∧ db' = with_preferences db user))
    ∧ (map_Forall (λ _ p, within_bounds p) (preferences db) →
       map_Forall (λ _ p, within_bounds p) (preferences db')).
Proof.
  pose proof (preferences_post_run user data db) as Hrun.
  pose proof (updates_keep data (preferences_of db user)) as Hkeep.
  destruct (TapisUserPreferencesView.updates gettext data (preferences_of db user))
    as [[answer|p']|e].
  - destruct (Hkeep _ eq_refl) as [message ->].
    eexists _, _, _. split; [exact Hrun |].
    split; [right; split; [left; reflexivity | reflexivity] |].
    intros Hall. apply with_preferences_within_bounds, Hall.
  - destruct (Hkeep _ eq_refl) as (Huser & Hlast & Hbounds).
    destruct (in_integer_range _ && in_integer_range _).
    + eexists _, _, _. split; [exact Hrun |]. split.
      * left. split; [reflexivity |]. exists p'. repeat split; assumption.
      * intros Hall. destruct (with_preferences_within_bounds user db Hall) as [Hall' Hp].
        cbn [preferences set_preferences]. apply map_Forall_insert_2; [apply Hbounds, Hp | exact Hall'].
    + destruct Hrun as [body Hrun]. eexists _, _, _. split; [exact Hrun |].
      split; [right; split; [right; reflexivity | reflexivity] |].
      intros Hall. apply with_preferences_within_bounds, Hall.
  - destruct Hrun as [body Hrun]. eexists _, _, _. split; [exact Hrun |].
    split; [right; split; [destruct (only ValueError e); tauto | reflexivity] |].
    intros Hall. apply with_preferences_within_bounds, Hall.
Qed.

(** *** The list of preferred systems *)

Lemma and_then_inr_inv first second p p' :
  TapisUserPreferencesView.and_then first second p = Ret (inr p') →
  ∃ p1, first p = Ret (inr p1) ∧ second p1 = Ret (inr p').
Proof.
  unfold TapisUserPreferencesView.and_then. intros Hrun.
  apply res_bind_ret_inv in Hrun as ([answer|p1] & Hfirst & Hrun); [discriminate Hrun |].
  eauto.
Qed.

(** Joining strings without commas and splitting at the commas gives the
    strings back. *)
Lemma split_join systems :
  Forall (λ s, contains s "," = false) systems →
  ∃ joined,
    join "," (VStr <$> systems) = Ret joined
    ∧ match systems with
      | [] => joined = ""
      | s :: _ => split "," joined = systems ∧ ∃ rest, joined = s ++ rest
      end.
Proof.
  induction 1 as [|s rest Hs Hrest (joined & Hjoin & Hsplit)].
  - exists "". split; reflexivity.
  - cbn [fmap list_fmap join]. destruct rest as [|s' rest'].
    + exists s. split; [reflexivity |]. split; [apply split_no_comma, Hs |].
      exists "". clear. induction s as [|c s IH]; [reflexivity |].
      rewrite append_cons. congruence.
    + cbn [fmap list_fmap] in Hjoin. fold (@fmap list _ _ _ VStr rest') in *.
      change (join "," (VStr s' :: (VStr <$> rest'))) with (join "," (VStr <$> (s' :: rest'))).
      cbn [fmap list_fmap] in *. rewrite Hjoin. cbn.
      exists (s ++ "," ++ joined). split; [reflexivity |].
      destruct Hsplit as [Hsplit _]. rewrite (split_comma_app s joined Hs), Hsplit.
      split; [reflexivity | eauto].
Qed.

Lemma strip_nonempty c s : is_space c = false → strip (String c s) ≠ "".
Proof.
  intros Hc. unfold strip. cbn [lstrip_ws]. rewrite Hc. cbn [rstrip_ws].
  destruct (rstrip_ws s); [rewrite Hc |]; discriminate.
Qed.

Lemma project_system_strip_nonempty s rest :
  startswith s "ptdatax.project." = true → strip (s ++ rest) ≠ "".
Proof.
  intros Hprefix. destruct s as [|c s]; [discriminate Hprefix |].
  rewrite append_cons. apply strip_nonempty.
  unfold startswith in Hprefix. cbn [String.prefix] in Hprefix.
  destruct (ascii_dec "p" c) as [<- |]; [reflexivity | discriminate Hprefix].
Qed.

(** What was stored of a list of system ids is read back as that list. *)
Lemma preferred_systems_read_back p systems joined :
  Forall (λ s, startswith s "ptdatax.project." = true) systems →
  Forall (λ s, contains s "," = false ∧ strip s = s) systems →
  join "," (VStr <$> systems) = Ret joined →
  TapisUserPreferences.preferred_systems p = joined →
  TapisUserPreferencesList.get_preferred_systems_list p = systems.
Proof.
  intros Hprefix Hclean Hjoin Hstored.
  destruct (split_join systems) as (joined' & Hjoin' & Hsplit).
  { eapply Forall_impl; [exact Hclean |]. intros s [Hs _]. exact Hs. }
  rewrite Hjoin in Hjoin'. injection Hjoin' as <-.
  unfold TapisUserPreferencesList.get_preferred_systems_list. rewrite Hstored.
  destruct systems as [|s rest].
  - rewrite Hsplit. reflexivity.
  - destruct Hsplit as [Hsplit (tail & Htail)].
    assert (strip joined ≠ "") as Hnonempty.
    { rewrite Htail. apply project_system_strip_nonempty.
      apply Forall_cons in Hprefix as [Hs _]. exact Hs. }
    apply String.eqb_neq in Hnonempty. rewrite Hnonempty. cbn [negb].
    rewrite Hsplit. clear Hsplit Htail Hjoin Hnonempty Hstored.
    revert Hprefix Hclean. generalize (s :: rest). clear.
    induction l as [|s l IH]; intros Hprefix Hclean; [reflexivity |].
    apply Forall_cons in Hprefix as [Hs Hprefix].
    apply Forall_cons in Hclean as [[_ Hstrip] Hclean].
    rewrite filter_cons_True.
    + cbn [fmap list_fmap]. rewrite Hstrip. f_equal. apply IH; assumption.
    + rewrite Hstrip. destruct s; [discriminate Hs | reflexivity].
Qed.

(** A list of system ids that the view's [post] has accepted is stored so
    that [get_preferred_systems_list] reads the same list back, when none
    of the ids has a comma or white space at its ends; every id of an
    accepted list starts with 'ptdatax.project.'. *)
Theorem preferred_systems_round_trip user d systems body db db' :
  TapisUserPreferencesView.post now gettext detail user (VDict d) db
  = (Ret (Response body 200), db') →
  dict_get d "preferred_systems" = Some (VList (VStr <$> systems)) →
  Forall (λ s, contains s "," = false ∧ strip s = s) systems →
  ∃ p',
    preferences db' !! User.id user = Some p'
    ∧ Forall (λ s, startswith s "ptdatax.project." = true) systems
    ∧ TapisUserPreferencesList.get_preferred_systems_list p' = systems.
Proof.
  intros Hpost Hgiven Hclean.
  pose proof (preferences_post_run user (VDict d) db) as Hrun.
  pose proof (updates_keep (VDict d) (preferences_of db user)) as Hkeep.
  destruct (TapisUserPreferencesView.updates gettext (VDict d) (preferences_of db user))
    as [[answer|p']|e] eqn:Hupdates.
  - destruct (Hkeep _ eq_refl) as [message ->]. rewrite Hrun in Hpost. discriminate Hpost.
  - destruct (in_integer_range _ && in_integer_range _).
    2: { destruct Hrun as [body' Hrun]. rewrite Hrun in Hpost. discriminate Hpost. }
    rewrite Hrun in Hpost. injection Hpost as _ <-.
    exists p'. split; [apply lookup_insert_eq |].
    unfold TapisUserPreferencesView.updates in Hupdates.
    repeat (apply and_then_inr_inv in Hupdates as (? & _ & Hupdates)).
    unfold TapisUserPreferencesView.when_given, has_key, subscript, dict_has in Hupdates.
    rewrite Hgiven in Hupdates. cbn in Hupdates.
    destruct (forallb _ _) eqn:Hvalid; cbn [negb] in Hupdates; [| discriminate Hupdates].
    apply res_bind_ret_inv in Hupdates as (joined & Hjoin & Hupdates).
    injection Hupdates as <-.
    assert (Forall (λ s, startswith s "ptdatax.project." = true) systems) as Hprefix.
    { apply Forall_forall. intros s Hs.
      rewrite forallb_forall in Hvalid.
      apply (Hvalid (VStr s)). apply list_elem_of_In, list_elem_of_fmap_2, Hs. }
    split; [exact Hprefix |].
    apply (preferred_systems_read_back _ systems joined Hprefix Hclean Hjoin). reflexivity.
  - destruct Hrun as [body' Hrun]. rewrite Hrun in Hpost.
    destruct (only ValueError e); discriminate Hpost.
Qed.
End PreferencesView.

(** ** A listing of the systems that fails *)

Section FailedListing.
Context `{PyLib}.
Variable (w : world).

(** When the request for the list of the systems fails, the discovery
    of a caller with a valid token reports no error: it returns counts of
    zero and empty lists, and writes nothing. *)
Theorem discovery_hides_a_failed_listing user client db token e :
  tokens db !! (User.id user, TapisOAuth2Client.client_id client) = Some token →
  truthy (TapisOAuth2Token.is_valid (now w) token) = true →
  (∀ headers,
     http_request w "GET"
       (urljoin (rstrip "/"%char (TapisOAuth2Client.base_url client) ++ "/") "v3/systems")
       headers
       [("search", "id.like.ptdatax.project.*"); ("limit", "1000");
        ("select", "id,host,systemType,description,created,updated")]
     = Raise e) →
  TapisFlightDiscoveryService.discover_and_create_projects w user client db
  = (Ret (nothing_found 0), db).
Proof.
  intros Htoken Hvalid Hfails.
  unfold TapisFlightDiscoveryService.discover_and_create_projects.
  rewrite run_bind.
  destruct (init_run w user client db) as [(token' & Htoken' & _ & ->) | (_ & Hnone)].
  2:{ rewrite (Hnone token Htoken) in Hvalid. discriminate Hvalid. }
  unfold TapisStorageService.discover_project_systems, TapisStorageService._make_request.
  cbn [TapisStorageService.base_url TapisStorageService.token TapisStorageService.client].
  rewrite Hfails. cbn. destruct (only RequestException e); reflexivity.
Qed.
End FailedListing.

(** ** The status of the tokens *)

Section StatusView.
Context `{PyLib}.
Variable (now : datetime).

Lemma token_info_secrets t t' c :
  same_but_secrets t t' →
  TapisOAuth2StatusView.token_info now t' c = TapisOAuth2StatusView.token_info now t c.
Proof.
  intros (_ & _ & Hscope & Hexpires & Haccess).
  unfold TapisOAuth2StatusView.token_info, TapisOAuth2Token.is_valid,
    TapisOAuth2Token.is_expired, py_and.
  rewrite Hscope, Hexpires.
  destruct Haccess as [-> | [-> ->]]; reflexivity.
Qed.

Lemma token_infos_secrets cs rows f :
  (∀ t, same_but_secrets t (f t)) →
  TapisOAuth2StatusView.token_infos now cs (f <$> rows)
  = TapisOAuth2StatusView.token_infos now cs rows.
Proof.
  intros Hf. induction rows as [|t rows IH]; [reflexivity |].
  cbn [fmap list_fmap TapisOAuth2StatusView.token_infos].
  destruct (Hf t) as (_ & -> & _).
  destruct (cs !! TapisOAuth2Token.client t) as [c|]; [| reflexivity].
  change (list_fmap _ _ f rows) with (f <$> rows). rewrite IH.
  rewrite (token_info_secrets t (f t) c (Hf t)). reflexivity.
Qed.

Lemma filter_fmap_same {A} (P : A → Prop) `{!∀ x, Decision (P x)} (f : A → A)
    (l : list A) :
  (∀ x, P (f x) ↔ P x) → filter P (f <$> l) = f <$> filter P l.
Proof.
  intros Hf. induction l as [|x l IH]; [reflexivity |].
  rewrite fmap_cons, !filter_cons, IH.
  destruct (decide (P (f x))) as [Hx|Hx], (decide (P x)) as [Hx'|Hx'];
    try reflexivity; exfalso; pose proof (Hf x); tauto.
Qed.

Lemma rows_of_secrets user ts f :
  (∀ t, same_but_secrets t (f t)) →
  TapisOAuth2StatusView.rows_of user (f <$> ts)
  = f <$> TapisOAuth2StatusView.rows_of user ts.
Proof.
  intros Hf. unfold TapisOAuth2StatusView.rows_of.
  rewrite map_to_list_fmap, <- list_fmap_compose.
  replace (snd ∘ prod_map id f) with (f ∘ (snd : nat * string * _ → _))
    by reflexivity.
  rewrite list_fmap_compose. apply filter_fmap_same.
  intros t. destruct (Hf t) as (-> & _). reflexivity.
Qed.

(** The status view always answers and writes nothing, and its answer
    tells nothing of the secrets: whatever the refresh tokens, the token
    types and the access tokens that are not empty are replaced with, the
    answer is the same. *)
Theorem status_hides_the_secrets user db f :
  (∀ t, same_but_secrets t (f t)) →
  ∃ answer,
    TapisOAuth2StatusView.get now user db = (Ret answer, db)
    ∧ TapisOAuth2StatusView.get now user (set_tokens (fmap f) db)
      = (Ret answer, set_tokens (fmap f) db).
Proof.
  intros Hf. unfold TapisOAuth2StatusView.get. rewrite !run_try, !run_gets, !run_lift.
  cbn [tokens clients set_tokens].
  rewrite (rows_of_secrets user (tokens db) f Hf), (token_infos_secrets _ _ f Hf).
  destruct (TapisOAuth2StatusView.token_infos now (clients db)
              (TapisOAuth2StatusView.rows_of user (tokens db))) as [infos|e];
    eexists; split; reflexivity.
Qed.
End StatusView.

(** ** Projects made from the flights of a request *)

Section GivenFlights.
Context `{PyLib}.
Variable (w : world) (gettext : string → string) (detail : exn → string).

Lemma check_user_token_run user client db :
  TapisStorageViewSet._check_user_token w user client db
  = match tokens db !! (User.id user, TapisOAuth2Client.client_id client) with
    | None => (Raise ValueError, db)
    | Some token =>
        if truthy (TapisOAuth2Token.is_valid (now w) token)
        then (Ret token, db) else (Raise ValueError, db)
    end.
Proof.
  unfold TapisStorageViewSet._check_user_token. rewrite run_try, run_gets.
  destruct (tokens db !! (User.id user, TapisOAuth2Client.client_id client)) as [token|].
  - destruct (truthy (TapisOAuth2Token.is_valid (now w) token)); reflexivity.
  - unfold raise, only. cbv beta iota.
    rewrite bool_decide_eq_true_2 by reflexivity. reflexivity.
Qed.

Lemma subscript_of_dict d k :
  subscript (VDict d) k
  = match dict_get d k with Some x => Ret x | None => Raise KeyError end.
Proof. reflexivity. Qed.

Lemma has_members_inv flight_info :
  has_members flight_info = true →
  ∃ d flight_name system_id images_path image_count discovered_at,
    flight_info = VDict d
    ∧ dict_get d "flight_name" = Some flight_name
    ∧ dict_get d "system_id" = Some system_id
    ∧ dict_get d "images_path" = Some images_path
    ∧ dict_get d "image_count" = Some image_count
    ∧ dict_get d "discovered_at" = Some discovered_at.
Proof.
  destruct flight_info as [|b|n|s|l|d|f]; cbn [has_members]; try discriminate.
  unfold dict_has.
  destruct (dict_get d "flight_name") as [a|] eqn:Ha; [| discriminate].
  destruct (dict_get d "system_id") as [b|] eqn:Hb; [| discriminate].
  destruct (dict_get d "images_path") as [c|] eqn:Hc; [| discriminate].
  destruct (dict_get d "image_count") as [e|] eqn:He; [| discriminate].
  destruct (dict_get d "discovered_at") as [f|] eqn:Hf; [| discriminate].
  intros _. exists d, a, b, c, e, f. repeat split; assumption.
Qed.

Lemma create_project_given_whole svc flight_info db :
  has_members flight_info = true →
  ∃ p db',
    TapisStorageViewSet.create_project_from_flight svc flight_info db = (Ret (Some p), db')
    ∧ projects db' = (projects db ++ [p])%list
    ∧ project_of_given (TapisStorageService.user svc) flight_info p.
Proof.
  intros (d & flight_name & system_id & images_path & image_count & discovered_at
          & -> & Hf & Hs & Hp & Hc & Hd)%has_members_inv.
  unfold TapisStorageViewSet.create_project_from_flight,
    TapisStorageViewSet._create_task_for_flight.
  rewrite run_try, !subscript_of_dict, Hf, Hs, Hp, Hc, Hd. cbn.
  eexists _, _. split; [reflexivity |]. split; [reflexivity |].
  exists system_id, flight_name. rewrite !subscript_of_dict, Hf, Hs. repeat split.
Qed.

Lemma create_project_given_lacking svc flight_info db :
  has_members flight_info = false →
  TapisStorageViewSet.create_project_from_flight svc flight_info db = (Ret None, db).
Proof.
  intros Hlacks. unfold TapisStorageViewSet.create_project_from_flight.
  rewrite run_try.
  destruct flight_info as [|b|n|s|l|d|f]; try reflexivity.
  unfold has_members, dict_has in Hlacks. rewrite !subscript_of_dict.
  destruct (dict_get d "flight_name") as [a|]; [| reflexivity].
  destruct (dict_get d "system_id") as [b|]; [| reflexivity].
  destruct (dict_get d "images_path") as [c|]; [| reflexivity].
  destruct (dict_get d "image_count") as [e|]; [| reflexivity].
  destruct (dict_get d "discovered_at") as [f|]; [discriminate | reflexivity].
Qed.
Lemma create_given_run svc flight_info rs db :
  ∃ rs' db' new,
    TapisStorageViewSet.create_given detail svc flight_info rs db = (Ret rs', db')
    ∧ projects db' = (projects db ++ new)%list
    ∧ Forall2 (project_of_given (TapisStorageService.user svc))
        (filter (λ i, has_members i = true) [flight_info]) new
    ∧ given_flights rs' = given_flights rs
    ∧ given_errors rs' = given_errors rs
    ∧ given_created rs' = (given_created rs + length new)%nat
    ∧ (new = [] → db' = db).
Proof.
  unfold TapisStorageViewSet.create_given. rewrite run_try, run_bind.
  destruct (has_members flight_info) eqn:Hmembers.
  - destruct (create_project_given_whole svc flight_info db Hmembers)
      as (p & db' & -> & Hprojects & Hp).
    destruct (has_members_inv _ Hmembers)
      as (d & flight_name & system_id & images_path & image_count & discovered_at
          & -> & Hf & Hs & _ & Hc & _).
    rewrite !run_lift, !subscript_of_dict, Hf, Hs. cbn [get]. rewrite Hc.
    eexists _, db', [p]. split; [reflexivity |]. split; [exact Hprojects |].
    rewrite filter_cons_True by exact Hmembers.
    split; [repeat constructor; exact Hp |].
    cbn. repeat split. discriminate.
  - rewrite (create_project_given_lacking svc flight_info db Hmembers).
    exists rs, db, []. split; [reflexivity |]. rewrite app_nil_r.
    rewrite filter_cons_False by (rewrite Hmembers; discriminate).
    cbn. repeat split; [constructor | lia].
Qed.

Lemma create_given_all_run svc flights : ∀ rs db,
  ∃ rs' db' new,
    TapisStorageViewSet.create_given_all detail svc flights rs db = (Ret rs', db')
    ∧ projects db' = (projects db ++ new)%list
    ∧ Forall2 (project_of_given (TapisStorageService.user svc))
        (filter (λ i, has_members i = true) flights) new
    ∧ given_flights rs' = given_flights rs
    ∧ given_errors rs' = given_errors rs
    ∧ given_created rs' = (given_created rs + length new)%nat
    ∧ (new = [] → db' = db).
Proof.
  induction flights as [|flight_info rest IH]; intros rs db.
  - exists rs, db, []. cbn. rewrite app_nil_r. repeat split; [constructor | lia].
  - cbn [TapisStorageViewSet.create_given_all]. rewrite run_bind.
    destruct (create_given_run svc flight_info rs db)
      as (rs1 & db1 & new1 & -> & Hp1 & Hnew1 & Hn1 & He1 & Hc1 & Hsame1).
    destruct (IH rs1 db1) as (rs2 & db2 & new2 & -> & Hp2 & Hnew2 & Hn2 & He2 & Hc2 & Hsame2).
    exists rs2, db2, (new1 ++ new2)%list. split; [reflexivity |].
    split; [rewrite Hp2, Hp1, app_assoc; reflexivity |].
    split.
    { change (flight_info :: rest) with ([flight_info] ++ rest)%list.
      rewrite filter_app. apply Forall2_app; assumption. }
    split; [congruence |]. split; [congruence |].
    split; [rewrite length_app; lia |].
    intros [-> ->]%app_eq_nil. rewrite Hsame2, Hsame1; reflexivity.
Qed.

(** Projects are made from the flights a request carries without a look
    at the projects that exist: for a caller with a valid token, every
    entry of 'flights' that has the five members becomes a new project of
    the caller, tagged with its system and its flight, in the order of the
    entries, whatever the table of the projects holds already.  An entry
    without one of the members is passed over, and no error is reported
    for it.  (The table of the projects accepts every row here: [Project]
    has no limit on the length of a name.) *)
Theorem given_flights_skip_the_duplicate_check client user token d items db :
  tokens db !! (User.id user, TapisOAuth2Client.client_id client) = Some token →
  truthy (TapisOAuth2Token.is_valid (now w) token) = true →
  truthy (default VNone (dict_get d "auto_discover")) = false →
  dict_get d "flights" = Some (VList items) →
  items ≠ [] →
  ∃ results db' new,
    TapisStorageViewSet.create_projects w gettext detail (Some client) user (VDict d) db
    = (Ret (Response [("success", VBool true); ("results", given_value results)] 200), db')
    ∧ projects db' = (projects db ++ new)%list
    ∧ Forall2 (project_of_given user) (filter (λ i, has_members i = true) items) new
    ∧ given_flights results = length items
    ∧ given_created results = length new
    ∧ given_errors results = [].
Proof.
  intros Htoken Hvalid Hauto Hflights Hitems.
  unfold TapisStorageViewSet.create_projects.
  rewrite !run_try. cbn [TapisStorageViewSet._get_tapis_client]. rewrite run_ret.
  rewrite run_bind, check_user_token_run, Htoken, Hvalid, run_lift. cbn [get].
  replace (match dict_get d "auto_discover" with Some x => x | None => VNone end)
    with (default VNone (dict_get d "auto_discover"))
    by (destruct (dict_get d "auto_discover"); reflexivity).
  rewrite Hauto, run_lift. cbn [get]. rewrite Hflights.
  destruct items as [|item items]; [congruence |]. cbn [truthy negb].
  rewrite run_bind.
  destruct (init_run w user client db) as [(token' & _ & _ & ->) | (_ & Hnone)].
  2:{ rewrite (Hnone token Htoken) in Hvalid. discriminate Hvalid. }
  rewrite run_lift. cbn [len]. rewrite run_lift. cbn [iter]. rewrite run_bind.
  match goal with |- context [TapisStorageViewSet.create_given_all _ ?svc ?l ?rs db] =>
    destruct (create_given_all_run svc l rs db)
      as (rs' & db' & new & -> & Hp & Hnew & Hn & He & Hc & _) end.
  exists rs', db', new. split; [reflexivity |]. split; [exact Hp |].
  split; [exact Hnew |]. split; [exact Hn |]. split; [exact Hc | exact He].
Qed.

Ltac answered Htoken Hvalid :=
  eexists _, _, _; (split; [reflexivity |]); (split; [tauto |]);
  (split; [intros [=] |]);
  (split; [intros ? [= <-]; rewrite Htoken, Hvalid; discriminate
          | first [reflexivity | intros [[=]|[=]]]]).

Lemma create_projects_run first_active user data db :
  ∃ body status db',
    TapisStorageViewSet.create_projects w gettext detail first_active user data db
    = (Ret (Response body status), db')
    ∧ (status = 200 ∨ status = 400 ∨ status = 401 ∨ status = 500)%nat
    ∧ (first_active = None → status = 500%nat ∧ db' = db)
    ∧ (∀ client, first_active = Some client →
         match tokens db !! (User.id user, TapisOAuth2Client.client_id client) with
         | None => status = 401%nat
         | Some token =>
             truthy (TapisOAuth2Token.is_valid (now w) token) = false → status = 401%nat
         end)
    ∧ (status = 400%nat ∨ status = 401%nat → db' = db).
Proof.
  unfold TapisStorageViewSet.create_projects. rewrite !run_try.
  destruct first_active as [client|]; cbn [TapisStorageViewSet._get_tapis_client].
  2:{ rewrite run_raise. unfold only. rewrite bool_decide_eq_false_2 by discriminate.
      eexists _, _, _. split; [reflexivity |]. split; [tauto |].
      split; [split; reflexivity |]. split; [intros ? [=] |]. intros [[=]|[=]]. }
  rewrite run_ret, run_bind, check_user_token_run.
  destruct (tokens db !! (User.id user, TapisOAuth2Client.client_id client))
    as [token|] eqn:Htoken.
  2:{ unfold only. rewrite bool_decide_eq_true_2 by reflexivity.
      eexists _, _, _. split; [reflexivity |]. split; [tauto |].
      split; [intros [=] |].
      split; [intros ? [= <-]; rewrite Htoken; reflexivity | reflexivity]. }
  destruct (truthy (TapisOAuth2Token.is_valid (now w) token)) eqn:Hvalid.
  2:{ unfold only. rewrite bool_decide_eq_true_2 by reflexivity.
      eexists _, _, _. split; [reflexivity |]. split; [tauto |].
      split; [intros [=] |].
      split; [intros ? [= <-]; rewrite Htoken; reflexivity | reflexivity]. }
  rewrite run_lift.
  destruct (get data "auto_discover" VNone) as [auto_discover|e];
    [| destruct (only ValueError e); answered Htoken Hvalid].
  destruct (truthy auto_discover).
  { rewrite run_bind.
    destruct (discovery_run w user client db)
      as [[-> _] | (r & db' & _ & _ & -> & _)]; [| answered Htoken Hvalid].
    unfold only. rewrite bool_decide_eq_true_2 by reflexivity.
    answered Htoken Hvalid. }
  rewrite run_lift.
  destruct (get data "flights" (VList [])) as [flights|e];
    [| destruct (only ValueError e); answered Htoken Hvalid].
  destruct (truthy flights); cbn [negb]; [| answered Htoken Hvalid].
  rewrite run_bind.
  destruct (init_run w user client db) as [(token' & _ & _ & ->) | (_ & Hnone)].
  2:{ rewrite (Hnone token Htoken) in Hvalid. discriminate Hvalid. }
  rewrite run_lift.
  destruct (len flights) as [n|e];
    [| destruct (only ValueError e); answered Htoken Hvalid].
  rewrite run_lift.
  destruct (iter flights) as [items|e];
    [| destruct (only ValueError e); answered Htoken Hvalid].
  rewrite run_bind.
  match goal with |- context [TapisStorageViewSet.create_given_all _ ?svc ?l ?rs db] =>
    destruct (create_given_all_run svc l rs db) as (rs' & db' & new & -> & _) end.
  answered Htoken Hvalid.
Qed.
Lemma create_projects_without_flights client user token d db :
  tokens db !! (User.id user, TapisOAuth2Client.client_id client) = Some token →
  truthy (TapisOAuth2Token.is_valid (now w) token) = true →
  truthy (default VNone (dict_get d "auto_discover")) = false →
  truthy (default (VList []) (dict_get d "flights")) = false →
  TapisStorageViewSet.create_projects w gettext detail (Some client) user (VDict d) db
  = (Ret (Response [("success", VBool false);
                    ("error", VStr (gettext "No flights provided"))] 400), db).
Proof.
  intros Htoken Hvalid Hauto Hflights. unfold TapisStorageViewSet.create_projects.
  rewrite !run_try. cbn [TapisStorageViewSet._get_tapis_client]. rewrite run_ret.
  rewrite run_bind, check_user_token_run, Htoken, Hvalid, run_lift. cbn [get].
  replace (match dict_get d "auto_discover" with Some x => x | None => VNone end)
    with (default VNone (dict_get d "auto_discover"))
    by (destruct (dict_get d "auto_discover"); reflexivity).
  rewrite Hauto, run_lift. cbn [get].
  replace (match dict_get d "flights" with Some x => x | None => VList [] end)
    with (default (VList []) (dict_get d "flights"))
    by (destruct (dict_get d "flights"); reflexivity).
  rewrite Hflights. reflexivity.
Qed.

(** Asked to make projects, the view always answers: with 500, not 404,
    when no client is active, with 401 when the caller has no token of the
    first active client or one that is not valid, with 400 when the request
    of a caller with a valid token asks for no discovery and carries no
    flights; with 400 and 401 nothing is written, nor is anything when no
    client is active. *)
Theorem create_projects_outcome first_active user data db :
  ∃ body status db',
    TapisStorageViewSet.create_projects w gettext detail first_active user data db
    = (Ret (Response body status), db')
    ∧ (status = 200 ∨ status = 400 ∨ status = 401 ∨ status = 500)%nat
    ∧ (first_active = None → status = 500%nat ∧ db' = db)
    ∧ (∀ client, first_active = Some client →
         match tokens db !! (User.id user, TapisOAuth2Client.client_id client) with
         | None => status = 401%nat
         | Some token =>
             (truthy (TapisOAuth2Token.is_valid (now w) token) = false → status = 401%nat)
             ∧ (truthy (TapisOAuth2Token.is_valid (now w) token) = true →
                ∀ d, data = VDict d →
                     truthy (default VNone (dict_get d "auto_discover")) = false →
                     truthy (default (VList []) (dict_get d "flights")) = false →
                     status = 400%nat)
         end)
    ∧ (status = 400%nat ∨ status = 401%nat → db' = db).
Proof.
  destruct (create_projects_run first_active user data db)
    as (body & status & db' & Hrun & Hstatus & Hnone & Htoken & Hsame).
  exists body, status, db'. split; [exact Hrun |]. split; [exact Hstatus |].
  split; [exact Hnone |]. split; [| exact Hsame].
  intros client ->. specialize (Htoken client eq_refl).
  destruct (tokens db !! (User.id user, TapisOAuth2Client.client_id client))
    as [token|] eqn:Hrow; [| exact Htoken].
  split; [exact Htoken |]. intros Hvalid d -> Hauto Hflights.
  rewrite (create_projects_without_flights client user token d db
             Hrow Hvalid Hauto Hflights) in Hrun.
  congruence.
Qed.
End GivenFlights.

(** * The scenario, run

    The theorems above at the scenario [Demo], and the inputs on which the
    code departs from statements it might be expected to satisfy. *)

Section Scenario.
Local Existing Instance ref_lib.

(** The callback of the scenario succeeds and leaves [Demo.db2]. *)
Example demo_callback :
  TapisOAuth2CallbackView.get Demo.cfg (Demo.w (Demo.T0 + 60000000)%Z)
    Demo.callback_request Demo.db1
  = (Ret (HttpResponseRedirect "/plugins/"), Demo.db2).
Proof. vm_compute. reflexivity. Qed.

(** The authorization of the scenario redirects and leaves [Demo.db1]. *)
Example demo_authorize :
  TapisOAuth2AuthorizeView.get (Demo.w Demo.T0) Demo.authorize_request "demo" Demo.db0
  = (Ret (HttpResponseRedirect
            ("https://x.tapis.io/v3/oauth2/authorize?client_id=demo&response_type=code"
             ++ "&redirect_uri=https%3A%2F%2Fwebodm.example%2Fapi%2Foauth2%2Ftapis%2Fcallback%2F"
             ++ "&state=st4te&scope=openid+profile")),
     Demo.db1).
Proof. vm_compute. reflexivity. Qed.

(** The callback has created alice and stored her tokens. *)
Example demo_rows :
  users Demo.db2 !! "alice" = Some Demo.alice
  ∧ tokens Demo.db2 !! (1%nat, "demo") = Some Demo.alice_token
  ∧ session Demo.db2 = Some 1%nat.
Proof. vm_compute. repeat split. Qed.

(** The service the discovery builds for alice. *)
Example demo_service t :
  TapisStorageService.init (Demo.w_sync t) Demo.alice Demo.client Demo.db2
  = (Ret Demo.service, Demo.db2).
Proof. vm_compute. reflexivity. Qed.

(** *** C1 *)

Lemma callback_consumes_state_witness :
  states Demo.db2 !! "st4te" = None
  ∧ (∀ later, Forall (λ c, carries "st4te" c.1 = true → refused c)
                (serve Demo.cfg later Demo.db2))
  ∧ (∀ calls db0, (successes "st4te" (serve Demo.cfg calls db0) ≤ 1)%nat).
Proof.
  apply (callback_consumes_state Demo.cfg (Demo.w (Demo.T0 + 60000000)%Z)
           Demo.callback_request Demo.db1 "/plugins/" Demo.db2 "st4te").
  - vm_compute. reflexivity.
  - reflexivity.
Defined.

(** After the callback of the scenario has succeeded, the provider's
    error redirect with the same state value is answered with status 400,
    but with the error of line 87, not with 'Invalid OAuth2 state'. *)
Lemma replay_with_error_parameter :
  TapisOAuth2CallbackView.get Demo.cfg (Demo.w (Demo.T0 + 60000000)%Z)
    Demo.callback_request Demo.db1
  = (Ret (HttpResponseRedirect "/plugins/"), Demo.db2)
  ∧ TapisOAuth2CallbackView.state Demo.error_request
    = TapisOAuth2CallbackView.state Demo.callback_request
  ∧ (TapisOAuth2CallbackView.get Demo.cfg (Demo.w (Demo.T0 + 120000000)%Z)
       Demo.error_request Demo.db2).1
    = Ret (JsonResponse [("error", VStr "OAuth2 error: access_denied");
                         ("description", VNone)] 400)
  ∧ (TapisOAuth2CallbackView.get Demo.cfg (Demo.w (Demo.T0 + 120000000)%Z)
       Demo.error_request Demo.db2).1
    ≠ Ret invalid_state.
Proof.
  split; [vm_compute; reflexivity |]. split; [reflexivity |].
  split; [vm_compute; reflexivity |]. vm_compute. intros Heq. discriminate Heq.
Qed.

(** *** C5 *)

Lemma state_expires_after_ten_minutes_witness :
  ∃ row,
    states Demo.db1 !! "st4te" = Some row
    ∧ TapisOAuth2State.expires_at row = (Demo.T0 + Demo.ten_minutes)%Z
    ∧ (TapisOAuth2CallbackView.get Demo.cfg (Demo.w (Demo.T0 + Demo.ten_minutes + 1)%Z)
         Demo.callback_request Demo.db1).1
      = Ret state_expired.
Proof.
  destruct (state_expires_after_ten_minutes (Demo.w Demo.T0) Demo.authorize_request "demo"
              Demo.db0 _ Demo.db1 demo_authorize)
    as (row & Hrow & Hexp & _ & Hcallback).
  exists row. split; [exact Hrow |]. split; [exact Hexp |].
  assert ("st4te" ≠ "" ∧ "c0de" ≠ "") as [Hstate Hcode] by (split; discriminate).
  destruct (Hcallback Demo.cfg (Demo.w (Demo.T0 + Demo.ten_minutes + 1)%Z)
              Demo.callback_request Demo.db1 "c0de"
              eq_refl Hstate eq_refl Hcode eq_refl Hrow) as [_ Hlate].
  rewrite Hlate; [reflexivity |]. vm_compute. reflexivity.
Defined.

(** A state created at [T0] expires at [T0] + 10 minutes, and a callback
    made exactly then is accepted: it succeeds. *)
Lemma accepted_at_ten_minutes :
  TapisOAuth2State.expires_at <$> (states Demo.db1 !! "st4te")
  = Some (Demo.T0 + Demo.ten_minutes)%Z
  ∧ (TapisOAuth2CallbackView.get Demo.cfg (Demo.w (Demo.T0 + Demo.ten_minutes)%Z)
       Demo.callback_request Demo.db1).1
    = Ret (HttpResponseRedirect "/plugins/").
Proof. split; vm_compute; reflexivity. Qed.

(** *** C6 *)

Lemma malformed_token_rejected_witness :
  TapisOAuth2Backend._validate_token_with_tapis Demo.cfg Demo.T0 (VStr "not-a-token")
  = Ret None
  ∧ TapisOAuth2Backend._validate_token_with_tapis Demo.cfg Demo.T0 (VStr "a.b.c") = Ret None.
Proof.
  split.
  - apply malformed_token_rejected. left. vm_compute. intros Hlen. discriminate Hlen.
  - apply malformed_token_rejected. right.
    apply not_base64 with (e := BinasciiError). vm_compute. reflexivity.
Defined.

(** The second segment of [Demo.jwt_stray_character] is not base64url
    text, for its exclamation mark; the decoder discards the mark, and the
    validation returns the identity of alice. *)
Lemma stray_character_is_discarded :
  split "."%char Demo.jwt_stray_character = ["x"; "eyJ1c2VybmFtZSI6ImFsaWNlIn0!="; "y"]
  ∧ valid_base64url "eyJ1c2VybmFtZSI6ImFsaWNlIn0!=" = false
  ∧ urlsafe_b64decode (TapisOAuth2Backend.pad "eyJ1c2VybmFtZSI6ImFsaWNlIn0!=")
    = urlsafe_b64decode (TapisOAuth2Backend.pad "eyJ1c2VybmFtZSI6ImFsaWNlIn0")
  ∧ TapisOAuth2Backend.username <$>
      default None (match TapisOAuth2Backend._validate_token_with_tapis Demo.cfg Demo.T0
                            (VStr Demo.jwt_stray_character) with
                    | Ret r => Some r
                    | Raise _ => None
                    end)
    = Some (VStr "alice").
Proof. repeat split; vm_compute; reflexivity. Qed.

(** *** C4 *)

Lemma demo_jwt_decodes :
  decodes_to Demo.jwt (VDict [("username", VStr "alice"); ("exp", VInt 9999999999)]).
Proof.
  exists "eyJhbGciOiJSUzI1NiJ9", "eyJ1c2VybmFtZSI6ImFsaWNlIiwiZXhwIjo5OTk5OTk5OTk5fQ", "c2ln".
  split; vm_compute; reflexivity.
Qed.

Lemma demo_jwt_fraction_decodes :
  decodes_to Demo.jwt_exp_fraction
    (VDict [("username", VStr "alice"); ("exp", VFloat Demo.half_a_second_before_T0)]).
Proof.
  exists "eyJhbGciOiJSUzI1NiJ9",
         "eyJ1c2VybmFtZSI6ImFsaWNlIiwiZXhwIjoxNjk5OTk5OTk5LjV9", "c2ln".
  split; vm_compute; reflexivity.
Qed.

Lemma demo_jwt_text_decodes :
  decodes_to Demo.jwt_exp_text (VDict [("username", VStr "alice"); ("exp", VStr "never")]).
Proof.
  exists "eyJhbGciOiJSUzI1NiJ9", "eyJ1c2VybmFtZSI6ImFsaWNlIiwiZXhwIjoibmV2ZXIifQ", "c2ln".
  split; vm_compute; reflexivity.
Qed.

(** The float 1699999999.5 is a number other than zero below the second
    1700000000. *)
Lemma half_a_second_before_T0_below :
  nonzero_below (unix_seconds Demo.T0) (VFloat Demo.half_a_second_before_T0).
Proof.
  eexists. split; [reflexivity |]. split.
  - vm_compute. intros Hzero. discriminate Hzero.
  - vm_compute. reflexivity.
Qed.

Lemma username_and_expiry_witness :
  (∃ info,
     TapisOAuth2Backend._validate_token_with_tapis Demo.cfg Demo.T0 (VStr Demo.jwt)
     = Ret (Some info)
     ∧ TapisOAuth2Backend.username info = VStr "alice")
  ∧ TapisOAuth2Backend._validate_token_with_tapis Demo.cfg Demo.T0
      (VStr Demo.jwt_exp_fraction) = Ret None
  ∧ TapisOAuth2Backend._validate_token_with_tapis Demo.cfg Demo.T0
      (VStr Demo.jwt_exp_text) = Ret None.
Proof.
  split; [| split].
  - destruct (username_and_expiry Demo.cfg Demo.T0 Demo.jwt _ demo_jwt_decodes)
      as [Hobject _].
    destruct (Hobject _ eq_refl) as (Hname & _ & _).
    eexists. split; [vm_compute; reflexivity |].
    eapply Hname. vm_compute. reflexivity.
  - destruct (username_and_expiry Demo.cfg Demo.T0 Demo.jwt_exp_fraction _
                demo_jwt_fraction_decodes) as [Hobject _].
    destruct (Hobject _ eq_refl) as (_ & Hexpired & _).
    apply Hexpired. left. exact half_a_second_before_T0_below.
  - destruct (username_and_expiry Demo.cfg Demo.T0 Demo.jwt_exp_text _
                demo_jwt_text_decodes) as [Hobject _].
    destruct (Hobject _ eq_refl) as (_ & Hexpired & _).
    apply Hexpired. right. split; reflexivity.
Defined.

(** A payload with an empty 'tapis/username' and the 'username' bob: the
    first claim present is the empty one, the name extracted is bob.  A
    payload with 'exp' 0: the expiry is in the past, and the identity is
    returned.  A payload with 'exp' 1700000000, validated half a second
    after that time: the expiry is in the past, but not below the current
    time in whole seconds, and the identity is returned. *)
Lemma empty_claim_and_unrejected_expiry :
  decodes_to Demo.jwt_empty_claim
    (VDict [("tapis/username", VStr ""); ("username", VStr "bob")])
  ∧ first_present [("tapis/username", VStr ""); ("username", VStr "bob")] username_claims
    = Some (VStr "")
  ∧ TapisOAuth2Backend.username <$>
      default None (match TapisOAuth2Backend._validate_token_with_tapis Demo.cfg Demo.T0
                            (VStr Demo.jwt_empty_claim) with
                    | Ret r => Some r
                    | Raise _ => None
                    end)
    = Some (VStr "bob")
  ∧ decodes_to Demo.jwt_exp_zero (VDict [("username", VStr "alice"); ("exp", VInt 0)])
  ∧ (0 < unix_seconds Demo.T0)%Z
  ∧ TapisOAuth2Backend._validate_token_with_tapis Demo.cfg Demo.T0 (VStr Demo.jwt_exp_zero)
    ≠ Ret None
  ∧ decodes_to Demo.jwt_exp_T0
      (VDict [("username", VStr "alice"); ("exp", VInt 1700000000)])
  ∧ (1700000000 * 1000000 < Demo.T0 + 500000)%Z
  ∧ TapisOAuth2Backend._validate_token_with_tapis Demo.cfg (Demo.T0 + 500000)%Z
      (VStr Demo.jwt_exp_T0)
    ≠ Ret None.
Proof.
  split.
  { exists "eyJhbGciOiJSUzI1NiJ9",
           "eyJ0YXBpcy91c2VybmFtZSI6IiIsInVzZXJuYW1lIjoiYm9iIn0", "c2ln".
    split; vm_compute; reflexivity. }
  split; [reflexivity |]. split; [vm_compute; reflexivity |]. split.
  { exists "eyJhbGciOiJSUzI1NiJ9", "eyJ1c2VybmFtZSI6ImFsaWNlIiwiZXhwIjowfQ", "c2ln".
    split; vm_compute; reflexivity. }
  split; [vm_compute; reflexivity |].
  split; [vm_compute; intros Heq; discriminate Heq |]. split.
  { exists "eyJhbGciOiJSUzI1NiJ9",
           "eyJ1c2VybmFtZSI6ImFsaWNlIiwiZXhwIjoxNzAwMDAwMDAwfQ", "c2ln".
    split; vm_compute; reflexivity. }
  split; [vm_compute; reflexivity |]. vm_compute. intros Heq. discriminate Heq.
Qed.

(** *** C7 *)

(** On the server without Celery the scan runs in the request, and the
    timestamp is written after it has returned; when the scan raises (here
    for a user without a token) the timestamp is not written. *)
Lemma synchronous_scan_before_timestamp :
  events Demo.db3
  = (events Demo.db2
     ++ [ScanReturned 1; LastDiscoveryUpdated 1 (Demo.T0 + Demo.two_days)%Z])%list
  ∧ existsb scan_started [ScanReturned 1; LastDiscoveryUpdated 1 (Demo.T0 + Demo.two_days)%Z]
    = true
  ∧ updated_before_outcome
      [ScanReturned 1; LastDiscoveryUpdated 1 (Demo.T0 + Demo.two_days)%Z]
    = false
  ∧ events (TapisOAuth2CallbackView._trigger_flight_discovery (Demo.w_sync Demo.T0)
              Demo.alice Demo.client Demo.db1).2
    = [ScanRaised ValueError]
  ∧ TapisUserPreferences.last_auto_discovery <$>
      (preferences (TapisOAuth2CallbackView._trigger_flight_discovery (Demo.w_sync Demo.T0)
                      Demo.alice Demo.client Demo.db1).2 !! 1%nat)
    = Some None.
Proof. repeat split; vm_compute; reflexivity. Qed.

(** *** C9 *)

Example demo_refresh :
  TapisOAuth2TokenRefreshView.post (Demo.w_refresh Demo.T0) Demo.alice "demo" Demo.db2
  = (Ret (Response [("message", VStr "Token refreshed successfully");
                    ("expires_at", VNone)] 200),
     set_tokens
       (insert (1%nat, "demo")
          {| TapisOAuth2Token.user := 1;
             TapisOAuth2Token.client := "demo";
             TapisOAuth2Token.access_token := VStr "n3w";
             TapisOAuth2Token.refresh_token := VStr "{'refresh_token': 'r1'}";
             TapisOAuth2Token.token_type := VStr "Bearer";
             TapisOAuth2Token.scope := VStr "";
             TapisOAuth2Token.expires_at := None |})
       Demo.db2).
Proof. vm_compute. reflexivity. Qed.

Lemma refresh_overwrites_witness :
  ∃ new,
    tokens (TapisOAuth2TokenRefreshView.post (Demo.w_refresh Demo.T0) Demo.alice "demo"
              Demo.db2).2 !! (1%nat, "demo") = Some new
    ∧ TapisOAuth2Token.access_token new = VStr "n3w"
    ∧ TapisOAuth2Token.token_type new = VStr "Bearer"
    ∧ TapisOAuth2Token.refresh_token new = VStr "{'refresh_token': 'r1'}".
Proof.
  destruct (refresh_overwrites (Demo.w_refresh Demo.T0) Demo.alice "demo" Demo.db2 _ _
              demo_refresh)
    as (client & old & d & new & Hclient & Hold & Hresponse & Hdb & Haccess & Htype & _
        & Hrefresh & _).
  assert (client = Demo.client) as -> by (revert Hclient; vm_compute; congruence).
  assert (old = Demo.alice_token) as -> by (revert Hold; vm_compute; congruence).
  assert (d = Demo.refresh_response) as -> by (revert Hresponse; vm_compute; congruence).
  exists new. split; [| split; [exact Haccess | split; [exact Htype | exact Hrefresh]]].
  rewrite demo_refresh. cbn [snd]. rewrite Hdb. apply lookup_insert_eq.
Defined.

(** A refresh whose response has 'expires_in' 0 succeeds and stores a null
    expiry, not now + 0. *)
Lemma refresh_expires_in_zero :
  (TapisOAuth2TokenRefreshView.post (Demo.w_refresh Demo.T0) Demo.alice "demo" Demo.db2).1
  = Ret (Response [("message", VStr "Token refreshed successfully");
                   ("expires_at", VNone)] 200)
  ∧ TapisOAuth2TokenRefreshView._refresh_access_token (Demo.w_refresh Demo.T0) Demo.client
      (TapisOAuth2Token.refresh_token Demo.alice_token)
    = Ret (VDict Demo.refresh_response)
  ∧ dict_get Demo.refresh_response "expires_in" = Some (VInt 0)
  ∧ TapisOAuth2Token.expires_at <$>
      (tokens (TapisOAuth2TokenRefreshView.post (Demo.w_refresh Demo.T0) Demo.alice "demo"
                 Demo.db2).2 !! (1%nat, "demo"))
    = Some None.
Proof. repeat split; vm_compute; reflexivity. Qed.

(** *** C10 *)



(** *** C2 *)

Lemma demo_entries items :
  Forall (λ v, ∃ type name, v = Demo.item type name) items → Forall entry items.
Proof.
  intros Hitems. eapply Forall_impl; [exact Hitems |].
  intros v (type & name & ->). eexists. reflexivity.
Qed.

Lemma demo_file_names items :
  Forall (λ v, ∃ type name, v = Demo.item type name) items →
  Forall file_name_is_text items.
Proof.
  intros Hitems. eapply Forall_impl; [exact Hitems |].
  intros v (type & name & ->) d x [= <-] _ Hx.
  simpl in Hx. injection Hx as <-. eauto.
Qed.

Lemma demo_is_dir type name name' :
  is_dir name' (Demo.item type name) ↔ type = "dir" ∧ name = name'.
Proof.
  split.
  - intros (d & [= <-] & Htype & Hname). simpl in Htype, Hname.
    injection Htype as ->. injection Hname as ->. split; reflexivity.
  - intros [-> ->]. eexists. repeat split.
Qed.

Lemma demo_jpeg_file type name :
  jpeg_file (Demo.item type name)
  ↔ type = "file" ∧ endswith (lower name) ".jpg" || endswith (lower name) ".jpeg" = true.
Proof.
  split.
  - intros (d & stem & ext & [= <-] & Htype & Hname & Hext). simpl in Htype, Hname.
    injection Htype as ->. injection Hname as ->. split; [reflexivity |].
    apply jpeg_name. eauto.
  - intros (-> & Hends). apply jpeg_name in Hends as (stem & ext & -> & Hext).
    eexists _, stem, ext. repeat split. exact Hext.
Qed.

Lemma demo_root_lists :
  root_lists (Demo.w_sync Demo.T0) Demo.service (VStr Demo.system) Demo.root_items.
Proof.
  exists (Demo.listing Demo.root_items).
  split; [vm_compute; reflexivity |]. split; [reflexivity |].
  apply demo_entries. repeat constructor; eauto.
Qed.

Lemma demo_flight_once flight before after :
  Demo.root_items = (before ++ Demo.item "dir" flight :: after)%list
  → Forall (λ v, ∃ name, v = Demo.item "dir" name ∧ name ≠ flight) before
  → Forall (λ v, ∃ type name, v = Demo.item type name
                              ∧ (type ≠ "dir" ∨ name ≠ flight)) after
  → exactly_one (is_dir flight) Demo.root_items.
Proof.
  intros Hitems Hbefore Hafter. exists before, (Demo.item "dir" flight), after.
  split; [exact Hitems |]. split; [apply demo_is_dir; split; reflexivity |].
  split.
  - eapply Forall_impl; [exact Hbefore |].
    intros v (name & -> & Hname) Hdir. apply demo_is_dir in Hdir as [_ Heq].
    contradiction.
  - eapply Forall_impl; [exact Hafter |].
    intros v (type & name & -> & Hdiffers) Hdir.
    apply demo_is_dir in Hdir as [Htype Hname]. destruct Hdiffers; contradiction.
Qed.

Lemma demo_flight1_code :
  lists (Demo.w_sync Demo.T0) Demo.service (VStr Demo.system) "Flight1/code"
    Demo.flight1_code.
Proof.
  exists (Demo.listing Demo.flight1_code).
  split; [vm_compute; reflexivity |]. split; [reflexivity |].
  apply demo_entries. repeat constructor; eauto.
Qed.

Lemma demo_flight1_images :
  lists_files (Demo.w_sync Demo.T0) Demo.service (VStr Demo.system) "Flight1/code/images"
    Demo.flight1_images.
Proof.
  split; [| apply demo_file_names; repeat constructor; eauto].
  exists (Demo.listing Demo.flight1_images).
  split; [vm_compute; reflexivity |]. split; [reflexivity |].
  apply demo_entries. repeat constructor; eauto.
Qed.

Lemma demo_flight2_code :
  lists (Demo.w_sync Demo.T0) Demo.service (VStr Demo.system) "Flight2/code"
    Demo.flight2_code.
Proof.
  exists (Demo.listing Demo.flight2_code).
  split; [vm_compute; reflexivity |]. split; [reflexivity |].
  apply demo_entries. repeat constructor; eauto.
Qed.

Lemma demo_one_jpeg : exactly_one jpeg_file Demo.flight1_images.
Proof.
  exists [], (Demo.item "file" "a.JPG"), [Demo.item "file" "notes.txt"].
  split; [reflexivity |].
  split; [apply demo_jpeg_file; split; reflexivity |].
  split; [constructor |]. constructor; [| constructor].
  intros Hjpeg. apply demo_jpeg_file in Hjpeg as [_ Hends]. discriminate Hends.
Qed.

Lemma scan_reports_flight_witness :
  matches_of "Flight1"
    (TapisStorageService.scan_system_for_flights (Demo.w_sync Demo.T0) Demo.service
       (VStr Demo.system))
  = [{| flight_name := VStr "Flight1";
        system_id := VStr Demo.system;
        images_path := "Flight1/code/images";
        image_count := 1;
        discovered_at := Demo.T0 |}]
  ∧ matches_of "Flight2"
      (TapisStorageService.scan_system_for_flights (Demo.w_sync Demo.T0) Demo.service
         (VStr Demo.system))
    = [].
Proof.
  split.
  - apply (proj1 (scan_reports_flight (Demo.w_sync Demo.T0) Demo.service
                    (VStr Demo.system) "Flight1" Demo.root_items Demo.flight1_code
                    ltac:(discriminate) demo_root_lists
                    (demo_flight_once "Flight1" [] _ eq_refl
                       ltac:(constructor)
                       ltac:(repeat constructor; eexists _, _;
                             (split; [reflexivity |]); (left + right); discriminate))
                    demo_flight1_code)
            Demo.flight1_images).
    + constructor. apply demo_is_dir. split; reflexivity.
    + exact demo_flight1_images.
    + exact demo_one_jpeg.
  - apply (proj2 (scan_reports_flight (Demo.w_sync Demo.T0) Demo.service
                    (VStr Demo.system) "Flight2" Demo.root_items Demo.flight2_code
                    ltac:(discriminate) demo_root_lists
                    (demo_flight_once "Flight2" [Demo.item "dir" "Flight1"] _ eq_refl
                       ltac:(repeat constructor; eexists; split;
                             [reflexivity | discriminate])
                       ltac:(repeat constructor; eexists _, _;
                             (split; [reflexivity |]); (left + right); discriminate))
                    demo_flight2_code)).
    intros Himages. apply Exists_cons in Himages as [Hdir | Hnil].
    + apply demo_is_dir in Hdir as [_ Hname]. discriminate Hname.
    + inversion Hnil.
Defined.

(** The flight directory Flight1 has [code/images], whose listing has
    exactly one JPEG file, a.JPG, and a file entry whose name is null: the
    scan reports no match.  Nor does it when the root listing has an entry
    that is not an object before the flight, or the listing of [code] one
    before the directory [images]. *)
Lemma unnamed_file_hides_the_flight :
  (lists (Demo.w_files Demo.root_items Demo.flight1_code Demo.images_with_unnamed_file
            Demo.T0)
     Demo.service (VStr Demo.system) "Flight1/code" Demo.flight1_code
   ∧ Exists (is_dir "images") Demo.flight1_code
   ∧ lists (Demo.w_files Demo.root_items Demo.flight1_code Demo.images_with_unnamed_file
              Demo.T0)
       Demo.service (VStr Demo.system) "Flight1/code/images" Demo.images_with_unnamed_file
   ∧ exactly_one jpeg_file Demo.images_with_unnamed_file
   ∧ root_lists (Demo.w_files Demo.root_items Demo.flight1_code
                   Demo.images_with_unnamed_file Demo.T0)
       Demo.service (VStr Demo.system) Demo.root_items
   ∧ exactly_one (is_dir "Flight1") Demo.root_items
   ∧ TapisStorageService.scan_system_for_flights
       (Demo.w_files Demo.root_items Demo.flight1_code Demo.images_with_unnamed_file
          Demo.T0)
       Demo.service (VStr Demo.system)
     = [])
  ∧ (TapisStorageService._make_request
       (Demo.w_files Demo.root_with_stray_entry Demo.flight1_code Demo.flight1_images
          Demo.T0)
       Demo.service "v3/files/ops/ptdatax.project.PT2050-DataX/" "GET" []
     = Ret (Demo.listing Demo.root_with_stray_entry)
     ∧ exactly_one (is_dir "Flight1") Demo.root_with_stray_entry
     ∧ lists (Demo.w_files Demo.root_with_stray_entry Demo.flight1_code
                Demo.flight1_images Demo.T0)
         Demo.service (VStr Demo.system) "Flight1/code" Demo.flight1_code
     ∧ Exists (is_dir "images") Demo.flight1_code
     ∧ lists_files (Demo.w_files Demo.root_with_stray_entry Demo.flight1_code
                      Demo.flight1_images Demo.T0)
         Demo.service (VStr Demo.system) "Flight1/code/images" Demo.flight1_images
     ∧ exactly_one jpeg_file Demo.flight1_images
     ∧ TapisStorageService.scan_system_for_flights
         (Demo.w_files Demo.root_with_stray_entry Demo.flight1_code Demo.flight1_images
            Demo.T0)
         Demo.service (VStr Demo.system)
       = [])
  ∧ (root_lists (Demo.w_files Demo.root_items Demo.code_with_stray_entry
                   Demo.flight1_images Demo.T0)
       Demo.service (VStr Demo.system) Demo.root_items
     ∧ exactly_one (is_dir "Flight1") Demo.root_items
     ∧ TapisStorageService._make_request
         (Demo.w_files Demo.root_items Demo.code_with_stray_entry Demo.flight1_images
            Demo.T0)
         Demo.service "v3/files/ops/ptdatax.project.PT2050-DataX/Flight1/code/" "GET" []
       = Ret (Demo.listing Demo.code_with_stray_entry)
     ∧ Exists (is_dir "images") Demo.code_with_stray_entry
     ∧ lists_files (Demo.w_files Demo.root_items Demo.code_with_stray_entry
                      Demo.flight1_images Demo.T0)
         Demo.service (VStr Demo.system) "Flight1/code/images" Demo.flight1_images
     ∧ exactly_one jpeg_file Demo.flight1_images
     ∧ TapisStorageService.scan_system_for_flights
         (Demo.w_files Demo.root_items Demo.code_with_stray_entry Demo.flight1_images
            Demo.T0)
         Demo.service (VStr Demo.system)
       = []).
Proof.
  assert (∀ w items path,
            TapisStorageService._make_request w Demo.service
              ("v3/files/ops/" ++ py_str (VStr Demo.system) ++ "/" ++ path ++ "/") "GET" []
            = Ret (Demo.listing items) →
            Forall (λ v, ∃ type name, v = Demo.item type name) items →
            lists w Demo.service (VStr Demo.system) path items) as Hlists.
  { intros w items path Hrequest Hitems. exists (Demo.listing items).
    split; [exact Hrequest |]. split; [reflexivity | apply demo_entries, Hitems]. }
  assert (∀ w,
            TapisStorageService._make_request w Demo.service
              ("v3/files/ops/" ++ py_str (VStr Demo.system) ++ "/") "GET" []
            = Ret (Demo.listing Demo.root_items) →
            root_lists w Demo.service (VStr Demo.system) Demo.root_items) as Hroot.
  { intros w Hrequest. exists (Demo.listing Demo.root_items).
    split; [exact Hrequest |]. split; [reflexivity |].
    apply demo_entries. repeat constructor; eauto. }
  assert (exactly_one (is_dir "Flight1") Demo.root_items) as Honce.
  { apply (demo_flight_once "Flight1" [] _ eq_refl); [constructor |].
    repeat constructor; eexists _, _; (split; [reflexivity |]); (left + right);
      discriminate. }
  assert (Exists (is_dir "images") Demo.flight1_code) as Himages
    by (constructor; apply demo_is_dir; split; reflexivity).
  split; [| split].
  - split; [apply Hlists; [vm_compute; reflexivity | repeat constructor; eauto] |].
    split; [exact Himages |]. split.
    { exists (Demo.listing Demo.images_with_unnamed_file).
      split; [vm_compute; reflexivity |]. split; [reflexivity |].
      repeat constructor; eexists; reflexivity. }
    split.
    { exists [], (Demo.item "file" "a.JPG"), [Demo.unnamed_file].
      split; [reflexivity |]. split; [apply demo_jpeg_file; split; reflexivity |].
      split; [constructor |]. constructor; [| constructor].
      intros (d & stem & ext & [= <-] & _ & Hname & _). discriminate Hname. }
    split; [apply Hroot; vm_compute; reflexivity |].
    split; [exact Honce | vm_compute; reflexivity].
  - split; [vm_compute; reflexivity |]. split.
    { exists [VStr "lost+found"], (Demo.item "dir" "Flight1"), [].
      split; [reflexivity |]. split; [apply demo_is_dir; split; reflexivity |].
      split; [| constructor]. constructor; [| constructor].
      intros (d & Hd & _). discriminate Hd. }
    split; [apply Hlists; [vm_compute; reflexivity | repeat constructor; eauto] |].
    split; [exact Himages |]. split.
    { split; [apply Hlists; [vm_compute; reflexivity | repeat constructor; eauto] |].
      apply demo_file_names. repeat constructor; eauto. }
    split; [exact demo_one_jpeg | vm_compute; reflexivity].
  - split; [apply Hroot; vm_compute; reflexivity |]. split; [exact Honce |].
    split; [vm_compute; reflexivity |]. split.
    { apply Exists_cons. right. constructor. apply demo_is_dir. split; reflexivity. }
    split.
    { split; [apply Hlists; [vm_compute; reflexivity | repeat constructor; eauto] |].
      apply demo_file_names. repeat constructor; eauto. }
    split; [exact demo_one_jpeg | vm_compute; reflexivity].
Qed.

(** *** C3 *)

Example demo_rerun :
  TapisFlightDiscoveryService.discover_and_create_projects
    (Demo.w_sync (Demo.T0 + Demo.two_days + 3600000000)%Z) Demo.alice Demo.client Demo.db3
  = (Ret Demo.rerun, Demo.db3).
Proof. vm_compute. reflexivity. Qed.

Example demo_materialised :
  materialised Demo.db3 Demo.alice (VStr Demo.system) (VStr "Flight1").
Proof.
  exists Demo.flight1_project. split; [| split; vm_compute; reflexivity].
  assert (projects Demo.db3 = [Demo.flight1_project]) as ->
    by (vm_compute; reflexivity).
  apply list_elem_of_singleton. reflexivity.
Qed.

Lemma rediscovery_creates_no_duplicate_witness :
  (∀ cp, cp ∈ created_projects Demo.rerun
         → ¬ for_flight (VStr Demo.system) (VStr "Flight1") cp)
  ∧ (∀ p, p ∈ projects Demo.db3 →
          p ∈ projects Demo.db3
          ∨ ∃ cp, cp ∈ created_projects Demo.rerun ∧ cp_project_id cp = Project.id p)
  ∧ (∀ info, system_id info = VStr Demo.system → flight_name info = VStr "Flight1" →
             ∃ found, TapisFlightDiscoveryService._find_existing_project
                        Demo.alice info Demo.db3
                      = (Ret (Some found), Demo.db3)).
Proof.
  exact (rediscovery_creates_no_duplicate
           (Demo.w_sync (Demo.T0 + Demo.two_days + 3600000000)%Z)
           Demo.alice Demo.client Demo.db3 (VStr Demo.system) (VStr "Flight1")
           Demo.rerun Demo.db3 demo_materialised demo_rerun).
Defined.
End Scenario.

(** * More of the scenario, run *)

Section MoreOfTheScenario.
Local Existing Instance ref_lib.

(** A login that was started with the target 'javascript:alert(1)': the
    callback creates alice, logs her in, stores her tokens and deletes the
    state row, and is answered 500, because [HttpResponseRedirect] refuses
    the target. *)
Example refused_target_after_login :
  TapisOAuth2State.redirect_after_auth <$> (states Demo.db_script !! "st4te")
  = Some "javascript:alert(1)"
  ∧ http_response_redirect "javascript:alert(1)" = Raise DisallowedRedirect
  ∧ (TapisOAuth2CallbackView.get Demo.cfg (Demo.w (Demo.T0 + 60000000)%Z)
       Demo.callback_request Demo.db_script).1
    = Ret (JsonResponse [("error", VStr "OAuth2 callback failed")] 500)
  ∧ users (TapisOAuth2CallbackView.get Demo.cfg (Demo.w (Demo.T0 + 60000000)%Z)
             Demo.callback_request Demo.db_script).2 !! "alice"
    = Some Demo.alice
  ∧ session (TapisOAuth2CallbackView.get Demo.cfg (Demo.w (Demo.T0 + 60000000)%Z)
               Demo.callback_request Demo.db_script).2
    = Some 1%nat
  ∧ tokens (TapisOAuth2CallbackView.get Demo.cfg (Demo.w (Demo.T0 + 60000000)%Z)
              Demo.callback_request Demo.db_script).2 !! (1%nat, "demo")
    = Some Demo.alice_token
  ∧ states (TapisOAuth2CallbackView.get Demo.cfg (Demo.w (Demo.T0 + 60000000)%Z)
              Demo.callback_request Demo.db_script).2 !! "st4te"
    = None.
Proof. repeat split; vm_compute; reflexivity. Qed.

(** An authorize request whose target after the login has 201 characters
    is answered 500, and no state row is written. *)
Example long_target_is_refused :
  TapisOAuth2AuthorizeView.get (Demo.w Demo.T0) Demo.long_request "demo" Demo.db0
  = (Ret (JsonResponse [("error", VStr "Failed to initiate OAuth2 flow")] 500), Demo.db0).
Proof. vm_compute. reflexivity. Qed.

(** Alice's second login, an hour after the first one has queued a scan,
    queues nothing. *)
Lemma second_login_within_cooldown_witness :
  TapisOAuth2CallbackView._trigger_flight_discovery
    (Demo.w (Demo.T0 + 3600000000)%Z) Demo.alice Demo.client
    (TapisOAuth2CallbackView._trigger_flight_discovery
       (Demo.w Demo.T0) Demo.alice Demo.client Demo.db1).2
  = (Ret tt,
     (TapisOAuth2CallbackView._trigger_flight_discovery
        (Demo.w Demo.T0) Demo.alice Demo.client Demo.db1).2).
Proof.
  apply (second_login_within_cooldown (Demo.w Demo.T0) (Demo.w (Demo.T0 + 3600000000)%Z)
           Demo.alice Demo.client Demo.db1 "task-1" eq_refl eq_refl).
  vm_compute. reflexivity.
Defined.

(** The scan of alice's second login has created one project and one
    task, and its results say so. *)
Lemma discovery_accounts_for_projects_witness :
  ∃ r db',
    TapisFlightDiscoveryService.discover_and_create_projects
      (Demo.w_sync (Demo.T0 + Demo.two_days)%Z) Demo.alice Demo.client Demo.db2
    = (Ret r, db')
    ∧ ∃ new_projects new_tasks,
        projects db' = (projects Demo.db2 ++ new_projects)%list
        ∧ tasks db' = (tasks Demo.db2 ++ new_tasks)%list
        ∧ same projects_apart Demo.db2 db'
        ∧ projects_created r = length new_projects
        ∧ Forall2 (entry_of_project (User.id Demo.alice)) (created_projects r) new_projects
        ∧ Forall2 task_of_project new_projects new_tasks
        ∧ (projects_created r ≤ flights_discovered r)%nat
        ∧ (errors r ≠ [] → new_projects = []).
Proof.
  eexists _, _. split; [vm_compute; reflexivity |].
  apply (discovery_accounts_for_projects (Demo.w_sync (Demo.T0 + Demo.two_days)%Z)
           Demo.alice Demo.client Demo.db2).
  vm_compute. reflexivity.
Defined.


(** Once alice has revoked her token, she can neither refresh it nor
    scan with it. *)
Lemma revoked_token_is_unusable_witness :
  ∃ client,
    clients (set_tokens (delete (1%nat, "demo")) Demo.db2) !! "demo" = Some client
    ∧ tokens (set_tokens (delete (1%nat, "demo")) Demo.db2)
        !! (User.id Demo.alice, TapisOAuth2Client.client_id client) = None
    ∧ TapisOAuth2TokenRefreshView.post (Demo.w Demo.T0) Demo.alice "demo"
        (set_tokens (delete (1%nat, "demo")) Demo.db2)
      = (Ret (Response [("error", VStr "No token found for this client")] 404),
         set_tokens (delete (1%nat, "demo")) Demo.db2)
    ∧ TapisStorageService.init (Demo.w Demo.T0) Demo.alice client
        (set_tokens (delete (1%nat, "demo")) Demo.db2)
      = (Raise ValueError, set_tokens (delete (1%nat, "demo")) Demo.db2)
    ∧ TapisFlightDiscoveryService.discover_and_create_projects
        (Demo.w Demo.T0) Demo.alice client
        (set_tokens (delete (1%nat, "demo")) Demo.db2)
      = (Raise ValueError, set_tokens (delete (1%nat, "demo")) Demo.db2).
Proof.
  apply (revoked_token_is_unusable (Demo.w Demo.T0) Demo.alice "demo" Demo.db2
           [("message", VStr "Token revoked successfully")]).
  vm_compute. reflexivity.
Defined.


(** A flight directory named 'flight' is not found again in the tags of
    its project. *)
Lemma reserved_flight_name_is_not_read_back_witness :
  flight_info_of_tags (TapisStorageService.flight_tags Scene.reserved) = None.
Proof.
  apply (reserved_flight_name_is_not_read_back Scene.reserved);
    [right; reflexivity | reflexivity].
Defined.

(** Alice stores two preferred systems and reads them back. *)
Lemma preferred_systems_round_trip_witness :
  ∃ p',
    preferences
      (TapisUserPreferencesView.post Demo.T0 Scene.gettext Scene.detail Demo.alice
         (VDict [("preferred_systems", VList (VStr <$> Scene.preferred))]) Demo.db2).2
      !! User.id Demo.alice = Some p'
    ∧ Forall (λ s, startswith s "ptdatax.project." = true) Scene.preferred
    ∧ TapisUserPreferencesList.get_preferred_systems_list p' = Scene.preferred.
Proof.
  apply (preferred_systems_round_trip Demo.T0 Scene.gettext Scene.detail Demo.alice
           [("preferred_systems", VList (VStr <$> Scene.preferred))] Scene.preferred
           (match (TapisUserPreferencesView.post Demo.T0 Scene.gettext Scene.detail
                     Demo.alice
                     (VDict [("preferred_systems", VList (VStr <$> Scene.preferred))])
                     Demo.db2).1 with
            | Ret (Response body _) => body
            | _ => []
            end)
           Demo.db2).
  - vm_compute. reflexivity.
  - reflexivity.
  - repeat constructor.
Defined.

(** Alice logs in again: her account keeps its id and its name. *)
Lemma login_keeps_the_account_witness :
  ∃ user db' info,
    TapisOAuth2Backend.authenticate Demo.cfg (Demo.T0 + 60000000)%Z (VStr Demo.jwt) Demo.db2
    = (Ret (Some user), db')
    ∧ TapisOAuth2Backend._validate_token_with_tapis Demo.cfg (Demo.T0 + 60000000)%Z
        (VStr Demo.jwt)
      = Ret (Some info)
    ∧ User.id user = User.id Demo.alice
    ∧ User.username user = User.username Demo.alice
    ∧ (User.email user = User.email Demo.alice
       ∨ (truthy (TapisOAuth2Backend.email info) = true
          ∧ User.email user = py_str (TapisOAuth2Backend.email info)))
    ∧ (User.first_name user = User.first_name Demo.alice
       ∨ (truthy (TapisOAuth2Backend.given_name info) = true
          ∧ User.first_name user = py_str (TapisOAuth2Backend.given_name info)))
    ∧ (User.last_name user = User.last_name Demo.alice
       ∨ (truthy (TapisOAuth2Backend.family_name info) = true
          ∧ User.last_name user = py_str (TapisOAuth2Backend.family_name info)))
    ∧ (∀ k, k ≠ User.username Demo.alice → users db' !! k = users Demo.db2 !! k).
Proof.
  eexists _, _, _. split; [vm_compute; reflexivity |].
  split; [vm_compute; reflexivity |].
  apply (login_keeps_the_account Demo.cfg (Demo.T0 + 60000000)%Z (VStr Demo.jwt) Demo.db2);
    vm_compute; reflexivity.
Defined.

(** With the files API unreachable, alice's scan reports nothing, and no
    error. *)
Lemma discovery_hides_a_failed_listing_witness :
  TapisFlightDiscoveryService.discover_and_create_projects
    (Demo.w (Demo.T0 + 120000000)%Z) Demo.alice Demo.client Demo.db2
  = (Ret (nothing_found 0), Demo.db2).
Proof.
  apply (discovery_hides_a_failed_listing (Demo.w (Demo.T0 + 120000000)%Z)
           Demo.alice Demo.client Demo.db2 Demo.alice_token RequestException).
  - vm_compute. reflexivity.
  - vm_compute. reflexivity.
  - intros headers. reflexivity.
Defined.

(** The status alice is shown is the same once the secrets of her row
    are replaced. *)
Lemma status_hides_the_secrets_witness :
  ∃ answer,
    TapisOAuth2StatusView.get Demo.T0 Demo.alice Demo.db2 = (Ret answer, Demo.db2)
    ∧ TapisOAuth2StatusView.get Demo.T0 Demo.alice
        (set_tokens (fmap Scene.redacted) Demo.db2)
      = (Ret answer, set_tokens (fmap Scene.redacted) Demo.db2).
Proof.
  apply (status_hides_the_secrets Demo.T0 Demo.alice Demo.db2 Scene.redacted).
  intros t. unfold same_but_secrets, Scene.redacted. cbn.
  destruct (truthy (TapisOAuth2Token.access_token t)) eqn:Haccess;
    repeat split; auto.
Defined.

(** Alice has the project of the first flight already; a request that
    carries that flight twice, and an entry without a system, gives her two
    more projects of the same flight. *)
Lemma given_flights_skip_the_duplicate_check_witness :
  ∃ results db' new,
    TapisStorageViewSet.create_projects (Demo.w_sync (Demo.T0 + Demo.two_days)%Z)
      Scene.gettext Scene.detail (Some Demo.client) Demo.alice
      (VDict [("flights", VList Scene.flights_given)]) Demo.db3
    = (Ret (Response [("success", VBool true); ("results", given_value results)] 200), db')
    ∧ projects db' = (projects Demo.db3 ++ new)%list
    ∧ Forall2 (project_of_given Demo.alice)
        (filter (λ i, has_members i = true) Scene.flights_given) new
    ∧ given_flights results = length Scene.flights_given
    ∧ given_created results = length new
    ∧ given_errors results = [].
Proof.
  apply (given_flights_skip_the_duplicate_check (Demo.w_sync (Demo.T0 + Demo.two_days)%Z)
           Scene.gettext Scene.detail Demo.client Demo.alice Demo.alice_token
           [("flights", VList Scene.flights_given)] Scene.flights_given Demo.db3).
  - vm_compute. reflexivity.
  - vm_compute. reflexivity.
  - reflexivity.
  - reflexivity.
  - discriminate.
Defined.
End MoreOfTheScenario.
